(** * NodeJS-RabbitMQ: message envelope, publisher, consumer and
      reconnection logic, embedded in Rocq.

    The development follows the layout of the repository:
    - [JS]: the fragment of JavaScript the sources rely on (values,
      [typeof], truthiness, [String.prototype.trim], object spread,
      exceptions);
    - [Platform], [Effects]: the runtime services the sources call and
      the monad their effects live in;
    - [Errors]: [src/utils/errors.js];
    - [Config]: [src/config/rabbitmq.js];
    - [Message]: [src/models/message.js];
    - [Connection]: the [RabbitMQConnection] class;
    - [Consumer], [Publisher]: the two clients of the broker channel;
    - the vocabulary of the properties and [Sample], a platform and inputs
      to run the definitions on;
    - [ConnectionClose], [ConsumerLifecycle]: closing the manager, and
      [initialize], [cancel] and [close] of the consumer;
    - [Text], [User]: [src/models/user.js] and the pattern it tests
      addresses with;
    - [UserService], [Http], [NotificationService]: the registration of
      a user, its HTTP face and the handler of the notification service.

    Definitions come first, the properties of the specification after,
    and the tests of the repository replayed on the model last. *)

From Stdlib Require Import ZArith NArith List String Ascii Lia Bool.
From stdpp Require Import base option list gmap.
Import ListNotations.

Set Warnings "-register-all".
Local Open Scope Z_scope.

(* ===================================================================== *)
(** * The JavaScript fragment *)
(* ===================================================================== *)

Module JS.

(** A JavaScript string is a sequence of UTF-16 code units. *)
Abbreviation jsstring := (list N).

(** Source literals are ASCII; [str] turns a Rocq literal into one. *)
Definition str (s : string) : jsstring :=
  map N_of_ascii (list_ascii_of_string s).

(** Numbers.  Only two tests are ever applied to a number by the modelled
    sources: "is it zero or [NaN]" (truthiness) and [<] on the retry
    counter; integers and [NaN] are kept apart, the floating-point
    representation is not modelled. *)
Inductive number :=
| NaN
| Num (z : Z).

Inductive value :=
| VUndefined
| VNull
| VBool (b : bool)
| VNumber (n : number)
| VString (s : jsstring)
| VArray (items : list value)
| VObject (props : gmap (list N) value).

(** [typeof v]. *)
Definition typeof (v : value) : jsstring :=
  match v with
  | VUndefined => str "undefined"
  | VNull => str "object"
  | VBool _ => str "boolean"
  | VNumber _ => str "number"
  | VString _ => str "string"
  | VArray _ => str "object"
  | VObject _ => str "object"
  end.

(** [ToBoolean]: the falsy values are [undefined], [null], [false], [0],
    [NaN] and the empty string. *)
Definition truthy (v : value) : bool :=
  match v with
  | VUndefined | VNull => false
  | VBool b => b
  | VNumber NaN => false
  | VNumber (Num z) => negb (z =? 0)
  | VString s => negb (bool_decide (s = []))
  | VArray _ | VObject _ => true
  end.

(** [a < b] on numbers: false as soon as one side is [NaN]. *)
Definition num_lt (a b : number) : bool :=
  match a, b with
  | Num x, Num y => x <? y
  | _, _ => false
  end.

(** ** [String.prototype.trim] *)

(** WhiteSpace and LineTerminator code units of ECMAScript: TAB, LF, VT,
    FF, CR, SP, NBSP, U+1680, U+2000..U+200A, LS, PS, U+202F, U+205F,
    U+3000 and the BOM. *)
Definition is_white_space (c : N) : bool :=
  ((9 <=? c) && (c <=? 13) || (c =? 32) || (c =? 160) || (c =? 5760)
   || (8192 <=? c) && (c <=? 8202) || (c =? 8232) || (c =? 8233)
   || (c =? 8239) || (c =? 8287) || (c =? 12288) || (c =? 65279))%N.

Fixpoint trim_start (s : jsstring) : jsstring :=
  match s with
  | c :: s' => if is_white_space c then trim_start s' else s
  | [] => []
  end.

Definition trim (s : jsstring) : jsstring :=
  rev (trim_start (rev (trim_start s))).

(** ** Objects *)

Fixpoint digits_of (fuel n : nat) (acc : jsstring) : jsstring :=
  match fuel with
  | O => acc
  | S fuel' =>
      let acc' := N.of_nat (48 + n mod 10) :: acc in
      if (n / 10 =? 0)%nat then acc' else digits_of fuel' (n / 10)%nat acc'
  end.

(** The property key of an array index. *)
Definition index_key (i : nat) : jsstring := digits_of (S i) i [].

Fixpoint indexed {A} (f : A -> value) (i : nat) (l : list A)
  : gmap (list N) value :=
  match l with
  | [] => ∅
  | x :: l' => <[index_key i := f x]> (indexed f (S i) l')
  end.

(** The own enumerable properties of a value, that is what a spread
    [{...v}] copies: every property of an object, the elements of an
    array, the code units of a string, nothing for the other values
    ([undefined] and [null] included). *)
Definition own_enumerable (v : value) : gmap (list N) value :=
  match v with
  | VObject props => props
  | VArray items => indexed (fun x => x) 0 items
  | VString s => indexed (fun c => VString [c]) 0 s
  | _ => ∅
  end.

(** [{...a, ...b}]: the properties of [b] win. *)
Definition spread2 (a b : value) : gmap (list N) value :=
  own_enumerable b ∪ own_enumerable a.

(** ** Exceptions *)

(** The classes of the error objects that occur: the built-in ones, the
    hierarchy of [src/utils/errors.js], and any other class by name (the
    broker library throws its own). *)
Inductive error_class :=
| ErrorClass
| TypeErrorClass
| SyntaxErrorClass
| AppErrorClass
| ValidationErrorClass
| NotFoundErrorClass
| MessageQueueErrorClass
| ForeignClass (name : jsstring).

(** A thrown error object: the repository's own code, the platform and
    the broker library throw nothing else.  Its [name] property is kept
    apart from its class because [AppError] does not set it. *)
Inductive exn :=
| Exn (cls : error_class) (name message : jsstring)
      (statusCode : option Z) (originalError : option exn).

Definition exn_class (e : exn) : error_class :=
  let 'Exn c _ _ _ _ := e in c.
Definition exn_name (e : exn) : jsstring :=
  let 'Exn _ n _ _ _ := e in n.
Definition exn_message (e : exn) : jsstring :=
  let 'Exn _ _ m _ _ := e in m.

(** [new Error(message)] and [new TypeError(message)]. *)
Definition Error (message : jsstring) : exn :=
  Exn ErrorClass (str "Error") message None None.
Definition TypeError (message : jsstring) : exn :=
  Exn TypeErrorClass (str "TypeError") message None None.
Definition SyntaxError (message : jsstring) : exn :=
  Exn SyntaxErrorClass (str "SyntaxError") message None None.

(** What code of the caller (a message handler) can throw, or reject its
    promise with: an error object, or any other value ([Promise.reject()]
    rejects with [undefined]). *)
Inductive thrown :=
| ThrownError (e : exn)
| ThrownValue (v : value).

(** The outcome of evaluating code: a value, or something thrown.  For an
    [async] function, [Normal] is a resolved promise and [Throw] a
    rejected one. *)
Inductive outcome (E A : Type) :=
| Normal (a : A)
| Throw (e : E).
Arguments Normal {E A} a.
Arguments Throw {E A} e.

(** The outcome of code that throws error objects only. *)
Abbreviation completion := (outcome exn).

(** A promise of the repository's own code, as its caller sees it. *)
Definition as_promise {A} (c : completion A) : outcome thrown A :=
  match c with
  | Normal a => Normal a
  | Throw e => Throw (ThrownError e)
  end.

(** ** Conversion to text *)

(** Whether [String(v)], as a template literal computes it, returns.  An
    object is converted by its [toString] method; an own property named
    [toString] hides [Object.prototype.toString], no property of a
    [value] is callable, and [Object.prototype.valueOf], tried next,
    returns the object itself: the conversion then throws a [TypeError].
    An array is converted by [join], which converts every element other
    than [undefined] and [null]. *)
Fixpoint stringifiable (v : value) : bool :=
  match v with
  | VObject props =>
      match props !! str "toString" with
      | None => true
      | Some _ => false
      end
  | VArray items => forallb stringifiable items
  | _ => true
  end.

End JS.
Export JS.

(* ===================================================================== *)
(** * Runtime services and effects *)
(* ===================================================================== *)

(** What the sources obtain from the platform and from libraries that are
    not part of the repository: [JSON], [Buffer], the [uuid] package and
    the system clock.  [uuid_at n] is the [n]-th identifier the process
    draws and [now_at n] the [n]-th reading of the clock, in milliseconds
    since the epoch. *)
Class Platform := {
  JSON_parse : jsstring -> option value;      (* [None]: SyntaxError *)
  JSON_stringify : value -> jsstring;         (* on objects, arrays, null *)
  Buffer_from : jsstring -> list Byte.byte;   (* UTF-8 encoding *)
  Buffer_toString : list Byte.byte -> jsstring;
  uuid_at : nat -> jsstring;
  uuid_length : forall n, length (uuid_at n) = 36%nat;
  now_at : nat -> Z;
  toISOString : Z -> jsstring
}.

Module Effects.

Inductive log_level := LogInfo | LogWarn | LogError | LogDebug.

(** A delivery handed to a consumer callback by the broker library. *)
Record Delivery := {
  content : list Byte.byte;
  deliveryTag : N
}.

(** The calls a client makes on its collaborators (the connection
    singleton, the channel, the message handler, the logger), in the
    order they are made. *)
Inductive call :=
| CreateChannel
| AssertExchange (exchange exchangeType : jsstring)
                 (options : gmap (list N) value)
| ChannelPublish (exchange : jsstring) (routingKey : value)
                 (body : list Byte.byte) (options : gmap (list N) value)
| ChannelConsume (queue : jsstring) (options : gmap (list N) value)
| HandlerCall (parsed : value) (msg : Delivery)
| ChannelAck (msg : Delivery)
| ChannelReject (msg : Delivery) (requeue : bool)
| Log (level : log_level).

Record World := {
  calls : list call;
  uuid_reads : nat;
  clock_reads : nat
}.

Definition world0 : World :=
  {| calls := []; uuid_reads := 0; clock_reads := 0 |}.

(** Computations that may throw and that act on the world. *)
Definition M (A : Type) : Type := World -> completion A * World.

Definition ret {A} (a : A) : M A := fun w => (Normal a, w).

Definition throw {A} (e : exn) : M A := fun w => (Throw e, w).

Definition bind {A B} (m : M A) (k : A -> M B) : M B :=
  fun w =>
    match m w with
    | (Normal a, w') => k a w'
    | (Throw e, w') => (Throw e, w')
    end.

(** [try { m } catch (error) { h error }]. *)
Definition try_catch {A} (m : M A) (h : exn -> M A) : M A :=
  fun w =>
    match m w with
    | (Normal a, w') => (Normal a, w')
    | (Throw e, w') => h e w'
    end.

(** Record a call and take the collaborator's answer. *)
Definition perform {A} (c : call) (answer : completion A) : M A :=
  fun w =>
    (answer,
     {| calls := calls w ++ [c];
        uuid_reads := uuid_reads w;
        clock_reads := clock_reads w |}).

Definition logger (l : log_level) : M unit := perform (Log l) (Normal tt).

Section WithPlatform.
Context `{Platform}.

(** [uuidv4()]. *)
Definition uuidv4 : M jsstring :=
  fun w =>
    (Normal (uuid_at (uuid_reads w)),
     {| calls := calls w;
        uuid_reads := S (uuid_reads w);
        clock_reads := clock_reads w |}).

(** [Date.now()], and the instant read by [new Date()]. *)
Definition Date_now : M Z :=
  fun w =>
    (Normal (now_at (clock_reads w)),
     {| calls := calls w;
        uuid_reads := uuid_reads w;
        clock_reads := S (clock_reads w) |}).

(** [JSON.parse(text)]. *)
Definition parse_json (text : jsstring) : M value :=
  match JSON_parse text with
  | Some v => ret v
  | None => throw (SyntaxError (str "Unexpected token in JSON"))
  end.
End WithPlatform.

(** [a || b], with [b] evaluated only when [a] is falsy. *)
Definition js_or (a : value) (b : M value) : M value :=
  if truthy a then ret a else b.

(** [v.key] for the keys the sources read; none of them is defined on a
    built-in prototype, so the result is the own property or
    [undefined].  Reading a property of [undefined] or [null] throws. *)
Definition get_prop (v : value) (key : jsstring) : M value :=
  match v with
  | VUndefined | VNull =>
      throw (TypeError (str "Cannot read properties of undefined or null"))
  | VArray items =>
      if bool_decide (key = str "length")
      then ret (VNumber (Num (Z.of_nat (length items))))
      else ret (default VUndefined (own_enumerable v !! key))
  | VString s =>
      if bool_decide (key = str "length")
      then ret (VNumber (Num (Z.of_nat (length s))))
      else ret (default VUndefined (own_enumerable v !! key))
  | _ => ret (default VUndefined (own_enumerable v !! key))
  end.

(** [`${v}`]: the conversion of [v] to text inside a template literal.
    The text goes to the log, whose lines are not kept; what matters is
    whether the conversion returns. *)
Definition to_text (v : value) : M unit :=
  if stringifiable v then ret tt
  else throw (TypeError (str "Cannot convert object to primitive value")).

(** [`${error.message}`] in a [catch] block whose [try] block awaited a
    promise of the caller: the property is read from whatever was
    thrown, then converted. *)
Definition message_text (error : thrown) : M unit :=
  match error with
  | ThrownError e => to_text (VString (exn_message e))
  | ThrownValue v => bind (get_prop v (str "message")) to_text
  end.

(** ** Code that awaits a promise of the caller *)

(** [M], for a block that can be left with any thrown value. *)
Definition MT (A : Type) : Type := World -> outcome thrown A * World.

(** Code of the repository inside such a block. *)
Definition lift {A} (m : M A) : MT A :=
  fun w => (as_promise (fst (m w)), snd (m w)).

(** [await promise], recorded as the call [c]. *)
Definition await {A} (c : call) (promise : outcome thrown A) : MT A :=
  fun w =>
    (promise,
     {| calls := calls w ++ [c];
        uuid_reads := uuid_reads w;
        clock_reads := clock_reads w |}).

(** [m; k]. *)
Definition and_then {A B} (m : MT A) (k : MT B) : MT B :=
  fun w =>
    match m w with
    | (Normal _, w') => k w'
    | (Throw error, w') => (Throw error, w')
    end.

(** [try { m } catch (error) { h error }] around such a block. *)
Definition try_catch_thrown {A} (m : MT A) (h : thrown -> M A) : M A :=
  fun w =>
    match m w with
    | (Normal a, w') => (Normal a, w')
    | (Throw error, w') => h error w'
    end.

(** The deliveries acknowledged, the deliveries rejected (with the
    requeue flag) and the messages written, in a list of calls. *)
Definition acked (cs : list call) : list Delivery :=
  omap (fun c => match c with ChannelAck msg => Some msg | _ => None end) cs.

Definition rejected (cs : list call) : list (Delivery * bool) :=
  omap (fun c => match c with
                 | ChannelReject msg requeue => Some (msg, requeue)
                 | _ => None
                 end) cs.

Definition published (cs : list call)
  : list (jsstring * value * list Byte.byte * gmap (list N) value) :=
  omap (fun c => match c with
                 | ChannelPublish exchange routingKey body options =>
                     Some (exchange, routingKey, body, options)
                 | _ => None
                 end) cs.

(** The calls made by a computation started in the empty world. *)
Definition trace_of {A} (m : M A) : list call := calls (snd (m world0)).
Definition result_of {A} (m : M A) : completion A := fst (m world0).

End Effects.
Export Effects.

Notation "'let!' x ':=' m 'in' k" := (bind m (fun x => k))
  (at level 10, x name, m at level 100, k at level 200,
   format "'[v' 'let!'  x  ':='  m  'in' '/' k ']'").
Notation "'do!' m 'in' k" := (bind m (fun _ => k))
  (at level 10, m at level 100, k at level 200,
   format "'[v' 'do!'  m  'in' '/' k ']'").

(* ===================================================================== *)
(** * src/utils/errors.js *)
(* ===================================================================== *)

Module Errors.

(** [class AppError extends Error]; [name] is inherited. *)
Definition AppError (message : jsstring) (statusCode : option Z) : exn :=
  Exn AppErrorClass (str "Error") message
      (Some (default 500 statusCode)) None.

Definition ValidationError (message : jsstring) : exn :=
  Exn ValidationErrorClass (str "ValidationError") message (Some 400) None.

Definition NotFoundError (resource : option jsstring) : exn :=
  Exn NotFoundErrorClass (str "NotFoundError")
      (default (str "Resource") resource ++ str " not found")
      (Some 404) None.

(** [class MessageQueueError]: the only broker-specific error class of
    the repository. *)
Definition MessageQueueError (message : jsstring)
           (originalError : option exn) : exn :=
  Exn MessageQueueErrorClass (str "MessageQueueError")
      (str "Message queue operation failed: " ++ message)
      (Some 500) originalError.

(** [e instanceof AppError]. *)
Definition instanceof_AppError (e : exn) : bool :=
  match exn_class e with
  | AppErrorClass | ValidationErrorClass | NotFoundErrorClass
  | MessageQueueErrorClass => true
  | _ => false
  end.

(** [e instanceof MessageQueueError]. *)
Definition instanceof_MessageQueueError (e : exn) : bool :=
  match exn_class e with
  | MessageQueueErrorClass => true
  | _ => false
  end.

End Errors.

(* ===================================================================== *)
(** * src/config/rabbitmq.js *)
(* ===================================================================== *)

Module Config.

(** [parseInt(s, 10)]: leading white space, an optional sign, then the
    longest run of decimal digits; [NaN] when there is no digit. *)
Fixpoint digits_prefix (s : jsstring) (acc : option Z) : option Z :=
  match s with
  | c :: s' =>
      if ((48 <=? c) && (c <=? 57))%N
      then digits_prefix s' (Some (10 * default 0 acc + Z.of_N (c - 48)))
      else acc
  | [] => acc
  end.

Definition parseInt (s : jsstring) : number :=
  let unsigned r := match digits_prefix r None with
                    | Some z => Num z
                    | None => NaN
                    end in
  match trim_start s with
  | 45%N :: r => match digits_prefix r None with
                 | Some z => Num (- z)
                 | None => NaN
                 end
  | 43%N :: r => unsigned r
  | r => unsigned r
  end.

Record connection_config := {
  protocol : jsstring;
  hostname : jsstring;
  port : number;
  username : jsstring;
  password : jsstring;
  vhost : jsstring;
  reconnectInterval : number;
  reconnectAttempts : number
}.

Record exchange_config := {
  exchange_name : jsstring;
  exchange_type : jsstring;
  exchange_options : gmap (list N) value
}.

Record queue_config := {
  queue_name : jsstring;
  queue_options : gmap (list N) value
}.

Record t := {
  connection : connection_config;
  exchange : exchange_config;
  queue : queue_config;
  routingKey : jsstring;
  messageOptions : gmap (list N) value
}.

(** [{ durable: true, autoDelete: false }]. *)
Definition durable_options : gmap (list N) value :=
  <[str "durable" := VBool true]> (<[str "autoDelete" := VBool false]> ∅).

Section WithEnvironment.
(** [process.env]. *)
Variable env : gmap (list N) (list N).

(** [process.env.NAME || fallback]: the fallback is taken when the
    variable is unset or empty. *)
Definition env_or (name fallback : string) : jsstring :=
  match env !! str name with
  | Some (c :: s) => c :: s
  | _ => str fallback
  end.

(** The exported configuration object. *)
Definition load : t :=
  {| connection :=
       {| protocol := str "amqp";
          hostname := env_or "RABBITMQ_HOST" "localhost";
          port := parseInt (env_or "RABBITMQ_PORT" "5672");
          username := env_or "RABBITMQ_USER" "guest";
          password := env_or "RABBITMQ_PASSWORD" "guest";
          vhost := env_or "RABBITMQ_VHOST" "/";
          reconnectInterval :=
            parseInt (env_or "RABBITMQ_RECONNECT_INTERVAL" "5000");
          reconnectAttempts :=
            parseInt (env_or "RABBITMQ_RECONNECT_ATTEMPTS" "10") |};
     exchange :=
       {| exchange_name := env_or "RABBITMQ_EXCHANGE" "message_exchange";
          exchange_type := str "topic";
          exchange_options := durable_options |};
     queue :=
       {| queue_name := env_or "RABBITMQ_QUEUE" "message_queue";
          queue_options := durable_options |};
     routingKey := env_or "RABBITMQ_ROUTING_KEY" "message.new";
     messageOptions := <[str "persistent" := VBool true]> ∅ |}.
End WithEnvironment.

End Config.

(* ===================================================================== *)
(** * src/models/message.js *)
(* ===================================================================== *)

Module Message.
Section WithPlatform.
Context `{Platform}.

(** The fields of a [Message] instance.  They are ordinary mutable
    properties, so each one may hold any value. *)
Record t := {
  id : value;
  timestamp : value;
  type : value;
  data : value;
  metadata : value
}.

(** The defaults of the constructor's signature, [type = "default"] and
    [metadata = {}]: a default applies when the argument is
    [undefined]. *)
Definition type_or_default (type : value) : value :=
  match type with VUndefined => VString (str "default") | _ => type end.
Definition metadata_or_default (metadata : value) : value :=
  match metadata with VUndefined => VObject ∅ | _ => metadata end.

(** [constructor(data, type = "default", metadata = {})]. *)
Definition new (data type metadata : value) : M t :=
  let type := type_or_default type in
  let metadata := metadata_or_default metadata in
  let! uuid := uuidv4 in
  let! now := Date_now in
  let! date := Date_now in
  ret {| id := VString uuid;
         timestamp := VNumber (Num now);
         type := type;
         data := data;
         metadata :=
           VObject (<[str "createdAt" := VString (toISOString date)]>
                      (own_enumerable metadata)) |}.

(** [validate()]. *)
Definition validate (this : t) : completion bool :=
  match data this with
  | VUndefined | VNull => Throw (Error (str "Message data is required"))
  | _ =>
      match type this with
      | VString s =>
          if bool_decide (trim s = [])
          then Throw (Error (str "Message type must be a non-empty string"))
          else Normal true
      | _ => Throw (Error (str "Message type must be a non-empty string"))
      end
  end.

(** [toJSON()]. *)
Definition toJSON (this : t) : value :=
  VObject (<[str "id" := id this]>
          (<[str "timestamp" := timestamp this]>
          (<[str "type" := type this]>
          (<[str "data" := data this]>
          (<[str "metadata" := metadata this]> ∅))))).

(** [static fromJSON(rawMessage)]. *)
Definition fromJSON (rawMessage : value) : M t :=
  let! parsed := match rawMessage with
                 | VString text => parse_json text
                 | _ => ret rawMessage
                 end in
  let! parsed_data := get_prop parsed (str "data") in
  let! parsed_type := get_prop parsed (str "type") in
  let! parsed_metadata := get_prop parsed (str "metadata") in
  let! message := new parsed_data parsed_type parsed_metadata in
  let! parsed_id := get_prop parsed (str "id") in
  let! new_id := js_or parsed_id
                   (let! uuid := uuidv4 in ret (VString uuid)) in
  let! parsed_timestamp := get_prop parsed (str "timestamp") in
  let! new_timestamp := js_or parsed_timestamp
                          (let! now := Date_now in ret (VNumber (Num now))) in
  ret {| id := new_id;
         timestamp := new_timestamp;
         type := type message;
         data := data message;
         metadata := metadata message |}.

End WithPlatform.
End Message.

(* ===================================================================== *)
(** * src/rabbitmq/connection.js: class RabbitMQConnection *)
(* ===================================================================== *)

Module Connection.

(** The fields of the manager.  Connections and channels of the broker
    library are opaque handles. *)
Record t := {
  connection : option N;
  channel : option N;
  connectionRetries : Z;
  isConnecting : bool
}.

(** What a method leaves behind besides the new fields: a timer whose
    callback calls [connect()], or a log line. *)
Inductive effect :=
| SetTimeout (delay : number)
| Logged (level : log_level).

(** [constructor()]. *)
Definition new : t :=
  {| connection := None; channel := None;
     connectionRetries := 0; isConnecting := false |}.

Section WithConfig.
Variable config : Config.t.

(** [handleConnectionError()]. *)
Definition handleConnectionError (this : t) : t * list effect :=
  let this := {| connection := None; channel := None;
                 connectionRetries := connectionRetries this;
                 isConnecting := isConnecting this |} in
  if num_lt (Num (connectionRetries this))
        (Config.reconnectAttempts (Config.connection config))
  then
    let delay := Config.reconnectInterval (Config.connection config) in
    ({| connection := connection this; channel := channel this;
        connectionRetries := connectionRetries this + 1;
        isConnecting := isConnecting this |},
     [Logged LogInfo; SetTimeout delay])
  else (this, [Logged LogError]).

(** [connect()] up to its [await amqp.connect(...)]: nothing happens
    when a connection is held or an attempt is in flight (the caller
    then only waits); otherwise the attempt starts. *)
Definition connect_begin (this : t) : t * list effect :=
  match connection this with
  | Some _ => (this, [])
  | None =>
      if isConnecting this then (this, [])
      else ({| connection := None; channel := channel this;
               connectionRetries := connectionRetries this;
               isConnecting := true |}, [Logged LogInfo])
  end.

(** [connect()] from the moment [amqp.connect(...)] settles: the [try]
    body on success, the [catch] block on failure, then [finally]. *)
Definition connect_settle (outcome : completion N) (this : t)
  : t * list effect :=
  match outcome with
  | Normal c =>
      ({| connection := Some c; channel := channel this;
          connectionRetries := 0; isConnecting := false |},
       [Logged LogInfo])
  | Throw _ =>
      let '(this', effects) := handleConnectionError this in
      ({| connection := connection this'; channel := channel this';
          connectionRetries := connectionRetries this';
          isConnecting := false |},
       Logged LogError :: effects)
  end.

(** What can happen to the retry counter and to the timers: [connect()]
    is called (by a timer that fires or through [createChannel()]), the
    pending [amqp.connect] settles, or a connection emits "error" or
    "close" (the two listeners installed by [connect()]).  The rest of
    [createChannel()] and [close()] neither reads nor writes the counter
    and sets no timer.  Events may come in any order here, also in orders
    the event loop never produces. *)
Inductive event :=
| ConnectCalled
| ConnectSettled (outcome : completion N)
| ConnectionError
| ConnectionClosed.

Definition step (this : t) (ev : event) : t * list effect :=
  match ev with
  | ConnectCalled => connect_begin this
  | ConnectSettled outcome => connect_settle outcome this
  | ConnectionError =>
      let '(this', effects) := handleConnectionError this in
      (this', Logged LogError :: effects)
  | ConnectionClosed =>
      let '(this', effects) := handleConnectionError this in
      (this', Logged LogWarn :: effects)
  end.

Fixpoint run (this : t) (evs : list event) : t * list effect :=
  match evs with
  | [] => (this, [])
  | ev :: evs' =>
      let '(this', effects) := step this ev in
      let '(this'', effects') := run this' evs' in
      (this'', effects ++ effects')
  end.

End WithConfig.

(** A connection failure: an event that runs [handleConnectionError]. *)
Definition is_failure (ev : event) : bool :=
  match ev with
  | ConnectSettled (Throw _) | ConnectionError | ConnectionClosed => true
  | _ => false
  end.

(** A successful [connect()], which resets the retry counter. *)
Definition is_success (ev : event) : bool :=
  match ev with
  | ConnectSettled (Normal _) => true
  | _ => false
  end.

Definition is_timeout (e : effect) : bool :=
  match e with SetTimeout _ => true | Logged _ => false end.

(** The number of reconnect attempts scheduled. *)
Definition scheduled (effects : list effect) : nat :=
  length (List.filter is_timeout effects).

Definition failures (evs : list event) : nat :=
  length (List.filter is_failure evs).

End Connection.

(* ===================================================================== *)
(** * The broker channel, as seen by the two clients *)
(* ===================================================================== *)

(** How the channel of the broker library answers each call: it returns,
    or it throws (a closed channel throws on every operation). *)
Record Channel := {
  assertExchange : jsstring -> jsstring -> gmap (list N) value
                   -> completion unit;
  channel_publish : jsstring -> value -> list Byte.byte
                    -> gmap (list N) value -> completion value;
  channel_consume : jsstring -> gmap (list N) value -> completion jsstring;
  ack : Delivery -> completion unit;
  reject : Delivery -> bool -> completion unit
}.

(* ===================================================================== *)
(** * src/rabbitmq/connection.js (second part): class Consumer *)
(* ===================================================================== *)

Module Consumer.
Section WithPlatform.
Context `{Platform}.

(** [rabbitMQConnection.createChannel()], awaited. *)
Variable createChannel : completion Channel.

Record t := {
  exchange : jsstring;
  exchangeType : jsstring;
  exchangeOptions : gmap (list N) value;
  queue : jsstring;
  queueOptions : gmap (list N) value;
  defaultRoutingKey : jsstring;
  consumerTag : option jsstring
}.

(** [constructor()]. *)
Definition new (config : Config.t) : t :=
  {| exchange := Config.exchange_name (Config.exchange config);
     exchangeType := Config.exchange_type (Config.exchange config);
     exchangeOptions := Config.exchange_options (Config.exchange config);
     queue := Config.queue_name (Config.queue config);
     queueOptions := Config.queue_options (Config.queue config);
     defaultRoutingKey := Config.routingKey config;
     consumerTag := None |}.

(** [{ noAck: false, ...options }], with [options = {}] by default. *)
Definition consumeOptions (options : value) : gmap (list N) value :=
  spread2 (VObject (<[str "noAck" := VBool false]> ∅)) options.

(** [consumeOptions.noAck]. *)
Definition noAck (opts : gmap (list N) value) : value :=
  default VUndefined (opts !! str "noAck").

(** [msg.content.toString()], read as JSON when it is JSON and kept as
    text otherwise. *)
Definition parsedContent (msg : Delivery) : value :=
  let text := Buffer_toString (content msg) in
  match JSON_parse text with
  | Some v => v
  | None => VString text
  end.

(** The callback handed to [channel.consume]: [async (msg) => ...].
    [messageHandler] gives the promise the handler returns, once settled:
    the handler is the caller's code and may reject with any value.  The
    [catch] block reads [error.message] for its log line before it does
    anything else. *)
Definition on_message (channel : Channel)
           (messageHandler : value -> Delivery -> outcome thrown unit)
           (opts : gmap (list N) value)
           (msg : option Delivery) : M unit :=
  match msg with
  | None => logger LogWarn
  | Some msg =>
      try_catch_thrown
        (let parsedContent := parsedContent msg in
         and_then (lift (logger LogDebug))
        (and_then (await (HandlerCall parsedContent msg)
                         (messageHandler parsedContent msg))
                  (lift (if negb (truthy (noAck opts))
                         then do! perform (ChannelAck msg) (ack channel msg) in
                              logger LogDebug
                         else ret tt))))
        (fun error =>
           do! message_text error in
           do! logger LogError in
           if negb (truthy (noAck opts))
           then do! perform (ChannelReject msg false)
                            (reject channel msg false) in
                logger LogDebug
           else ret tt)
  end.

(** [consume(messageHandler, options = {})]: the consumer tag, the
    updated consumer, and the callback that was registered. *)
Definition consume (this : t)
           (messageHandler : value -> Delivery -> outcome thrown unit)
           (options : value)
  : M (jsstring * t * (option Delivery -> M unit)) :=
  try_catch
    (let! channel := perform CreateChannel createChannel in
     let opts := consumeOptions options in
     let! tag := perform (ChannelConsume (queue this) opts)
                         (channel_consume channel (queue this) opts) in
     do! logger LogInfo in
     ret (tag,
          {| exchange := exchange this;
             exchangeType := exchangeType this;
             exchangeOptions := exchangeOptions this;
             queue := queue this;
             queueOptions := queueOptions this;
             defaultRoutingKey := defaultRoutingKey this;
             consumerTag := Some tag |},
          on_message channel messageHandler opts))
    (fun error => do! logger LogError in throw error).

End WithPlatform.
End Consumer.

(* ===================================================================== *)
(** * src/rabbitmq/publisher.js *)
(* ===================================================================== *)

Module Publisher.
Section WithPlatform.
Context `{Platform}.

(** [rabbitMQConnection.createChannel()], awaited. *)
Variable createChannel : completion Channel.

Record t := {
  exchange : jsstring;
  exchangeType : jsstring;
  exchangeOptions : gmap (list N) value;
  defaultRoutingKey : jsstring;
  defaultMessageOptions : gmap (list N) value
}.

(** [constructor()]. *)
Definition new (config : Config.t) : t :=
  {| exchange := Config.exchange_name (Config.exchange config);
     exchangeType := Config.exchange_type (Config.exchange config);
     exchangeOptions := Config.exchange_options (Config.exchange config);
     defaultRoutingKey := Config.routingKey config;
     defaultMessageOptions := Config.messageOptions config |}.

(** [Buffer.from(typeof message === "object" ? JSON.stringify(message)
    : message)]; [Buffer.from] rejects what is neither a string nor an
    object. *)
Definition to_buffer (message : value) : M (list Byte.byte) :=
  if bool_decide (typeof message = str "object")
  then ret (Buffer_from (JSON_stringify message))
  else match message with
       | VString s => ret (Buffer_from s)
       | _ => throw (TypeError
                (str "The first argument must be of type string"))
       end.

(** [{ ...this.defaultMessageOptions, ...options }]. *)
Definition messageOptions (this : t) (options : value)
  : gmap (list N) value :=
  spread2 (VObject (defaultMessageOptions this)) options.

(** The default of [publish]'s signature,
    [routingKey = this.defaultRoutingKey]. *)
Definition routingKey_or_default (this : t) (routingKey : value) : value :=
  match routingKey with
  | VUndefined => VString (defaultRoutingKey this)
  | _ => routingKey
  end.

(** [publish(message, routingKey = this.defaultRoutingKey,
    options = {})]. *)
Definition publish (this : t) (message routingKey options : value)
  : M value :=
  let routingKey := routingKey_or_default this routingKey in
  try_catch
    (let! channel := perform CreateChannel createChannel in
     do! perform (AssertExchange (exchange this) (exchangeType this)
                                 (exchangeOptions this))
                 (assertExchange channel (exchange this)
                    (exchangeType this) (exchangeOptions this)) in
     let! body := to_buffer message in
     let opts := messageOptions this options in
     let! result := perform (ChannelPublish (exchange this) routingKey
                                            body opts)
                            (channel_publish channel (exchange this)
                               routingKey body opts) in
     do! (if truthy result then logger LogInfo else logger LogWarn) in
     ret result)
    (fun error => do! logger LogError in throw error).

End WithPlatform.
End Publisher.

(* ===================================================================== *)
(** * Vocabulary of the properties *)
(* ===================================================================== *)

Section Vocabulary.
Context `{Platform}.

(** The two errors [validate] raises. *)
Definition data_required : exn := Error (str "Message data is required").
Definition type_invalid : exn :=
  Error (str "Message type must be a non-empty string").

(** [data] is absent: [undefined] or [null]. *)
Definition data_absent (m : Message.t) : Prop :=
  Message.data m = VUndefined \/ Message.data m = VNull.

(** [type] is a string that is not empty once trimmed. *)
Definition type_present (m : Message.t) : Prop :=
  exists s, Message.type m = VString s /\ trim s <> [].

(** [type] is a string with at least one code unit. *)
Definition type_nonempty_string (m : Message.t) : Prop :=
  exists s, Message.type m = VString s /\ s <> [].

(** The world after a constructor call: one identifier drawn, the clock
    read twice. *)
Definition after_new (w : World) : World :=
  {| calls := calls w;
     uuid_reads := S (uuid_reads w);
     clock_reads := S (S (clock_reads w)) |}.

(** What [fromJSON] works on: the argument itself, or the value read from
    it when it is a string ([None]: the text is not JSON). *)
Definition parsed_input (rawMessage : value) : option value :=
  match rawMessage with
  | VString text => JSON_parse text
  | _ => Some rawMessage
  end.

(** A property of the parsed value, [undefined] when it has none. *)
Definition field (parsed : value) (key : string) : value :=
  default VUndefined (own_enumerable parsed !! str key).

Definition nullish (v : value) : Prop := v = VUndefined \/ v = VNull.

(** [v] is neither [undefined] nor [null]. *)
Definition defined (v : value) : Prop := v <> VUndefined /\ v <> VNull.

(** The message built from a parsed value in world [w]. *)
Definition rebuilt (parsed : value) (w : World) : Message.t :=
  {| Message.id :=
       if truthy (field parsed "id") then field parsed "id"
       else VString (uuid_at (S (uuid_reads w)));
     Message.timestamp :=
       if truthy (field parsed "timestamp") then field parsed "timestamp"
       else VNumber (Num (now_at (S (S (clock_reads w)))));
     Message.type := Message.type_or_default (field parsed "type");
     Message.data := field parsed "data";
     Message.metadata :=
       VObject (<[str "createdAt" :=
                    VString (toISOString (now_at (S (clock_reads w))))]>
                  (own_enumerable
                     (Message.metadata_or_default (field parsed "metadata")))) |}.

Definition after_fromJSON (parsed : value) (w : World) : World :=
  {| calls := calls w;
     uuid_reads := if truthy (field parsed "id") then S (uuid_reads w)
                   else S (S (uuid_reads w));
     clock_reads := if truthy (field parsed "timestamp")
                    then S (S (clock_reads w))
                    else S (S (S (clock_reads w))) |}.

(** No event of the list is a successful [connect()]. *)
Definition no_success (evs : list Connection.event) : Prop :=
  forallb (fun ev => negb (Connection.is_success ev)) evs = true.

(** Manual acknowledgement is on: [consumeOptions.noAck] is falsy. *)
Definition manual_ack (opts : gmap (list N) value) : Prop :=
  truthy (Consumer.noAck opts) = false.

(** The [catch] block of the consumer callback can write its log line
    for [error]: [error.message] can be read and converted to text.  An
    error object always passes; [undefined] and [null] never do. *)
Definition reportable (error : thrown) : bool :=
  match error with
  | ThrownError _ => true
  | ThrownValue VUndefined | ThrownValue VNull => false
  | ThrownValue v => stringifiable (field v "message")
  end.

(** The bytes of a message: the JSON text of an object (a value whose
    [typeof] is ["object"]), the text itself for a string. *)
Definition serializes_to (message : value) (body : list Byte.byte) : Prop :=
  (typeof message = str "object"
   /\ body = Buffer_from (JSON_stringify message))
  \/ (exists s, message = VString s /\ body = Buffer_from s).

(** The publisher as the application builds it, from the environment. *)
Definition publisher (env : gmap (list N) (list N)) : Publisher.t :=
  Publisher.new (Config.load env).

End Vocabulary.

(* ===================================================================== *)
(** * A sample platform and sample inputs *)
(* ===================================================================== *)

(** A platform to run the definitions on: identifiers made of one digit
    repeated, a clock that advances by one millisecond per reading, and a
    JSON reader that knows two texts. *)
Module Sample.

Definition to_byte (c : N) : Byte.byte :=
  default Byte.x00 (Byte.of_N (c mod 256)).

Definition uuid (n : nat) : jsstring :=
  repeat (N.of_nat (48 + n mod 10)) 36.

Definition platform : Platform :=
  {| JSON_parse := fun text =>
       if bool_decide (text = str "{}") then Some (VObject ∅)
       else if bool_decide (text = str "null") then Some VNull
       else None;
     JSON_stringify := fun _ => str "{}";
     Buffer_from := map to_byte;
     Buffer_toString := map Byte.to_N;
     uuid_at := uuid;
     uuid_length := fun n => repeat_length (N.of_nat (48 + n mod 10)) 36;
     now_at := fun n => 1700000000000 + Z.of_nat n;
     toISOString := fun _ => str "2023-11-14T22:13:20.000Z" |}.

(** [{ key: "value", number: 123 }], [{ source: "test" }]. *)
Definition testData : value :=
  VObject (<[str "key" := VString (str "value")]>
          (<[str "number" := VNumber (Num 123)]> ∅)).
Definition testMetadata : value :=
  VObject (<[str "source" := VString (str "test")]> ∅).

(** A message whose type is three spaces, and one with neither data nor
    type. *)
Definition blank_type_message : Message.t :=
  {| Message.id := VString (uuid 0);
     Message.timestamp := VNumber (Num 1700000000000);
     Message.type := VString (str "   ");
     Message.data := testData;
     Message.metadata := VObject ∅ |}.

Definition no_data_no_type_message : Message.t :=
  {| Message.id := VString (uuid 0);
     Message.timestamp := VNumber (Num 1700000000000);
     Message.type := VString [];
     Message.data := VNull;
     Message.metadata := VObject ∅ |}.

Definition valid_message : Message.t :=
  {| Message.id := VString (uuid 0);
     Message.timestamp := VNumber (Num 1700000000000);
     Message.type := VString (str "test.message");
     Message.data := testData;
     Message.metadata := VObject ∅ |}.

(** [{ type: "test", data: { something: "here" } }]: no id, no timestamp. *)
Definition incomplete : value :=
  VObject (<[str "type" := VString (str "test")]>
          (<[str "data" :=
               VObject (<[str "something" := VString (str "here")]> ∅)]> ∅)).

(** Channels: one that accepts everything, and one whose write fails as
    in the publisher tests.  [channel_closed] is what the broker library
    throws on every operation of a closed channel. *)
Definition open_channel : Channel :=
  {| assertExchange := fun _ _ _ => Normal tt;
     channel_publish := fun _ _ _ _ => Normal (VBool true);
     channel_consume := fun _ _ => Normal (str "test-consumer-tag");
     ack := fun _ => Normal tt;
     reject := fun _ _ => Normal tt |}.

Definition channel_closed : exn :=
  Exn (ForeignClass (str "IllegalOperationError"))
      (str "IllegalOperationError") (str "Channel closed") None None.

Definition publish_failed : exn := Error (str "Publish failed").

Definition failing_write_channel : Channel :=
  {| assertExchange := fun _ _ _ => Normal tt;
     channel_publish := fun _ _ _ _ => Throw publish_failed;
     channel_consume := fun _ _ => Normal (str "test-consumer-tag");
     ack := fun _ => Normal tt;
     reject := fun _ _ => Normal tt |}.

(** A channel that is closed once the consumer is registered, as when
    the connection drops while a handler is at work. *)
Definition closing_channel : Channel :=
  {| assertExchange := fun _ _ _ => Normal tt;
     channel_publish := fun _ _ _ _ => Throw channel_closed;
     channel_consume := fun _ _ => Normal (str "test-consumer-tag");
     ack := fun _ => Throw channel_closed;
     reject := fun _ _ => Throw channel_closed |}.

(** A delivery whose body is the two bytes of [{}]. *)
Definition delivery : Delivery :=
  {| content := [Byte.x7b; Byte.x7d]; deliveryTag := 1 |}.

(** Handlers: one that resolves, one that throws an error, and one that
    rejects without a reason, [() => Promise.reject()]. *)
Definition resolving_handler (parsed : value) (msg : Delivery)
  : outcome thrown unit := Normal tt.
Definition handler_failed : exn := Error (str "Handler failed").
Definition failing_handler (parsed : value) (msg : Delivery)
  : outcome thrown unit := Throw (ThrownError handler_failed).
Definition handler_without_reason (parsed : value) (msg : Delivery)
  : outcome thrown unit := Throw (ThrownValue VUndefined).

(** [{ noAck: true, exclusive: true }], [{ expiration: "1000",
    priority: 5 }], [{ hello: "world" }]. *)
Definition noAck_options : value :=
  VObject (<[str "noAck" := VBool true]>
          (<[str "exclusive" := VBool true]> ∅)).
Definition testMessage : value :=
  VObject (<[str "hello" := VString (str "world")]> ∅).

(** The broker is down for good: the first [connect()] fails and so does
    every reconnect attempt, each started by its timer. *)
Definition refused : exn := Error (str "connect ECONNREFUSED").

Fixpoint outage (attempts : nat) : list Connection.event :=
  match attempts with
  | O => []
  | S n => Connection.ConnectCalled
           :: Connection.ConnectSettled (Throw refused) :: outage n
  end.

End Sample.

(* ===================================================================== *)
(** * Further vocabulary *)
(* ===================================================================== *)

(** The handler invocations in a list of calls. *)
Definition handled (cs : list call) : list (value * Delivery) :=
  omap (fun c => match c with
                 | HandlerCall parsed msg => Some (parsed, msg)
                 | _ => None
                 end) cs.

(** The exchange assertions in a list of calls. *)
Definition asserted (cs : list call) : list jsstring :=
  omap (fun c => match c with
                 | AssertExchange exchange _ _ => Some exchange
                 | _ => None
                 end) cs.

(** The successful [connect()] calls among events. *)
Definition successes (evs : list Connection.event) : nat :=
  length (List.filter Connection.is_success evs).

(** A configuration under which [connectionRetries < reconnectAttempts]
    can never hold: the attempts are [NaN] (the variable did not parse) or
    not positive. *)
Definition reconnect_disabled (config : Config.t) : Prop :=
  Config.reconnectAttempts (Config.connection config) = NaN
  \/ exists z, Config.reconnectAttempts (Config.connection config) = Num z
               /\ z <= 0.

(* ===================================================================== *)
(** * src/rabbitmq/connection.js: RabbitMQConnection.close *)
(* ===================================================================== *)

Module ConnectionClose.

(** What [close()] does to the broker library, and what it logs. *)
Inductive close_call :=
| ChannelClose (ch : N)
| ConnectionClose (c : N)
| CloseLogged (level : log_level).

Section WithOutcomes.
(** The outcomes of [await this.channel.close()] and of
    [await this.connection.close()], each consulted only if the call is
    made. *)
Variable channel_close : completion unit.
Variable connection_close : completion unit.

(** The [catch] block: both fields are cleared. *)
Definition cleared (this : Connection.t) : Connection.t :=
  {| Connection.connection := None;
     Connection.channel := None;
     Connection.connectionRetries := Connection.connectionRetries this;
     Connection.isConnecting := Connection.isConnecting this |}.

(** The second [if] of the [try] block and the final log line. *)
Definition close_connection (this : Connection.t) (done : list close_call)
  : Connection.t * list close_call :=
  match Connection.connection this with
  | Some c =>
      match connection_close with
      | Normal _ =>
          ({| Connection.connection := None;
              Connection.channel := Connection.channel this;
              Connection.connectionRetries :=
                Connection.connectionRetries this;
              Connection.isConnecting := Connection.isConnecting this |},
           done ++ [CloseLogged LogInfo; ConnectionClose c;
                    CloseLogged LogInfo])
      | Throw _ =>
          (cleared this,
           done ++ [CloseLogged LogInfo; ConnectionClose c;
                    CloseLogged LogError])
      end
  | None => (this, done ++ [CloseLogged LogInfo])
  end.

(** [close()]. *)
Definition close (this : Connection.t) : Connection.t * list close_call :=
  match Connection.channel this with
  | Some ch =>
      match channel_close with
      | Normal _ =>
          close_connection
            {| Connection.connection := Connection.connection this;
               Connection.channel := None;
               Connection.connectionRetries :=
                 Connection.connectionRetries this;
               Connection.isConnecting := Connection.isConnecting this |}
            [CloseLogged LogInfo; ChannelClose ch]
      | Throw _ =>
          (cleared this,
           [CloseLogged LogInfo; ChannelClose ch; CloseLogged LogError])
      end
  | None => close_connection this []
  end.

End WithOutcomes.

(** The calls on the broker library, logs left out. *)
Definition broker_calls (cs : list close_call) : list close_call :=
  List.filter (fun c => match c with CloseLogged _ => false | _ => true end)
              cs.

End ConnectionClose.

(* ===================================================================== *)
(** * class Consumer: initialize, cancel and close *)
(* ===================================================================== *)

(** The channel with the operations the consumer's life cycle adds to
    those of [Channel]. *)
Record Session := {
  session_channel : Channel;
  assertQueue : jsstring -> gmap (list N) value -> completion unit;
  bindQueue : jsstring -> jsstring -> jsstring -> completion unit;
  channel_cancel : jsstring -> completion unit
}.

Module ConsumerLifecycle.

(** The calls of the life-cycle methods, in the order they are made. *)
Inductive op :=
| OpCreateChannel
| OpAssertExchange (exchange exchangeType : jsstring)
                   (options : gmap (list N) value)
| OpAssertQueue (queue : jsstring) (options : gmap (list N) value)
| OpBindQueue (queue exchange routingKey : jsstring)
| OpCancel (consumerTag : jsstring)
| OpCloseConnection
| OpLog (level : log_level).

Section WithConnection.
(** [rabbitMQConnection.createChannel()] and [rabbitMQConnection.close()],
    awaited. *)
Variable createChannel : completion Session.
Variable connection_close : completion unit.

(** [initialize()]. *)
Definition initialize (this : Consumer.t) : completion unit * list op :=
  let ae := OpAssertExchange (Consumer.exchange this)
              (Consumer.exchangeType this) (Consumer.exchangeOptions this) in
  let aq := OpAssertQueue (Consumer.queue this)
              (Consumer.queueOptions this) in
  let bq := OpBindQueue (Consumer.queue this) (Consumer.exchange this)
              (Consumer.defaultRoutingKey this) in
  match createChannel with
  | Throw e => (Throw e, [OpCreateChannel; OpLog LogError])
  | Normal session =>
      match assertExchange (session_channel session)
              (Consumer.exchange this) (Consumer.exchangeType this)
              (Consumer.exchangeOptions this) with
      | Throw e => (Throw e, [OpCreateChannel; ae; OpLog LogError])
      | Normal _ =>
          match assertQueue session (Consumer.queue this)
                  (Consumer.queueOptions this) with
          | Throw e => (Throw e, [OpCreateChannel; ae; aq; OpLog LogError])
          | Normal _ =>
              match bindQueue session (Consumer.queue this)
                      (Consumer.exchange this)
                      (Consumer.defaultRoutingKey this) with
              | Throw e =>
                  (Throw e, [OpCreateChannel; ae; aq; bq; OpLog LogError])
              | Normal _ =>
                  (Normal tt, [OpCreateChannel; ae; aq; bq; OpLog LogInfo])
              end
          end
      end
  end.

(** [this.consumerTag = null]. *)
Definition without_tag (this : Consumer.t) : Consumer.t :=
  {| Consumer.exchange := Consumer.exchange this;
     Consumer.exchangeType := Consumer.exchangeType this;
     Consumer.exchangeOptions := Consumer.exchangeOptions this;
     Consumer.queue := Consumer.queue this;
     Consumer.queueOptions := Consumer.queueOptions this;
     Consumer.defaultRoutingKey := Consumer.defaultRoutingKey this;
     Consumer.consumerTag := None |}.

(** [cancel()]: the outcome, the consumer afterwards, the calls made.
    [if (this.consumerTag)] fails on [null] and on the empty string. *)
Definition cancel (this : Consumer.t)
  : completion unit * Consumer.t * list op :=
  match Consumer.consumerTag this with
  | Some (c :: s) =>
      match createChannel with
      | Throw e => (Throw e, this, [OpCreateChannel; OpLog LogError])
      | Normal session =>
          match channel_cancel session (c :: s) with
          | Throw e =>
              (Throw e, this,
               [OpCreateChannel; OpCancel (c :: s); OpLog LogError])
          | Normal _ =>
              (Normal tt, without_tag this,
               [OpCreateChannel; OpCancel (c :: s); OpLog LogInfo])
          end
      end
  | _ => (Normal tt, this, [])
  end.

(** [close()]. *)
Definition close (this : Consumer.t)
  : completion unit * Consumer.t * list op :=
  let '(cancelled, this', ops) := cancel this in
  match cancelled with
  | Throw e => (Throw e, this', ops ++ [OpLog LogError])
  | Normal _ =>
      match connection_close with
      | Normal _ => (Normal tt, this', ops ++ [OpCloseConnection])
      | Throw e =>
          (Throw e, this', ops ++ [OpCloseConnection; OpLog LogError])
      end
  end.

End WithConnection.

(** The calls on the broker, logs left out. *)
Definition steps (ops : list op) : list op :=
  List.filter (fun o => match o with OpLog _ => false | _ => true end) ops.

(** The consumer tags cancelled. *)
Definition cancelled_tags (ops : list op) : list jsstring :=
  omap (fun o => match o with OpCancel tag => Some tag | _ => None end) ops.

(** The topology [initialize()] sets up, in order. *)
Definition topology (this : Consumer.t) : list op :=
  [OpCreateChannel;
   OpAssertExchange (Consumer.exchange this) (Consumer.exchangeType this)
     (Consumer.exchangeOptions this);
   OpAssertQueue (Consumer.queue this) (Consumer.queueOptions this);
   OpBindQueue (Consumer.queue this) (Consumer.exchange this)
     (Consumer.defaultRoutingKey this)].

End ConsumerLifecycle.

(** A session on the sample channel that accepts everything, and one whose
    [cancel] is refused. *)
Definition sample_session : Session :=
  {| session_channel := Sample.open_channel;
     assertQueue := fun _ _ => Normal tt;
     bindQueue := fun _ _ _ => Normal tt;
     channel_cancel := fun _ => Normal tt |}.

Definition sample_session_cancel_refused : Session :=
  {| session_channel := Sample.open_channel;
     assertQueue := fun _ _ => Normal tt;
     bindQueue := fun _ _ _ => Normal tt;
     channel_cancel := fun _ => Throw Sample.channel_closed |}.

(** A consumer that has been given the tag of the sample channel. *)
Definition sample_consumer_with_tag : Consumer.t :=
  {| Consumer.exchange := Consumer.exchange (Consumer.new (Config.load ∅));
     Consumer.exchangeType :=
       Consumer.exchangeType (Consumer.new (Config.load ∅));
     Consumer.exchangeOptions :=
       Consumer.exchangeOptions (Consumer.new (Config.load ∅));
     Consumer.queue := Consumer.queue (Consumer.new (Config.load ∅));
     Consumer.queueOptions :=
       Consumer.queueOptions (Consumer.new (Config.load ∅));
     Consumer.defaultRoutingKey :=
       Consumer.defaultRoutingKey (Consumer.new (Config.load ∅));
     Consumer.consumerTag := Some (str "test-consumer-tag") |}.

(** A manager that holds a connection and a channel. *)
Definition sample_manager : Connection.t :=
  {| Connection.connection := Some 1%N;
     Connection.channel := Some 2%N;
     Connection.connectionRetries := 0;
     Connection.isConnecting := false |}.

(** A second sample channel, which registers consumers under another
    tag. *)
Definition sample_second_channel : Channel :=
  {| assertExchange := fun _ _ _ => Normal tt;
     channel_publish := fun _ _ _ _ => Normal (VBool true);
     channel_consume := fun _ _ => Normal (str "second-consumer-tag");
     ack := fun _ => Normal tt;
     reject := fun _ _ => Normal tt |}.

(* ===================================================================== *)
(** * Strings and patterns used by the user model *)
(* ===================================================================== *)

Module Text.

(** [s.startsWith(needle)] and [s.includes(needle)]. *)
Fixpoint starts_with (needle s : jsstring) : bool :=
  match needle, s with
  | [], _ => true
  | c :: needle', x :: s' => (c =? x)%N && starts_with needle' s'
  | _ :: _, [] => false
  end.

Fixpoint includes (needle s : jsstring) : bool :=
  starts_with needle s
  || match s with
     | [] => false
     | _ :: s' => includes needle s'
     end.

(** The regular expressions of the sources are made of literals and of
    character classes repeated once or more, between [^] and [$]. *)
Inductive item :=
| Lit (c : N)
| Plus (accept : N -> bool).

(** [/^...$/.test(s)], by backtracking on the repetitions. *)
Fixpoint test (s : jsstring) (pattern : list item) {struct s} : bool :=
  match s with
  | [] => match pattern with [] => true | _ => false end
  | x :: s' =>
      match pattern with
      | [] => false
      | Lit c :: pattern' => (x =? c)%N && test s' pattern'
      | Plus accept :: pattern' =>
          accept x && (test s' pattern' || test s' (Plus accept :: pattern'))
      end
  end.

(** The class [[^\s@]]: neither white space nor [@]. *)
Definition not_space_nor_at (c : N) : bool :=
  negb (is_white_space c) && negb (c =? 64)%N.

(** [/^[^\s@]+@[^\s@]+\.[^\s@]+$/]. *)
Definition emailRegex : list item :=
  [Plus not_space_nor_at; Lit 64; Plus not_space_nor_at; Lit 46;
   Plus not_space_nor_at].

End Text.

(* ===================================================================== *)
(** * src/models/user.js *)
(* ===================================================================== *)

Module User.

(** A [User] instance: its own properties, and the value that has taken
    the place of [User.prototype], if any.  The constructor and
    [fromJSON] assign to the instance under keys that come from outside
    ([Object.assign], [user[key] = ...]).  Such an assignment creates or
    overwrites an own property, except under the key [__proto__]: that
    one runs the setter of [Object.prototype], which makes an object, an
    array or [null] the prototype of the instance, ignores any other
    value, and creates no property. *)
Record t := {
  own : gmap (list N) value;
  prototype : option value      (* [None]: still [User.prototype] *)
}.

(** [this.key], [undefined] when there is no such property. *)
Definition prop (this : gmap (list N) value) (key : string) : value :=
  default VUndefined (this !! str key).

(** What the [__proto__] setter accepts. *)
Definition is_prototype (v : value) : bool :=
  match v with
  | VObject _ | VArray _ | VNull => true
  | _ => false
  end.

(** The prototype that assigning the properties of [source] gives to a
    fresh instance, if it gives one. *)
Definition assigned_prototype (source : gmap (list N) value)
  : option value :=
  match source !! str "__proto__" with
  | Some v => if is_prototype v then Some v else None
  | None => None
  end.

(** [target[key] = source[key]] for every key of [source], on a fresh
    instance (one whose prototype is still [User.prototype], as in the
    constructor and in [fromJSON]). *)
Definition assign (target : t) (source : gmap (list N) value) : t :=
  {| own := delete (str "__proto__") source ∪ own target;
     prototype := match assigned_prototype source with
                  | Some v => Some v
                  | None => prototype target
                  end |}.

Section WithPlatform.
Context `{Platform}.

(** [constructor(email, name, additionalData = {})]: the five fields,
    then [Object.assign(this, additionalData)]. *)
Definition new (email name additionalData : value) : M t :=
  let! uuid := uuidv4 in
  let! created := Date_now in
  let! updated := Date_now in
  ret (assign
         {| own := <[str "id" := VString uuid]>
                   (<[str "email" := email]>
                   (<[str "name" := name]>
                   (<[str "createdAt" := VString (toISOString created)]>
                   (<[str "updatedAt" := VString (toISOString updated)]>
                      ∅))));
            prototype := None |}
         (own_enumerable additionalData)).

End WithPlatform.

Definition email_required : exn :=
  Error (str "Email is required and must be a string").
Definition email_invalid : exn := Error (str "Invalid email format").
Definition name_required : exn :=
  Error (str "Name is required and must be a string").
Definition name_too_short : exn :=
  Error (str "Name must be at least 2 characters long").

(** [validate()], on the properties of [this]. *)
Definition validate (this : gmap (list N) value) : completion bool :=
  match prop this "email" with
  | VString email =>
      if negb (truthy (VString email)) then Throw email_required
      else if negb (Text.test email Text.emailRegex) then Throw email_invalid
      else
        match prop this "name" with
        | VString name =>
            if negb (truthy (VString name)) then Throw name_required
            else if (length (trim name) <? 2)%nat then Throw name_too_short
            else Normal true
        | _ => Throw name_required
        end
  | _ => Throw email_required
  end.

(** [toJSON()], on the properties of [this]. *)
Definition toJSON (this : gmap (list N) value) : value :=
  VObject (<[str "id" := prop this "id"]>
          (<[str "email" := prop this "email"]>
          (<[str "name" := prop this "name"]>
          (<[str "createdAt" := prop this "createdAt"]>
          (<[str "updatedAt" := prop this "updatedAt"]> ∅))))).

(** [user.method()] on an instance: the class method [body], when the
    instance still has [User.prototype] and no own property of that name
    hides the method.  An own property, or a property of a prototype put
    in place through [__proto__], holds no function, and with a replaced
    prototype there may be no such property at all: either way the call
    throws. *)
Definition call_method {A : Type} (user : t) (name : string)
           (body : completion A) : completion A :=
  match own user !! str name, prototype user with
  | None, None => body
  | _, _ => Throw (TypeError (str "user." ++ str name
                              ++ str " is not a function"))
  end.

Section WithPlatform.
Context `{Platform}.

(** [static fromJSON(rawUser)]: a new user from [email] and [name], then
    [user[key] = parsed[key]] for every other key of
    [Object.keys(parsed)]. *)
Definition fromJSON (rawUser : value) : M t :=
  let! parsed := match rawUser with
                 | VString text => parse_json text
                 | _ => ret rawUser
                 end in
  let! email := get_prop parsed (str "email") in
  let! name := get_prop parsed (str "name") in
  let! user := new email name VUndefined in
  ret (assign user
         (filter (fun kv => kv.1 <> str "email" /\ kv.1 <> str "name")
                 (own_enumerable parsed))).

End WithPlatform.

End User.

(** The methods of a user read its own properties. *)
Coercion User.own : User.t >-> gmap.

(* ===================================================================== *)
(** * The user service: registerUser *)
(* ===================================================================== *)

Module UserService.

(** [this.users], the [Map], as the entries written to it, latest first
    (a later entry hides an earlier one under the same key). *)
Record t := {
  users : list (value * User.t)
}.

Section WithPlatform.
Context `{Platform}.

(** [rabbitMQConnection.createChannel()], awaited by the publisher. *)
Variable createChannel : completion Channel.
Variable publisher : Publisher.t.

(** [{ source: "user-service" }]. *)
Definition event_metadata : value :=
  VObject (<[str "source" := VString (str "user-service")]> ∅).

(** The [try] block of [registerUser] up to [user.validate()]. *)
Definition validated_user (userData : value) : M User.t :=
  let! email := get_prop userData (str "email") in
  let! name := get_prop userData (str "name") in
  let! user := User.new email name userData in
  fun w => (match User.call_method user "validate"
                    (User.validate (User.own user)) with
            | Normal _ => Normal user
            | Throw e => Throw e
            end, w).

(** The [try] block from the first log line on:
    [`User registered: ${user.id} (${user.email})`], the registration
    event, its publication, and [`... event for ${user.id}`]. *)
Definition announce (user : User.t) : M unit :=
  do! to_text (User.prop (User.own user) "id") in
  do! to_text (User.prop (User.own user) "email") in
  do! logger LogInfo in
  let! json := (fun w => (User.call_method user "toJSON"
                            (Normal (User.toJSON (User.own user))), w)) in
  let! message := Message.new json (VString (str "user.registered"))
                    event_metadata in
  let! written := Publisher.publish createChannel publisher
                    (Message.toJSON message) VUndefined VUndefined in
  do! to_text (User.prop (User.own user) "id") in
  logger LogInfo.

(** The [catch] block: the error is logged, and turned into a
    [ValidationError] when its message mentions ["Email"] or ["Name"]. *)
Definition classify (error : exn) : exn :=
  if Text.includes (str "Email") (exn_message error)
     || Text.includes (str "Name") (exn_message error)
  then Errors.ValidationError (exn_message error)
  else error.

(** [registerUser(userData)]: the outcome and the service afterwards.
    [this.users.set(user.id, user)] comes right after [validate()]. *)
Definition registerUser (this : t) (userData : value)
  : World -> completion User.t * t * World :=
  fun w =>
    match validated_user userData w with
    | (Throw error, w1) =>
        (Throw (classify error), this, snd (logger LogError w1))
    | (Normal user, w1) =>
        let this' := {| users := (User.prop (User.own user) "id", user)
                                 :: users this |} in
        match announce user w1 with
        | (Throw error, w2) =>
            (Throw (classify error), this', snd (logger LogError w2))
        | (Normal _, w2) => (Normal user, this', w2)
        end
    end.

End WithPlatform.

End UserService.

(* ===================================================================== *)
(** * src/middleware/error_middleware.js and the user controller *)
(* ===================================================================== *)

Module Http.

Record response := {
  status : Z;
  body : gmap (list N) value
}.

(** [err.statusCode]. *)
Definition statusCode (err : exn) : option Z :=
  let 'Exn _ _ _ code _ := err in code.

Section WithRuntime.
(** [process.env.NODE_ENV] and the [stack] text of an error object. *)
Variable NODE_ENV : option jsstring.
Variable stack_of : exn -> jsstring.

(** [errorHandler(err, req, res, next)]: the response sent. *)
Definition errorHandler (err : exn) : response :=
  let code := match statusCode err with
              | Some 0 | None => 500
              | Some z => z
              end in
  let message := match exn_message err with
                 | [] => str "Internal Server Error"
                 | m => m
                 end in
  let error := <[str "success" := VBool false]>
               (<[str "status" := VNumber (Num code)]>
               (<[str "message" := VString message]> ∅)) in
  {| status := code;
     body := if bool_decide (NODE_ENV = Some (str "development"))
             then <[str "stack" := VString (stack_of err)]> error
             else error |}.

(** [notFoundHandler(req, res, next)]: the error handed to [next]. *)
Definition notFoundHandler (originalUrl : jsstring) : exn :=
  Errors.AppError (str "Not Found - " ++ originalUrl) (Some 404).

Section WithPlatform.
Context `{Platform}.
Variable createChannel : completion Channel.
Variable publisher : Publisher.t.

(** [registerUser], the controller wrapped by [asyncHandler]: the log
    line [`... request for ${userData.email}`], then [201] with the
    user, or the error handed to [next] and answered by
    [errorHandler]. *)
Definition registerUser (service : UserService.t) (requestBody : value)
  : World -> response * UserService.t * World :=
  fun w =>
    match (let! email := get_prop requestBody (str "email") in
           do! to_text email in
           logger LogInfo) w with
    | (Throw error, w1) => (errorHandler error, service, w1)
    | (Normal _, w1) =>
        match UserService.registerUser createChannel publisher service
                requestBody w1 with
        | (Normal user, service', w2) =>
            ({| status := 201;
                body := <[str "success" := VBool true]>
                        (<[str "data" := User.toJSON (User.own user)]> ∅) |},
             service', w2)
        | (Throw error, service', w2) =>
            (errorHandler error, service', w2)
        end
    end.

End WithPlatform.
End WithRuntime.

End Http.

(* ===================================================================== *)
(** * src/services/notification_service.js: the message handler *)
(* ===================================================================== *)

Module NotificationService.
Section WithPlatform.
Context `{Platform}.

(** [mockSendEmail(to, subject, body)]: five log lines, the second of
    which is [`To: ${to}`] (the simulated delay only postpones them;
    subject and body are texts already). *)
Definition mockSendEmail (to : value) : M bool :=
  do! logger LogInfo in
  do! to_text to in
  do! logger LogInfo in
  do! logger LogInfo in
  do! logger LogInfo in
  do! logger LogInfo in
  ret true.

(** [handleUserRegistration(userData)]. *)
Definition handleUserRegistration (userData : value) : M unit :=
  try_catch
    (let! email := get_prop userData (str "email") in
     do! to_text email in
     do! logger LogInfo in
     let! to := get_prop userData (str "email") in
     let! name := get_prop userData (str "name") in
     do! to_text name in
     let! sent := mockSendEmail to in
     let! email' := get_prop userData (str "email") in
     do! to_text email' in
     logger LogInfo)
    (fun error => logger LogError).

(** [handleMessage(content, originalMessage)].  The content handed over
    by the consumer is a parsed value or a text, never a [Message]
    instance, so [Message.fromJSON] always runs. *)
Definition handleMessage (content : value) (originalMessage : Delivery)
  : M unit :=
  try_catch
    (let! message := Message.fromJSON content in
     do! to_text (Message.id message) in
     do! to_text (Message.type message) in
     do! logger LogInfo in
     match Message.type message with
     | VString type =>
         if bool_decide (type = str "user.registered")
         then handleUserRegistration (Message.data message)
         else do! to_text (Message.type message) in logger LogWarn
     | _ => do! to_text (Message.type message) in logger LogWarn
     end)
    (fun error => logger LogError).

End WithPlatform.
End NotificationService.

(** Sample requests: [{ email: "a@b.com", name: "A B" }], one with a
    malformed address, one without address, one that brings its own
    [id], and one whose text was
    [{"email":"a@b.com","name":"A B","__proto__":{}}]. *)
Definition sample_registration : value :=
  VObject (<[str "email" := VString (str "a@b.com")]>
          (<[str "name" := VString (str "A B")]> ∅)).
Definition sample_malformed_registration : value :=
  VObject (<[str "email" := VString (str "a.b.com")]>
          (<[str "name" := VString (str "A B")]> ∅)).
Definition sample_registration_without_email : value :=
  VObject (<[str "name" := VString (str "A B")]> ∅).
Definition sample_registration_with_id : value :=
  VObject (<[str "email" := VString (str "a@b.com")]>
          (<[str "name" := VString (str "A B")]>
          (<[str "id" := VString (str "chosen")]> ∅))).
Definition sample_registration_with_proto : value :=
  VObject (<[str "email" := VString (str "a@b.com")]>
          (<[str "name" := VString (str "A B")]>
          (<[str "__proto__" := VObject ∅]> ∅))).
Definition empty_service : UserService.t := {| UserService.users := [] |}.

(* ===================================================================== *)
(** * Vocabulary for the user model and the user service *)
(* ===================================================================== *)

(** The strings a pattern stands for: a literal is itself, a repeated
    class is a non-empty run of accepted code units. *)
Fixpoint denotes (pattern : list Text.item) (s : jsstring) : Prop :=
  match pattern with
  | [] => s = []
  | Text.Lit c :: pattern' => exists s', s = c :: s' /\ denotes pattern' s'
  | Text.Plus accept :: pattern' =>
      exists run s',
        run <> [] /\ forallb accept run = true
        /\ s = run ++ s' /\ denotes pattern' s'
  end.

(** [local@domain.tld]: three non-empty parts without white space and
    without [@] (the domain and the last part may contain dots). *)
Definition email_shape (s : jsstring) : Prop :=
  exists local domain tld,
    s = local ++ 64%N :: domain ++ 46%N :: tld
    /\ local <> [] /\ domain <> [] /\ tld <> []
    /\ forallb Text.not_space_nor_at local = true
    /\ forallb Text.not_space_nor_at domain = true
    /\ forallb Text.not_space_nor_at tld = true.

(** The request data can be read ([undefined] and [null] cannot), bring
    no property that would hide a method of the user, and bring no
    [__proto__] property that would replace its prototype. *)
Definition plain_registration (userData : value) : Prop :=
  defined userData
  /\ own_enumerable userData !! str "validate" = None
  /\ own_enumerable userData !! str "toJSON" = None
  /\ User.assigned_prototype (own_enumerable userData) = None.

(** The user [registerUser] builds from the request data in world [w]. *)
Definition built_user `{Platform} (userData : value) (w : World) : User.t :=
  User.assign
    {| User.own :=
         <[str "id" := VString (uuid_at (uuid_reads w))]>
         (<[str "email" := field userData "email"]>
         (<[str "name" := field userData "name"]>
         (<[str "createdAt" :=
              VString (toISOString (now_at (clock_reads w)))]>
         (<[str "updatedAt" :=
              VString (toISOString (now_at (S (clock_reads w))))]> ∅))));
       User.prototype := None |}
    (own_enumerable userData).

(** The world after a user has been built: one identifier drawn, the
    clock read twice. *)
Definition after_user (w : World) : World :=
  {| calls := calls w;
     uuid_reads := S (uuid_reads w);
     clock_reads := S (S (clock_reads w)) |}.

(** A channel that accepts every assertion and every write. *)
Definition accepting (channel : Channel) : Prop :=
  (forall exchange type options,
      assertExchange channel exchange type options = Normal tt)
  /\ (forall exchange routingKey content options,
        exists result,
          channel_publish channel exchange routingKey content options
          = Normal result).

(* ===================================================================== *)
(** * Properties of the message envelope *)
(* ===================================================================== *)

Section MessageProperties.
Context `{Platform}.

Lemma validate_data_absent m :
  data_absent m -> Message.validate m = Throw data_required.
Proof.
  unfold Message.validate. intros [E | E]; rewrite E; reflexivity.
Qed.

Lemma data_absent_dec m : data_absent m \/ ~ data_absent m.
Proof.
  unfold data_absent.
  destruct (Message.data m); auto; right; intros [E | E]; discriminate E.
Qed.

Lemma type_present_dec m : type_present m \/ ~ type_present m.
Proof.
  unfold type_present. destruct (Message.type m) as [| | | |s| |];
    try (right; intros (s' & E & _); discriminate E).
  destruct (decide (trim s = [])) as [Ht | Ht].
  - right. intros (s' & E & Hs'). inversion E; subst. contradiction.
  - left. exists s. auto.
Qed.

Lemma validate_type_present m :
  ~ data_absent m -> type_present m -> Message.validate m = Normal true.
Proof.
  unfold Message.validate, data_absent. intros Hd (s & Es & Hs).
  rewrite Es.
  destruct (Message.data m); try (exfalso; apply Hd; auto; fail);
    rewrite bool_decide_eq_false_2 by assumption; reflexivity.
Qed.

Lemma validate_type_blank m :
  ~ data_absent m -> ~ type_present m ->
  Message.validate m = Throw type_invalid.
Proof.
  unfold Message.validate, data_absent, type_present. intros Hd Ht.
  destruct (Message.data m); try (exfalso; apply Hd; auto; fail);
    destruct (Message.type m) as [| | | |ty| |]; try reflexivity;
    case_bool_decide; try reflexivity; exfalso; apply Ht; exists ty; auto.
Qed.

Lemma data_required_not_type_invalid : data_required <> type_invalid.
Proof. intros E. vm_compute in E. discriminate E. Qed.

(** C6, as amended.  [validate] throws the data-required error exactly
    when [data] is [undefined] or [null], whatever the type; it throws the
    type error exactly when [data] is present and [type] is not a string or
    is a string that is empty after trimming white space (so a type made
    of blanks is refused); it returns [true] exactly when [data] is present
    and [type] is a string with a character left after trimming. *)
Theorem validate_outcomes (m : Message.t) :
  (Message.validate m = Throw data_required <-> data_absent m)
  /\ (Message.validate m = Throw type_invalid
      <-> ~ data_absent m /\ ~ type_present m)
  /\ (Message.validate m = Normal true
      <-> ~ data_absent m /\ type_present m).
Proof.
  pose proof data_required_not_type_invalid as Hne.
  destruct (data_absent_dec m) as [Ha | Hp].
  - rewrite (validate_data_absent m Ha). split_and!; split.
    + intros _. exact Ha.
    + reflexivity.
    + intros E. exfalso. apply Hne. congruence.
    + intros [Hn _]. contradiction.
    + intros E. discriminate E.
    + intros [Hn _]. contradiction.
  - destruct (type_present_dec m) as [Ht | Ht].
    + rewrite (validate_type_present m Hp Ht). split_and!; split.
      * intros E. discriminate E.
      * intros Ha. contradiction.
      * intros E. discriminate E.
      * intros [_ Hn]. contradiction.
      * auto.
      * reflexivity.
    + rewrite (validate_type_blank m Hp Ht). split_and!; split.
      * intros E. exfalso. apply Hne. congruence.
      * intros Ha. contradiction.
      * auto.
      * reflexivity.
      * intros E. discriminate E.
      * intros [_ Hn]. contradiction.
Qed.

(** C6, the claim as written fails twice.  A type of three spaces is a
    non-empty string and the data is present, yet [validate] throws the
    type error; and when the data is [null] an empty type is reported as
    missing data, not as a type error. *)
Lemma validate_blank_type_refused :
  (~ data_absent Sample.blank_type_message
   /\ type_nonempty_string Sample.blank_type_message
   /\ Message.validate Sample.blank_type_message = Throw type_invalid)
  /\ (Message.type Sample.no_data_no_type_message = VString []
      /\ Message.validate Sample.no_data_no_type_message
         = Throw data_required
      /\ Message.validate Sample.no_data_no_type_message
         <> Throw type_invalid).
Proof.
  split; split_and!.
  - intros [E | E]; discriminate E.
  - exists (str "   "). split; [reflexivity | discriminate].
  - reflexivity.
  - reflexivity.
  - reflexivity.
  - intros E. vm_compute in E. discriminate E.
Qed.

(** ** The constructor *)

Lemma new_returns data type metadata w :
  Message.new data type metadata w =
    (Normal {| Message.id := VString (uuid_at (uuid_reads w));
               Message.timestamp := VNumber (Num (now_at (clock_reads w)));
               Message.type := Message.type_or_default type;
               Message.data := data;
               Message.metadata :=
                 VObject (<[str "createdAt" :=
                              VString (toISOString
                                         (now_at (S (clock_reads w))))]>
                            (own_enumerable (Message.metadata_or_default metadata)))
            |},
     after_new w).
Proof. reflexivity. Qed.

(** C9.  Whatever [data], [type] and [metadata] the constructor receives,
    the [metadata] of the new message is an object that has a [createdAt]
    property holding the ISO-8601 text of the clock reading taken during
    construction, and that has every property of the caller's metadata:
    each key is present, with the caller's value unless the key is
    [createdAt] itself. *)
Theorem constructor_metadata (data type metadata : value) (w : World) :
  exists message props,
    Message.new data type metadata w = (Normal message, after_new w)
    /\ Message.metadata message = VObject props
    /\ props !! str "createdAt"
       = Some (VString (toISOString (now_at (S (clock_reads w)))))
    /\ (forall key v,
          own_enumerable metadata !! key = Some v ->
          is_Some (props !! key)
          /\ (key <> str "createdAt" -> props !! key = Some v)).
Proof.
  eexists _, _. split; [apply new_returns |]. simpl.
  split; [reflexivity |]. split; [apply lookup_insert_eq |].
  intros key v Hkey.
  assert (Hsame : own_enumerable (Message.metadata_or_default metadata) !! key
                  = Some v).
  { destruct metadata; exact Hkey. }
  split.
  - destruct (decide (str "createdAt" = key)) as [<- | Hne].
    + rewrite lookup_insert_eq. eauto.
    + rewrite lookup_insert_ne by exact Hne. rewrite Hsame. eauto.
  - intros Hne. rewrite lookup_insert_ne by congruence. exact Hsame.
Qed.

(** ** [fromJSON] *)

Lemma get_prop_field parsed (key : string) w :
  defined parsed -> str key <> str "length" ->
  get_prop parsed (str key) w = (Normal (field parsed key), w).
Proof.
  intros [Hu Hn] Hlen. unfold get_prop, field.
  destruct parsed; try contradiction; try reflexivity;
    rewrite bool_decide_eq_false_2 by exact Hlen; reflexivity.
Qed.

Lemma get_prop_nullish parsed key w :
  nullish parsed -> exists e, get_prop parsed key w = (Throw e, w).
Proof. intros [-> | ->]; eexists; reflexivity. Qed.

Lemma fromJSON_rebuilds rawMessage parsed w :
  parsed_input rawMessage = Some parsed -> defined parsed ->
  Message.fromJSON rawMessage w
  = (Normal (rebuilt parsed w), after_fromJSON parsed w).
Proof.
  intros Hparsed Hdef. unfold Message.fromJSON.
  assert (Hfirst : (match rawMessage with
                    | VString text => parse_json text
                    | _ => ret rawMessage
                    end) w = (Normal parsed, w)).
  { destruct rawMessage; simpl in Hparsed;
      try (injection Hparsed as <-; reflexivity).
    unfold parse_json. rewrite Hparsed. reflexivity. }
  unfold bind at 1. rewrite Hfirst.
  unfold bind at 1. rewrite (get_prop_field parsed "data") by (try exact Hdef; discriminate).
  unfold bind at 1. rewrite (get_prop_field parsed "type") by (try exact Hdef; discriminate).
  unfold bind at 1. rewrite (get_prop_field parsed "metadata") by (try exact Hdef; discriminate).
  unfold bind at 1. rewrite new_returns.
  unfold bind at 1. rewrite (get_prop_field parsed "id") by (try exact Hdef; discriminate).
  unfold bind at 1, js_or at 1, rebuilt, after_fromJSON.
  destruct (truthy (field parsed "id")).
  - unfold ret at 1, bind at 1.
    rewrite (get_prop_field parsed "timestamp") by (try exact Hdef; discriminate).
    unfold bind at 1, js_or at 1.
    destruct (truthy (field parsed "timestamp")); reflexivity.
  - unfold bind at 1; simpl. unfold bind at 1.
    rewrite (get_prop_field parsed "timestamp") by (try exact Hdef; discriminate).
    unfold bind at 1, js_or at 1.
    destruct (truthy (field parsed "timestamp")); reflexivity.
Qed.

Lemma fromJSON_accepted rawMessage w message w' :
  Message.fromJSON rawMessage w = (Normal message, w') ->
  exists parsed,
    parsed_input rawMessage = Some parsed /\ defined parsed
    /\ message = rebuilt parsed w.
Proof.
  intros Hrun.
  destruct (parsed_input rawMessage) as [parsed |] eqn:Hparsed.
  - assert (Hcases : defined parsed \/ nullish parsed).
    { unfold defined, nullish.
      destruct parsed; auto; left; split; discriminate. }
    destruct Hcases as [Hdef | Hnull].
    + exists parsed. split; [reflexivity |]. split; [exact Hdef |].
      rewrite (fromJSON_rebuilds _ _ w Hparsed Hdef) in Hrun. congruence.
    + exfalso.
      destruct (get_prop_nullish parsed (str "data") w Hnull) as [e He].
      unfold Message.fromJSON in Hrun.
      assert (Hfirst : (match rawMessage with
                        | VString text => parse_json text
                        | _ => ret rawMessage
                        end) w = (Normal parsed, w)).
      { destruct rawMessage; simpl in Hparsed;
          try (injection Hparsed as <-; reflexivity).
        unfold parse_json. rewrite Hparsed. reflexivity. }
      unfold bind at 1 in Hrun. rewrite Hfirst in Hrun.
      unfold bind at 1 in Hrun. rewrite He in Hrun. discriminate Hrun.
  - exfalso. destruct rawMessage; try discriminate Hparsed.
    simpl in Hparsed. unfold Message.fromJSON, bind, parse_json in Hrun.
    rewrite Hparsed in Hrun. discriminate Hrun.
Qed.

Lemma truthy_defined v : truthy v = true -> defined v.
Proof. destruct v; simpl; intros E; try discriminate E; split; discriminate. Qed.

Lemma uuid_truthy n : truthy (VString (uuid_at n)) = true.
Proof.
  simpl. rewrite bool_decide_eq_false_2; [reflexivity |].
  intros E. pose proof (uuid_length n) as Hlen. rewrite E in Hlen.
  discriminate Hlen.
Qed.

(** C10.  When [fromJSON] accepts its input, it worked on a parsed value;
    if the [id] of that value is absent or falsy, the message carries the
    identifier drawn from [uuidv4()] during the call (the one after the
    constructor's own); if its [timestamp] is absent or falsy ([0]
    included), the message carries the clock reading taken during the
    call; and in every case neither [id] nor [timestamp] of the result is
    [undefined] or [null]. *)
Theorem fromJSON_fills_id_and_timestamp rawMessage w message w' :
  Message.fromJSON rawMessage w = (Normal message, w') ->
  exists parsed,
    parsed_input rawMessage = Some parsed
    /\ (truthy (field parsed "id") = false ->
        Message.id message = VString (uuid_at (S (uuid_reads w)))
        /\ (uuid_reads w < S (uuid_reads w) < uuid_reads w')%nat)
    /\ (truthy (field parsed "timestamp") = false ->
        Message.timestamp message
        = VNumber (Num (now_at (S (S (clock_reads w)))))
        /\ (clock_reads w < S (S (clock_reads w)) < clock_reads w')%nat)
    /\ defined (Message.id message)
    /\ defined (Message.timestamp message).
Proof.
  intros Hrun.
  destruct (fromJSON_accepted _ _ _ _ Hrun) as (parsed & Hp & Hdef & ->).
  rewrite (fromJSON_rebuilds _ _ w Hp Hdef) in Hrun.
  injection Hrun as <-.
  exists parsed. split; [exact Hp |]. unfold rebuilt, after_fromJSON; simpl.
  split_and!.
  - intros ->. simpl. split; [reflexivity | lia].
  - intros ->. simpl. split; [reflexivity | lia].
  - destruct (truthy (field parsed "id")) eqn:Hid.
    + apply truthy_defined, Hid.
    + apply truthy_defined, uuid_truthy.
  - destruct (truthy (field parsed "timestamp")) eqn:Hts.
    + apply truthy_defined, Hts.
    + split; discriminate.
Qed.

Lemma toJSON_fields (m : Message.t) :
  field (Message.toJSON m) "id" = Message.id m
  /\ field (Message.toJSON m) "timestamp" = Message.timestamp m
  /\ field (Message.toJSON m) "type" = Message.type m
  /\ field (Message.toJSON m) "data" = Message.data m
  /\ field (Message.toJSON m) "metadata" = Message.metadata m.
Proof.
  unfold field, Message.toJSON; simpl own_enumerable.
  split_and!;
    repeat (rewrite lookup_insert_ne
              by (intros E; vm_compute in E; discriminate E));
    rewrite lookup_insert_eq; reflexivity.
Qed.

(** C2.  Take any [data], [type] and [metadata] (in particular those of a
    valid envelope: data present, type a non-empty string) and build the
    envelope at a moment when the clock does not read [0], the epoch
    itself.  Then [fromJSON(envelope.toJSON())], whenever it is run,
    returns a message with the [id], [timestamp], [type] and [data] of the
    envelope. *)
Theorem envelope_round_trip (data type metadata : value) (w w' : World) :
  now_at (clock_reads w) <> 0 ->
  exists envelope copy w'',
    Message.new data type metadata w = (Normal envelope, after_new w)
    /\ Message.fromJSON (Message.toJSON envelope) w' = (Normal copy, w'')
    /\ Message.id copy = Message.id envelope
    /\ Message.timestamp copy = Message.timestamp envelope
    /\ Message.type copy = Message.type envelope
    /\ Message.data copy = Message.data envelope.
Proof.
  intros Hclock.
  eexists _, _, _. split; [apply new_returns |].
  split.
  { apply fromJSON_rebuilds; [reflexivity | split; discriminate]. }
  match goal with |- context [rebuilt (Message.toJSON ?e) _] =>
    destruct (toJSON_fields e) as (Hid & Hts & Hty & Hda & _) end.
  unfold rebuilt; simpl. rewrite Hid, Hts, Hty, Hda. simpl.
  split_and!.
  - change (negb (bool_decide (uuid_at (uuid_reads w) = [])))
      with (truthy (VString (uuid_at (uuid_reads w)))).
    rewrite uuid_truthy. reflexivity.
  - rewrite (proj2 (Z.eqb_neq _ _) Hclock). reflexivity.
  - destruct type; reflexivity.
  - reflexivity.
Qed.

End MessageProperties.

Lemma envelope_round_trip_witness :
  @now_at Sample.platform (clock_reads world0) <> 0
  /\ exists envelope copy w'',
       @Message.new Sample.platform Sample.testData
         (VString (str "test.message")) Sample.testMetadata world0
       = (Normal envelope, after_new world0)
       /\ @Message.fromJSON Sample.platform (Message.toJSON envelope)
            (after_new world0) = (Normal copy, w'')
       /\ Message.id copy = Message.id envelope
       /\ Message.timestamp copy = Message.timestamp envelope
       /\ Message.type copy = Message.type envelope
       /\ Message.data copy = Message.data envelope.
Proof.
  split.
  - vm_compute. discriminate.
  - apply (@envelope_round_trip Sample.platform). vm_compute. discriminate.
Defined.

Lemma fromJSON_fills_id_and_timestamp_witness :
  exists parsed,
    @parsed_input Sample.platform Sample.incomplete = Some parsed
    /\ (truthy (field parsed "id") = false ->
        Message.id (@rebuilt Sample.platform Sample.incomplete world0)
        = VString (@uuid_at Sample.platform 1)
        /\ (0 < 1 < 2)%nat)
    /\ (truthy (field parsed "timestamp") = false ->
        Message.timestamp (@rebuilt Sample.platform Sample.incomplete world0)
        = VNumber (Num (@now_at Sample.platform 2))
        /\ (0 < 2 < 3)%nat)
    /\ defined (Message.id
                  (@rebuilt Sample.platform Sample.incomplete world0))
    /\ defined (Message.timestamp
                  (@rebuilt Sample.platform Sample.incomplete world0)).
Proof.
  apply (@fromJSON_fills_id_and_timestamp Sample.platform Sample.incomplete
           world0 (@rebuilt Sample.platform Sample.incomplete world0)
           (after_fromJSON Sample.incomplete world0)).
  vm_compute. reflexivity.
Defined.

(* ===================================================================== *)
(** * Properties of the reconnection logic *)
(* ===================================================================== *)

Section ReconnectProperties.
Variable config : Config.t.
Variable maxRetries : nat.
Hypothesis attempts_configured :
  Config.reconnectAttempts (Config.connection config)
  = Num (Z.of_nat maxRetries).

Import Connection.

Lemma handleConnectionError_below this :
  connectionRetries this < Z.of_nat maxRetries ->
  connectionRetries (fst (handleConnectionError config this))
  = connectionRetries this + 1
  /\ scheduled (snd (handleConnectionError config this)) = 1%nat.
Proof.
  intros Hlt. unfold handleConnectionError. rewrite attempts_configured.
  simpl. rewrite (proj2 (Z.ltb_lt _ _) Hlt). split; reflexivity.
Qed.

Lemma handleConnectionError_exhausted this :
  Z.of_nat maxRetries <= connectionRetries this ->
  connectionRetries (fst (handleConnectionError config this))
  = connectionRetries this
  /\ scheduled (snd (handleConnectionError config this)) = 0%nat.
Proof.
  intros Hge. unfold handleConnectionError. rewrite attempts_configured.
  simpl. rewrite (proj2 (Z.ltb_ge _ _) Hge). split; reflexivity.
Qed.

(** One event that is not a success: a failure goes through
    [handleConnectionError], anything else leaves the counter alone and
    schedules nothing. *)
Lemma step_failure this ev :
  is_failure ev = true ->
  connectionRetries (fst (step config this ev))
  = connectionRetries (fst (handleConnectionError config this))
  /\ scheduled (snd (step config this ev))
     = scheduled (snd (handleConnectionError config this)).
Proof.
  destruct ev as [| [c | e] | |]; simpl; intros E; try discriminate E;
    destruct (handleConnectionError config this) as [this' effects];
    split; reflexivity.
Qed.

Lemma step_neutral this ev :
  is_failure ev = false -> is_success ev = false ->
  connectionRetries (fst (step config this ev)) = connectionRetries this
  /\ scheduled (snd (step config this ev)) = 0%nat.
Proof.
  destruct ev as [| [c | e] | |]; simpl; intros E1 E2;
    try discriminate E1; try discriminate E2.
  unfold connect_begin.
  destruct (connection this); [split; reflexivity |].
  destruct (isConnecting this); split; reflexivity.
Qed.

Lemma scheduled_app effects effects' :
  scheduled (effects ++ effects') = (scheduled effects + scheduled effects')%nat.
Proof. unfold scheduled. rewrite List.filter_app, length_app. reflexivity. Qed.

Lemma run_cons this ev evs :
  run config this (ev :: evs)
  = (fst (run config (fst (step config this ev)) evs),
     snd (step config this ev)
       ++ snd (run config (fst (step config this ev)) evs)).
Proof.
  simpl. destruct (step config this ev) as [this' effects]. simpl.
  destruct (run config this' evs); reflexivity.
Qed.


(** Along events without a success the counter climbs by one per failure
    until it reaches the configured maximum, and one reconnect attempt is
    scheduled per unit climbed. *)
Lemma run_counts evs : forall this,
  no_success evs ->
  0 <= connectionRetries this <= Z.of_nat maxRetries ->
  connectionRetries (fst (run config this evs))
  = Z.min (connectionRetries this + Z.of_nat (failures evs))
          (Z.of_nat maxRetries)
  /\ Z.of_nat (scheduled (snd (run config this evs)))
     = Z.min (connectionRetries this + Z.of_nat (failures evs))
             (Z.of_nat maxRetries)
       - connectionRetries this.
Proof.
  induction evs as [| ev evs IH]; intros this Hno Hrange.
  - simpl. unfold failures, scheduled. simpl. lia.
  - unfold no_success in Hno. simpl in Hno.
    apply andb_prop in Hno as [Hev Hno]. apply negb_true_iff in Hev.
    rewrite run_cons. simpl fst. simpl snd. rewrite scheduled_app.
    unfold failures. simpl List.filter.
    destruct (is_failure ev) eqn:Hf.
    + destruct (step_failure this ev Hf) as [Hr Hs].
      destruct (Z_lt_ge_dec (connectionRetries this) (Z.of_nat maxRetries))
        as [Hlt | Hge].
      * destruct (handleConnectionError_below this Hlt) as [Hr' Hs'].
        specialize (IH (fst (step config this ev)) Hno).
        rewrite Hr, Hr' in IH. destruct IH as [IH1 IH2]; [lia |].
        rewrite IH1, Nat2Z.inj_add, IH2, Hs, Hs'. unfold failures.
        simpl length. lia.
      * destruct (handleConnectionError_exhausted this) as [Hr' Hs'];
          [lia |].
        specialize (IH (fst (step config this ev)) Hno).
        rewrite Hr, Hr' in IH. destruct IH as [IH1 IH2]; [lia |].
        rewrite IH1, Nat2Z.inj_add, IH2, Hs, Hs'. unfold failures.
        simpl length. lia.
    + destruct (step_neutral this ev Hf Hev) as [Hr Hs].
      specialize (IH (fst (step config this ev)) Hno).
      rewrite Hr in IH. destruct IH as [IH1 IH2]; [lia |].
      rewrite IH1, Nat2Z.inj_add, IH2, Hs. unfold failures. lia.
Qed.


(** The attempts scheduled along any run without a success: one per
    failure, up to the maximum. *)
Lemma scheduled_total (this : t) (evs : list event) :
  connectionRetries this = 0 ->
  no_success evs ->
  scheduled (snd (run config this evs)) = Nat.min (failures evs) maxRetries.
Proof.
  intros Hzero Hno.
  destruct (run_counts evs this Hno) as [_ Hs]; lia.
Qed.

End ReconnectProperties.

Lemma connect_success_resets config c this :
  Connection.connectionRetries
    (fst (Connection.connect_settle config (Normal c) this)) = 0.
Proof. reflexivity. Qed.

Lemma default_reconnectAttempts :
  Config.reconnectAttempts (Config.connection (Config.load ∅)) = Num 10.
Proof. reflexivity. Qed.



(* ===================================================================== *)
(** * Properties of the consumer callback *)
(* ===================================================================== *)

Section ConsumerCallback.
Context `{Platform}.
Variable channel : Channel.
Variable messageHandler : value -> Delivery -> outcome thrown unit.

Import Consumer.

(** Unfold one run of the callback up to the answers of its
    collaborators. *)
Ltac run_callback :=
  unfold trace_of, result_of, on_message, try_catch_thrown, and_then, lift,
    await, try_catch, bind, perform, logger;
  simpl.

Lemma on_message_null opts :
  trace_of (on_message channel messageHandler opts None) = [Log LogWarn].
Proof. reflexivity. Qed.

Lemma reportable_value v :
  defined v -> reportable (ThrownValue v) = stringifiable (field v "message").
Proof. intros [Hu Hn]. destruct v; try reflexivity; contradiction. Qed.

(** The log line of the [catch] block: it is written for an error that
    is [reportable], and evaluating it throws a [TypeError] for any
    other. *)
Lemma message_text_returns error w :
  reportable error = true -> message_text error w = (Normal tt, w).
Proof.
  destruct error as [e | v]; [reflexivity |]. intros Hr.
  assert (Hdef : defined v)
    by (destruct v; try discriminate Hr; split; discriminate).
  rewrite (reportable_value v Hdef) in Hr.
  unfold message_text, bind.
  rewrite (get_prop_field v "message") by (try exact Hdef; discriminate).
  unfold to_text. rewrite Hr. reflexivity.
Qed.

Lemma message_text_throws error w :
  reportable error = false ->
  exists e, message_text error w = (Throw e, w)
            /\ exn_class e = TypeErrorClass.
Proof.
  destruct error as [e | v]; [intros E; discriminate E |]. intros Hr.
  assert (Hcases : nullish v \/ defined v).
  { unfold nullish, defined.
    destruct v; auto; right; split; discriminate. }
  destruct Hcases as [[-> | ->] | Hdef];
    try (eexists; split; reflexivity).
  rewrite (reportable_value v Hdef) in Hr.
  unfold message_text, bind.
  rewrite (get_prop_field v "message") by (try exact Hdef; discriminate).
  unfold to_text. rewrite Hr. eexists. split; reflexivity.
Qed.

(** The handler resolves and the acknowledgement goes through. *)
Lemma on_message_acked opts msg :
  manual_ack opts ->
  messageHandler (parsedContent msg) msg = Normal tt ->
  ack channel msg = Normal tt ->
  trace_of (on_message channel messageHandler opts (Some msg))
  = [Log LogDebug; HandlerCall (parsedContent msg) msg; ChannelAck msg;
     Log LogDebug]
  /\ result_of (on_message channel messageHandler opts (Some msg))
     = Normal tt.
Proof.
  unfold manual_ack. intros Hopt Hh Hack.
  run_callback. rewrite Hh, Hopt. simpl. rewrite Hack. split; reflexivity.
Qed.

(** The handler resolves but the acknowledgement itself throws: the
    [catch] block takes over and rejects the delivery. *)
Lemma on_message_ack_throws opts msg e :
  manual_ack opts ->
  messageHandler (parsedContent msg) msg = Normal tt ->
  ack channel msg = Throw e ->
  trace_of (on_message channel messageHandler opts (Some msg))
  = [Log LogDebug; HandlerCall (parsedContent msg) msg; ChannelAck msg;
     Log LogError; ChannelReject msg false]
    ++ match reject channel msg false with
       | Normal _ => [Log LogDebug]
       | Throw _ => []
       end.
Proof.
  unfold manual_ack. intros Hopt Hh Hack.
  run_callback. rewrite Hh, Hopt. simpl. rewrite Hack. simpl.
  destruct (reject channel msg false); reflexivity.
Qed.

(** The handler throws something the [catch] block can report: the
    delivery is rejected without requeue. *)
Lemma on_message_handler_throws opts msg error :
  manual_ack opts ->
  messageHandler (parsedContent msg) msg = Throw error ->
  reportable error = true ->
  trace_of (on_message channel messageHandler opts (Some msg))
  = [Log LogDebug; HandlerCall (parsedContent msg) msg; Log LogError;
     ChannelReject msg false]
    ++ match reject channel msg false with
       | Normal _ => [Log LogDebug]
       | Throw _ => []
       end.
Proof.
  unfold manual_ack. intros Hopt Hh Hr.
  run_callback. rewrite Hh. simpl.
  rewrite (message_text_returns error _ Hr), Hopt. simpl.
  destruct (reject channel msg false); reflexivity.
Qed.

(** The handler throws something the [catch] block cannot report:
    evaluating [error.message] for the log line throws, nothing of the
    [catch] block is done, and the promise of the callback is rejected
    with that [TypeError]. *)
Lemma on_message_handler_unreportable opts msg error :
  messageHandler (parsedContent msg) msg = Throw error ->
  reportable error = false ->
  trace_of (on_message channel messageHandler opts (Some msg))
  = [Log LogDebug; HandlerCall (parsedContent msg) msg]
  /\ exists e,
       result_of (on_message channel messageHandler opts (Some msg))
       = Throw e
       /\ exn_class e = TypeErrorClass.
Proof.
  intros Hh Hr. run_callback. rewrite Hh. simpl.
  match goal with |- context [message_text error ?w] =>
    destruct (message_text_throws error w Hr) as (e & -> & He) end.
  split; [reflexivity | eauto].
Qed.

(** Automatic acknowledgement: the channel is left alone. *)
Lemma on_message_noAck opts msg :
  truthy (noAck opts) = true ->
  acked (trace_of (on_message channel messageHandler opts msg)) = []
  /\ rejected (trace_of (on_message channel messageHandler opts msg)) = [].
Proof.
  intros Hno. destruct msg as [msg |]; [| split; reflexivity].
  destruct (messageHandler (parsedContent msg) msg) as [[] | error] eqn:Hh.
  - run_callback. rewrite Hh, Hno. split; reflexivity.
  - destruct (reportable error) eqn:Hr.
    + run_callback. rewrite Hh. simpl.
      rewrite (message_text_returns error _ Hr), Hno. split; reflexivity.
    + destruct (on_message_handler_unreportable opts msg error Hh Hr)
        as [-> _].
      split; reflexivity.
Qed.

(** With the default options manual acknowledgement is on. *)
Lemma default_options_manual_ack : manual_ack (consumeOptions VUndefined).
Proof. reflexivity. Qed.

Lemma noAck_true_options options :
  own_enumerable options !! str "noAck" = Some (VBool true) ->
  truthy (noAck (consumeOptions options)) = true.
Proof.
  intros Hopt. unfold noAck, consumeOptions, spread2.
  rewrite (lookup_union_Some_l _ _ _ _ Hopt). reflexivity.
Qed.

End ConsumerCallback.

Section ConsumerProperties.
Context `{Platform}.
Variable createChannel : completion Channel.
Variable this : Consumer.t.
Variable messageHandler : value -> Delivery -> outcome thrown unit.

Import Consumer.

(** When [consume] returns, the callback it registered is [on_message]
    on the channel obtained, with the options merged over the default. *)
Lemma consume_registers options w tag this' callback w' :
  consume createChannel this messageHandler options w
  = (Normal (tag, this', callback), w') ->
  exists channel,
    createChannel = Normal channel
    /\ channel_consume channel (queue this) (consumeOptions options)
       = Normal tag
    /\ consumerTag this' = Some tag
    /\ callback = on_message channel messageHandler (consumeOptions options).
Proof.
  unfold consume, try_catch, bind, perform, logger. simpl.
  destruct createChannel as [channel | e]; [| intros E; discriminate E].
  destruct (channel_consume channel (queue this) (consumeOptions options))
    as [tag0 | e] eqn:Htag; [| intros E; discriminate E].
  intros E. injection E as <- <- <- _. exists channel.
  split_and!; try reflexivity. exact Htag.
Qed.

(** Rejection on failure, where the [catch] block can report the error:
    [consume] was called with options that leave manual acknowledgement
    on, and its callback receives a delivery that is not [null].  If the
    handler throws an error object, or any value whose [message] can be
    read and converted to text, the callback calls [channel.reject] on
    that delivery once, with requeue [false], and never calls
    [channel.ack]. *)
Lemma reject_on_handler_failure options w tag this' callback w' msg error :
  consume createChannel this messageHandler options w
  = (Normal (tag, this', callback), w') ->
  manual_ack (consumeOptions options) ->
  messageHandler (parsedContent msg) msg = Throw error ->
  reportable error = true ->
  rejected (trace_of (callback (Some msg))) = [(msg, false)]
  /\ acked (trace_of (callback (Some msg))) = [].
Proof.
  intros Hconsume Hopt Hh Hr.
  destruct (consume_registers _ _ _ _ _ _ Hconsume)
    as (channel & _ & _ & _ & ->).
  rewrite (on_message_handler_throws channel messageHandler _ msg error
             Hopt Hh Hr).
  destruct (reject channel msg false); split; reflexivity.
Qed.

(** C5.  [consume] was called with options that contain [noAck: true].
    Then its callback calls neither [channel.ack] nor [channel.reject],
    for every delivery ([null] included) and whatever the handler
    does. *)
Theorem noAck_suppresses_ack_and_reject options w tag this' callback w'
        (msg : option Delivery) :
  consume createChannel this messageHandler options w
  = (Normal (tag, this', callback), w') ->
  own_enumerable options !! str "noAck" = Some (VBool true) ->
  acked (trace_of (callback msg)) = []
  /\ rejected (trace_of (callback msg)) = [].
Proof.
  intros Hconsume Hopt.
  destruct (consume_registers _ _ _ _ _ _ Hconsume)
    as (channel & _ & _ & _ & ->).
  apply on_message_noAck, noAck_true_options, Hopt.
Qed.

(** The acknowledgement of a successful delivery, when [channel.ack]
    returns: one [ack] on that delivery and no [reject]. *)
Lemma ack_on_success_when_ack_returns options w tag this' callback w'
      channel msg :
  consume createChannel this messageHandler options w
  = (Normal (tag, this', callback), w') ->
  createChannel = Normal channel ->
  manual_ack (consumeOptions options) ->
  messageHandler (parsedContent msg) msg = Normal tt ->
  ack channel msg = Normal tt ->
  acked (trace_of (callback (Some msg))) = [msg]
  /\ rejected (trace_of (callback (Some msg))) = [].
Proof.
  intros Hconsume Hch Hopt Hh Hack.
  destruct (consume_registers _ _ _ _ _ _ Hconsume)
    as (channel' & Hch' & _ & _ & ->).
  assert (channel' = channel) as -> by congruence.
  destruct (on_message_acked channel messageHandler _ msg Hopt Hh Hack)
    as [-> _].
  split; reflexivity.
Qed.

(** When [channel.ack] throws after a successful handler, the callback
    goes on to reject the delivery it has just tried to acknowledge. *)
Lemma ack_failure_rejects options w tag this' callback w' channel msg e :
  consume createChannel this messageHandler options w
  = (Normal (tag, this', callback), w') ->
  createChannel = Normal channel ->
  manual_ack (consumeOptions options) ->
  messageHandler (parsedContent msg) msg = Normal tt ->
  ack channel msg = Throw e ->
  acked (trace_of (callback (Some msg))) = [msg]
  /\ rejected (trace_of (callback (Some msg))) = [(msg, false)].
Proof.
  intros Hconsume Hch Hopt Hh Hack.
  destruct (consume_registers _ _ _ _ _ _ Hconsume)
    as (channel' & Hch' & _ & _ & ->).
  assert (channel' = channel) as -> by congruence.
  rewrite (on_message_ack_throws channel messageHandler _ msg e Hopt Hh Hack).
  destruct (reject channel msg false); split; reflexivity.
Qed.

End ConsumerProperties.

Lemma reject_on_handler_failure_witness :
  let callback :=
    @Consumer.on_message Sample.platform Sample.open_channel
      Sample.failing_handler (Consumer.consumeOptions VUndefined) in
  rejected (trace_of (callback (Some Sample.delivery)))
  = [(Sample.delivery, false)]
  /\ acked (trace_of (callback (Some Sample.delivery))) = [].
Proof.
  eapply (@reject_on_handler_failure Sample.platform
            (Normal Sample.open_channel) (Consumer.new (Config.load ∅))
            Sample.failing_handler VUndefined world0 _ _
            (@Consumer.on_message Sample.platform Sample.open_channel
               Sample.failing_handler (Consumer.consumeOptions VUndefined))
            _ Sample.delivery (ThrownError Sample.handler_failed)).
  - reflexivity.
  - reflexivity.
  - reflexivity.
  - reflexivity.
Defined.

Lemma noAck_suppresses_ack_and_reject_witness :
  let callback :=
    @Consumer.on_message Sample.platform Sample.open_channel
      Sample.failing_handler (Consumer.consumeOptions Sample.noAck_options) in
  acked (trace_of (callback (Some Sample.delivery))) = []
  /\ rejected (trace_of (callback (Some Sample.delivery))) = [].
Proof.
  eapply (@noAck_suppresses_ack_and_reject Sample.platform
            (Normal Sample.open_channel) (Consumer.new (Config.load ∅))
            Sample.failing_handler Sample.noAck_options world0 _ _
            (@Consumer.on_message Sample.platform Sample.open_channel
               Sample.failing_handler
               (Consumer.consumeOptions Sample.noAck_options))
            _ (Some Sample.delivery)).
  - reflexivity.
  - vm_compute. reflexivity.
Defined.

(** C3, where the code departs from it.  A consumer is registered with the
    default options on a channel that is closed by the time the handler
    has resolved.  The callback calls [channel.ack] on the delivery once,
    the call throws, and the [catch] block that was written for handler
    failures then calls [channel.reject] on the same delivery. *)
Theorem ack_failure_also_rejects :
  let callback :=
    @Consumer.on_message Sample.platform Sample.closing_channel
      Sample.resolving_handler (Consumer.consumeOptions VUndefined) in
  (exists this' w',
      @Consumer.consume Sample.platform (Normal Sample.closing_channel)
        (Consumer.new (Config.load ∅)) Sample.resolving_handler VUndefined
        world0
      = (Normal (str "test-consumer-tag", this', callback), w'))
  /\ Sample.resolving_handler
       (@Consumer.parsedContent Sample.platform Sample.delivery)
       Sample.delivery = Normal tt
  /\ acked (trace_of (callback (Some Sample.delivery))) = [Sample.delivery]
  /\ rejected (trace_of (callback (Some Sample.delivery)))
     = [(Sample.delivery, false)].
Proof.
  split; [eexists _, _; reflexivity |]. split; [reflexivity |].
  eapply (@ack_failure_rejects Sample.platform
            (Normal Sample.closing_channel) (Consumer.new (Config.load ∅))
            Sample.resolving_handler VUndefined world0 _ _ _ _
            Sample.closing_channel Sample.delivery Sample.channel_closed).
  - reflexivity.
  - reflexivity.
  - reflexivity.
  - reflexivity.
  - reflexivity.
Qed.

(** C4, where the code departs from it.  A consumer is registered with
    the default options, so manual acknowledgement is on, and the handler
    rejects its promise without a reason, as [() => Promise.reject()]
    does.  The [catch] block of the callback evaluates [error.message]
    for its log line before anything else; on [undefined] that throws a
    [TypeError], so [channel.reject] is never reached: the delivery is
    neither rejected nor acknowledged, and the promise of the callback is
    rejected. *)
Theorem rejection_without_reason_is_not_rejected :
  let callback :=
    @Consumer.on_message Sample.platform Sample.open_channel
      Sample.handler_without_reason (Consumer.consumeOptions VUndefined) in
  (exists this' w',
      @Consumer.consume Sample.platform (Normal Sample.open_channel)
        (Consumer.new (Config.load ∅)) Sample.handler_without_reason
        VUndefined world0
      = (Normal (str "test-consumer-tag", this', callback), w'))
  /\ manual_ack (Consumer.consumeOptions VUndefined)
  /\ Sample.handler_without_reason
       (@Consumer.parsedContent Sample.platform Sample.delivery)
       Sample.delivery = Throw (ThrownValue VUndefined)
  /\ rejected (trace_of (callback (Some Sample.delivery))) = []
  /\ acked (trace_of (callback (Some Sample.delivery))) = []
  /\ trace_of (callback (Some Sample.delivery))
     = [Log LogDebug;
        HandlerCall (@Consumer.parsedContent Sample.platform Sample.delivery)
          Sample.delivery]
  /\ exists e,
       result_of (callback (Some Sample.delivery)) = Throw e
       /\ exn_class e = TypeErrorClass.
Proof.
  split; [eexists _, _; reflexivity |].
  split; [reflexivity |]. split; [reflexivity |].
  destruct (@on_message_handler_unreportable Sample.platform
              Sample.open_channel Sample.handler_without_reason
              (Consumer.consumeOptions VUndefined) Sample.delivery
              (ThrownValue VUndefined) eq_refl eq_refl)
    as [Htrace Hresult].
  cbv zeta. rewrite Htrace. split_and!; try reflexivity. exact Hresult.
Qed.

(* ===================================================================== *)
(** * Properties of the publisher *)
(* ===================================================================== *)

Section PublisherProperties.
Context `{Platform}.
Variable createChannel : completion Channel.

Import Publisher.

Lemma to_buffer_serializes message body w :
  serializes_to message body -> to_buffer message w = (Normal body, w).
Proof.
  unfold to_buffer. intros [[Hobj ->] | (s & -> & ->)].
  - rewrite bool_decide_eq_true_2 by exact Hobj. reflexivity.
  - reflexivity.
Qed.

(** A call of [publish] that reaches the channel write: the channel and
    the exchange are there and the message can be serialized.  The write
    is attempted once, and its outcome is the outcome of [publish]. *)
Lemma publish_reaches_write this message routingKey options channel body :
  createChannel = Normal channel ->
  assertExchange channel (exchange this) (exchangeType this)
    (exchangeOptions this) = Normal tt ->
  serializes_to message body ->
  result_of (publish createChannel this message routingKey options)
  = channel_publish channel (exchange this)
      (Publisher.routingKey_or_default this routingKey) body
      (messageOptions this options)
  /\ published (trace_of (publish createChannel this message routingKey
                            options))
     = [(exchange this, Publisher.routingKey_or_default this routingKey, body,
         messageOptions this options)].
Proof.
  intros Hch Hex Hbody.
  assert (Hbuf : forall w, to_buffer message w = (Normal body, w))
    by (intros w; apply to_buffer_serializes, Hbody).
  unfold result_of, trace_of, publish, try_catch, bind, perform.
  rewrite Hch, Hex, Hbuf.
  destruct (channel_publish channel (exchange this)
              (Publisher.routingKey_or_default this routingKey) body
              (messageOptions this options)) as [result | e].
  - unfold ret, logger, perform. simpl.
    destruct (truthy result); split; reflexivity.
  - unfold throw, logger, perform. simpl. split; reflexivity.
Qed.





(** C8, as amended.  When the channel write throws, [publish] logs the
    failure (one line at error level, right after the write that failed
    and as the last thing it does) and fails with the very error the
    write threw: same class, same name, same message, nothing wrapped
    around it. *)
Theorem publish_rethrows_write_error env message routingKey options channel
        body e :
  createChannel = Normal channel ->
  assertExchange channel (exchange (publisher env))
    (exchangeType (publisher env)) (exchangeOptions (publisher env))
  = Normal tt ->
  serializes_to message body ->
  channel_publish channel (exchange (publisher env))
    (Publisher.routingKey_or_default (publisher env) routingKey) body
    (messageOptions (publisher env) options) = Throw e ->
  result_of (publish createChannel (publisher env) message routingKey
               options) = Throw e
  /\ trace_of (publish createChannel (publisher env) message routingKey
                 options)
     = [CreateChannel;
        AssertExchange (exchange (publisher env))
          (exchangeType (publisher env)) (exchangeOptions (publisher env));
        ChannelPublish (exchange (publisher env))
          (Publisher.routingKey_or_default (publisher env) routingKey) body
          (messageOptions (publisher env) options);
        Log LogError].
Proof.
  intros Hch Hex Hbody Hwrite.
  assert (Hbuf : forall w, to_buffer message w = (Normal body, w))
    by (intros w; apply to_buffer_serializes, Hbody).
  unfold result_of, trace_of, publish, try_catch, bind, perform.
  rewrite Hch, Hex, Hbuf, Hwrite.
  unfold throw, logger, perform. simpl. split; reflexivity.
Qed.

End PublisherProperties.

(** C8, the claim as written fails.  The write of the publisher tests
    throws a plain [Error("Publish failed")]; [publish] fails with that
    same object, whose class is [Error] and which is no instance of the
    repository's broker error class. *)
Lemma publish_failure_is_not_wrapped :
  result_of (@Publisher.publish Sample.platform
               (Normal Sample.failing_write_channel) (publisher ∅)
               Sample.testMessage VUndefined VUndefined)
  = Throw Sample.publish_failed
  /\ exn_class Sample.publish_failed = ErrorClass
  /\ exn_name Sample.publish_failed = str "Error"
  /\ Errors.instanceof_MessageQueueError Sample.publish_failed = false
  /\ Errors.instanceof_AppError Sample.publish_failed = false.
Proof.
  split; [| split_and!; reflexivity].
  destruct (@publish_reaches_write Sample.platform
              (Normal Sample.failing_write_channel) (publisher ∅)
              Sample.testMessage VUndefined VUndefined
              Sample.failing_write_channel
              (@Buffer_from Sample.platform
                 (@JSON_stringify Sample.platform Sample.testMessage)))
    as [Hres _].
  - reflexivity.
  - reflexivity.
  - left. split; reflexivity.
  - rewrite Hres. reflexivity.
Qed.


Lemma publish_rethrows_write_error_witness :
  let this := publisher ∅ in
  let call := @Publisher.publish Sample.platform
                (Normal Sample.closing_channel) this
                (VString (str "test message")) VUndefined VUndefined in
  result_of call = Throw Sample.channel_closed
  /\ trace_of call
     = [CreateChannel;
        AssertExchange (Publisher.exchange this)
          (Publisher.exchangeType this) (Publisher.exchangeOptions this);
        ChannelPublish (Publisher.exchange this)
          (Publisher.routingKey_or_default this VUndefined)
          (@Buffer_from Sample.platform (str "test message"))
          (Publisher.messageOptions this VUndefined);
        Log LogError].
Proof.
  apply (@publish_rethrows_write_error Sample.platform
           (Normal Sample.closing_channel) ∅ (VString (str "test message"))
           VUndefined VUndefined Sample.closing_channel
           (@Buffer_from Sample.platform (str "test message"))).
  - reflexivity.
  - reflexivity.
  - right. eexists. split; reflexivity.
  - reflexivity.
Defined.

(* ===================================================================== *)
(** * More on the reconnection logic *)
(* ===================================================================== *)

Section ReconnectBounds.
Variable config : Config.t.
Variable maxRetries : nat.
Hypothesis attempts_configured :
  Config.reconnectAttempts (Config.connection config)
  = Num (Z.of_nat maxRetries).

Import Connection.

Lemma step_success this ev :
  is_success ev = true ->
  connectionRetries (fst (step config this ev)) = 0
  /\ scheduled (snd (step config this ev)) = 0%nat.
Proof.
  destruct ev as [| [c | e] | |]; simpl; intros E; try discriminate E.
  split; reflexivity.
Qed.

Lemma event_kind ev :
  (is_failure ev = true /\ is_success ev = false)
  \/ (is_failure ev = false /\ is_success ev = true)
  \/ (is_failure ev = false /\ is_success ev = false).
Proof. destruct ev as [| [c | e] | |]; simpl; auto. Qed.

(** One event, whatever it is: the counter stays within its bounds, and a
    timer is set only by a failure met below the maximum, which then costs
    one unit of the counter. *)
Lemma step_budget this ev :
  0 <= connectionRetries this <= Z.of_nat maxRetries ->
  0 <= connectionRetries (fst (step config this ev)) <= Z.of_nat maxRetries
  /\ Z.of_nat (scheduled (snd (step config this ev)))
       + (Z.of_nat maxRetries - connectionRetries (fst (step config this ev)))
     <= (Z.of_nat maxRetries - connectionRetries this)
        + (if is_success ev then Z.of_nat maxRetries else 0).
Proof.
  intros Hrange.
  destruct (event_kind ev) as [[Hf Hs] | [[Hf Hs] | [Hf Hs]]]; rewrite Hs.
  - destruct (step_failure config this ev Hf) as [-> ->].
    destruct (Z_lt_ge_dec (connectionRetries this) (Z.of_nat maxRetries))
      as [Hlt | Hge].
    + destruct (handleConnectionError_below config maxRetries
                  attempts_configured this Hlt) as [-> ->]. lia.
    + destruct (handleConnectionError_exhausted config maxRetries
                  attempts_configured this) as [-> ->]; lia.
  - destruct (step_success this ev Hs) as [-> ->]. lia.
  - destruct (step_neutral config this ev Hf Hs) as [-> ->]. lia.
Qed.

(** X1.  Whatever happens to the manager, in whatever order (failures,
    successful connects, calls of [connect()]), the retry counter stays
    between [0] and the configured number of attempts. *)
Theorem retries_within_bounds (this : t) (evs : list event) :
  0 <= connectionRetries this <= Z.of_nat maxRetries ->
  0 <= connectionRetries (fst (run config this evs)) <= Z.of_nat maxRetries.
Proof.
  revert this. induction evs as [| ev evs IH]; intros this Hrange.
  - exact Hrange.
  - rewrite run_cons. simpl fst. apply IH.
    apply (step_budget this ev Hrange).
Qed.

(** X2.  Successful connects included: along any sequence of events the
    reconnect attempts scheduled are at most what is left of the budget
    at the start plus one full budget per successful [connect()]. *)
Theorem scheduled_within_budget (this : t) (evs : list event) :
  0 <= connectionRetries this <= Z.of_nat maxRetries ->
  Z.of_nat (scheduled (snd (run config this evs)))
  <= (Z.of_nat maxRetries - connectionRetries this)
     + Z.of_nat maxRetries * Z.of_nat (successes evs).
Proof.
  revert this. induction evs as [| ev evs IH]; intros this Hrange.
  - unfold scheduled, successes. simpl. lia.
  - rewrite run_cons. simpl snd. rewrite scheduled_app, Nat2Z.inj_add.
    destruct (step_budget this ev Hrange) as [Hrange' Hstep].
    specialize (IH _ Hrange').
    unfold successes in *. simpl List.filter.
    destruct (is_success ev); simpl length; lia.
Qed.

End ReconnectBounds.

Section ReconnectDisabled.
Variable config : Config.t.
Hypothesis disabled : reconnect_disabled config.

Import Connection.

Lemma handleConnectionError_disabled this :
  0 <= connectionRetries this ->
  connectionRetries (fst (handleConnectionError config this))
  = connectionRetries this
  /\ scheduled (snd (handleConnectionError config this)) = 0%nat.
Proof.
  intros Hpos. unfold handleConnectionError.
  destruct disabled as [-> | (z & -> & Hz)]; simpl.
  - split; reflexivity.
  - rewrite (proj2 (Z.ltb_ge _ _)) by lia. split; reflexivity.
Qed.

(** X3.  When [RABBITMQ_RECONNECT_ATTEMPTS] does not parse as a number
    (the configured attempts are [NaN]) or is not positive, no reconnect
    attempt is ever scheduled, whatever failures occur: the first failure
    is already reported as the last. *)
Theorem no_reconnect_when_disabled (this : t) (evs : list event) :
  0 <= connectionRetries this ->
  scheduled (snd (run config this evs)) = 0%nat
  /\ 0 <= connectionRetries (fst (run config this evs)).
Proof.
  revert this. induction evs as [| ev evs IH]; intros this Hpos.
  - split; [reflexivity | exact Hpos].
  - rewrite run_cons. simpl fst. simpl snd. rewrite scheduled_app.
    assert (Hstep : scheduled (snd (step config this ev)) = 0%nat
                    /\ 0 <= connectionRetries (fst (step config this ev))).
    { destruct (event_kind ev) as [[Hf Hs] | [[Hf Hs] | [Hf Hs]]].
      - destruct (step_failure config this ev Hf) as [-> ->].
        destruct (handleConnectionError_disabled this Hpos) as [-> ->].
        auto.
      - destruct (step_success config this ev Hs) as [-> ->]. split; lia.
      - destruct (step_neutral config this ev Hf Hs) as [-> ->]. auto. }
    destruct Hstep as [-> Hpos'].
    destruct (IH _ Hpos') as [-> Hfinal]. auto.
Qed.

End ReconnectDisabled.

Lemma retries_within_bounds_witness :
  0 <= Connection.connectionRetries
         (fst (Connection.run (Config.load ∅) Connection.new
                 (Sample.outage 12))) <= 10.
Proof.
  apply (retries_within_bounds (Config.load ∅) 10 default_reconnectAttempts
           Connection.new (Sample.outage 12)).
  vm_compute. split; discriminate.
Defined.

Lemma scheduled_within_budget_witness :
  Z.of_nat (Connection.scheduled
              (snd (Connection.run (Config.load ∅) Connection.new
                      (Sample.outage 3
                       ++ [Connection.ConnectCalled;
                           Connection.ConnectSettled (Normal 1%N);
                           Connection.ConnectionClosed]))))
  <= (10 - 0) + 10 * 1.
Proof.
  apply (scheduled_within_budget (Config.load ∅) 10
           default_reconnectAttempts Connection.new
           (Sample.outage 3
            ++ [Connection.ConnectCalled;
                Connection.ConnectSettled (Normal 1%N);
                Connection.ConnectionClosed])).
  vm_compute. split; discriminate.
Defined.

Lemma no_reconnect_when_disabled_witness :
  let config :=
    Config.load (<[str "RABBITMQ_RECONNECT_ATTEMPTS" := str "ten"]> ∅) in
  Connection.scheduled
    (snd (Connection.run config Connection.new (Sample.outage 4))) = 0%nat
  /\ 0 <= Connection.connectionRetries
            (fst (Connection.run config Connection.new (Sample.outage 4))).
Proof.
  apply (no_reconnect_when_disabled
           (Config.load (<[str "RABBITMQ_RECONNECT_ATTEMPTS" := str "ten"]> ∅))).
  - left. vm_compute. reflexivity.
  - vm_compute. discriminate.
Defined.

(* ===================================================================== *)
(** * More on the message envelope *)
(* ===================================================================== *)

Section MessageMore.
Context `{Platform}.

Lemma validate_true_iff (m : Message.t) :
  Message.validate m = Normal true <-> ~ data_absent m /\ type_present m.
Proof.
  split.
  - intros Hv. destruct (data_absent_dec m) as [Ha | Hp].
    + rewrite (validate_data_absent m Ha) in Hv. discriminate Hv.
    + split; [exact Hp |]. destruct (type_present_dec m) as [Ht | Ht].
      * exact Ht.
      * rewrite (validate_type_blank m Hp Ht) in Hv. discriminate Hv.
  - intros [Hp Ht]. apply validate_type_present; assumption.
Qed.

Lemma validate_depends_on_data_and_type (a b : Message.t) :
  Message.data a = Message.data b -> Message.type a = Message.type b ->
  Message.validate a = Message.validate b.
Proof. unfold Message.validate. intros -> ->. reflexivity. Qed.

Lemma parse_json_runs text w :
  parse_json text w
  = match JSON_parse text with
    | Some v => (Normal v, w)
    | None => (Throw (SyntaxError (str "Unexpected token in JSON")), w)
    end.
Proof. unfold parse_json. destruct (JSON_parse text); reflexivity. Qed.

(** X4.  [fromJSON] on a JSON text does what it does on the value the
    text stands for, as long as that value is not itself a string (a
    string would be parsed once more). *)
Theorem fromJSON_text_as_value (text : jsstring) (parsed : value)
        (w : World) :
  JSON_parse text = Some parsed ->
  (forall s, parsed <> VString s) ->
  Message.fromJSON (VString text) w = Message.fromJSON parsed w.
Proof.
  intros Hparse Hnot. unfold Message.fromJSON.
  unfold bind at 1. rewrite parse_json_runs, Hparse.
  symmetry. unfold bind at 1.
  destruct parsed; try reflexivity. exfalso. exact (Hnot s eq_refl).
Qed.

(** X5.  [fromJSON] throws exactly on a text that is not JSON and on a
    parsed value that is [undefined] or [null] (the text [null]
    included); and when it throws it has drawn no identifier and has not
    read the clock. *)
Theorem fromJSON_throws_iff (rawMessage : value) (w : World) :
  ((exists e w', Message.fromJSON rawMessage w = (Throw e, w'))
   <-> (parsed_input rawMessage = None
        \/ exists parsed, parsed_input rawMessage = Some parsed
                          /\ nullish parsed))
  /\ (forall e w', Message.fromJSON rawMessage w = (Throw e, w') -> w' = w).
Proof.
  assert (Hcases :
    (exists parsed, parsed_input rawMessage = Some parsed /\ defined parsed
                    /\ Message.fromJSON rawMessage w
                       = (Normal (rebuilt parsed w),
                          after_fromJSON parsed w))
    \/ ((parsed_input rawMessage = None
         \/ exists parsed, parsed_input rawMessage = Some parsed
                           /\ nullish parsed)
        /\ exists e, Message.fromJSON rawMessage w = (Throw e, w))).
  { destruct (parsed_input rawMessage) as [parsed |] eqn:Hparsed.
    - assert (Hd : defined parsed \/ nullish parsed).
      { unfold defined, nullish.
        destruct parsed; auto; left; split; discriminate. }
      destruct Hd as [Hdef | Hnull].
      + left. exists parsed. split; [reflexivity |]. split; [exact Hdef |].
        apply fromJSON_rebuilds; assumption.
      + right. split; [right; exists parsed; auto |].
        destruct (get_prop_nullish parsed (str "data") w Hnull) as [e He].
        exists e. unfold Message.fromJSON. unfold bind at 1.
        assert (Hfirst : (match rawMessage with
                          | VString text => parse_json text
                          | _ => ret rawMessage
                          end) w = (Normal parsed, w)).
        { destruct rawMessage; simpl in Hparsed;
            try (injection Hparsed as <-; reflexivity).
          rewrite parse_json_runs, Hparsed. reflexivity. }
        rewrite Hfirst. unfold bind at 1. rewrite He. reflexivity.
    - right. split; [left; reflexivity |].
      destruct rawMessage; try discriminate Hparsed. simpl in Hparsed.
      eexists. unfold Message.fromJSON. unfold bind at 1.
      rewrite parse_json_runs, Hparsed. reflexivity. }
  destruct Hcases as [(parsed & Hp & Hdef & Hrun) | [Hbad (e & Hrun)]].
  - split.
    + split.
      * intros (e & w' & He). rewrite Hrun in He. discriminate He.
      * intros [Hnone | (parsed' & Hp' & Hnull)].
        -- rewrite Hp in Hnone. discriminate Hnone.
        -- rewrite Hp in Hp'. injection Hp' as <-.
           destruct Hdef as [Hu Hn]. destruct Hnull; contradiction.
    + intros e w' He. rewrite Hrun in He. discriminate He.
  - split.
    + split; [intros _; exact Hbad | intros _; eauto].
    + intros e' w' He. rewrite Hrun in He. congruence.
Qed.

(** X6.  The round trip does not keep [metadata.createdAt]: for a message
    whose metadata is an object, [fromJSON(message.toJSON())] returns a
    message with the same metadata properties, except [createdAt], which
    holds the clock reading taken while [fromJSON] runs. *)
Theorem round_trip_restamps_createdAt (m : Message.t)
        (props : gmap (list N) value) (w : World) :
  Message.metadata m = VObject props ->
  exists copy w' props',
    Message.fromJSON (Message.toJSON m) w = (Normal copy, w')
    /\ Message.metadata copy = VObject props'
    /\ props' !! str "createdAt"
       = Some (VString (toISOString (now_at (S (clock_reads w)))))
    /\ (forall key, key <> str "createdAt" -> props' !! key = props !! key).
Proof.
  intros Hmeta.
  eexists _, _, _. split.
  { apply fromJSON_rebuilds; [reflexivity | split; discriminate]. }
  destruct (toJSON_fields m) as (_ & _ & _ & _ & Hmd).
  unfold rebuilt; simpl. rewrite Hmd, Hmeta. simpl.
  split; [reflexivity |]. split; [apply lookup_insert_eq |].
  intros key Hne. apply lookup_insert_ne. congruence.
Qed.

(** X7.  The round trip keeps validity: for a message whose [type] is not
    [undefined], [validate] gives on [fromJSON(message.toJSON())] the
    outcome it gives on the message. *)
Theorem round_trip_keeps_validity (m : Message.t) (w : World) :
  Message.type m <> VUndefined ->
  exists copy w',
    Message.fromJSON (Message.toJSON m) w = (Normal copy, w')
    /\ Message.validate copy = Message.validate m.
Proof.
  intros Htype.
  eexists _, _. split.
  { apply fromJSON_rebuilds; [reflexivity | split; discriminate]. }
  destruct (toJSON_fields m) as (_ & _ & Hty & Hda & _).
  apply validate_depends_on_data_and_type; unfold rebuilt; simpl.
  - exact Hda.
  - rewrite Hty. destruct (Message.type m); try reflexivity. contradiction.
Qed.

(** X8.  [fromJSON] does not validate.  The message it returns passes
    [validate] exactly when the parsed value has a [data] that is neither
    [undefined] nor [null] and a [type] that is either absent (it then
    becomes ["default"]) or a string with a character left after
    trimming. *)
Theorem fromJSON_then_validate (rawMessage : value) (w : World)
        (message : Message.t) (w' : World) :
  Message.fromJSON rawMessage w = (Normal message, w') ->
  exists parsed,
    parsed_input rawMessage = Some parsed
    /\ (Message.validate message = Normal true
        <-> defined (field parsed "data")
            /\ (field parsed "type" = VUndefined
                \/ exists s, field parsed "type" = VString s
                             /\ trim s <> [])).
Proof.
  intros Hrun.
  destruct (fromJSON_accepted _ _ _ _ Hrun) as (parsed & Hp & _ & ->).
  exists parsed. split; [exact Hp |].
  rewrite validate_true_iff. unfold data_absent, type_present, defined.
  unfold rebuilt; simpl. split.
  - intros [Hd (s & Hs & Ht)]. split.
    + split; intros E; apply Hd; auto.
    + destruct (field parsed "type"); simpl in Hs; try discriminate Hs;
        [left; reflexivity | right; eauto].
  - intros [[Hu Hn] Hty]. split.
    + intros [E | E]; contradiction.
    + destruct Hty as [-> | (s & -> & Ht)].
      * exists (str "default"). split; [reflexivity |].
        vm_compute. discriminate.
      * exists s. split; [reflexivity | exact Ht].
Qed.

End MessageMore.

Lemma fromJSON_text_as_value_witness :
  @Message.fromJSON Sample.platform (VString (str "{}")) world0
  = @Message.fromJSON Sample.platform (VObject ∅) world0.
Proof.
  apply (@fromJSON_text_as_value Sample.platform (str "{}") (VObject ∅)
           world0).
  - reflexivity.
  - intros s. discriminate.
Defined.

Lemma round_trip_restamps_createdAt_witness :
  exists copy w' props',
    @Message.fromJSON Sample.platform (Message.toJSON Sample.valid_message)
      world0 = (Normal copy, w')
    /\ Message.metadata copy = VObject props'
    /\ props' !! str "createdAt"
       = Some (VString (@toISOString Sample.platform
                          (@now_at Sample.platform 1)))
    /\ (forall key, key <> str "createdAt" ->
                    props' !! key = (∅ : gmap (list N) value) !! key).
Proof.
  apply (@round_trip_restamps_createdAt Sample.platform Sample.valid_message
           ∅ world0).
  reflexivity.
Defined.

Lemma round_trip_keeps_validity_witness :
  exists copy w',
    @Message.fromJSON Sample.platform
      (Message.toJSON Sample.blank_type_message) world0 = (Normal copy, w')
    /\ Message.validate copy = Message.validate Sample.blank_type_message.
Proof.
  apply (@round_trip_keeps_validity Sample.platform
           Sample.blank_type_message world0).
  simpl. discriminate.
Defined.

Lemma fromJSON_then_validate_witness :
  exists parsed,
    @parsed_input Sample.platform Sample.incomplete = Some parsed
    /\ (Message.validate (@rebuilt Sample.platform Sample.incomplete world0)
        = Normal true
        <-> defined (field parsed "data")
            /\ (field parsed "type" = VUndefined
                \/ exists s, field parsed "type" = VString s
                             /\ trim s <> [])).
Proof.
  apply (@fromJSON_then_validate Sample.platform Sample.incomplete world0
           (@rebuilt Sample.platform Sample.incomplete world0)
           (after_fromJSON Sample.incomplete world0)).
  vm_compute. reflexivity.
Defined.

(* ===================================================================== *)
(** * More on the consumer callback and on the publisher *)
(* ===================================================================== *)

Section CallbackMore.
Context `{Platform}.
Variable channel : Channel.
Variable messageHandler : value -> Delivery -> outcome thrown unit.

Import Consumer.

(** The log line of the [catch] block acts on nothing: it returns or
    throws, the same in every world. *)
Lemma message_text_pure error w :
  message_text error w = (result_of (message_text error), w).
Proof.
  unfold result_of. destruct (reportable error) eqn:Hr.
  - rewrite !(message_text_returns error _ Hr). reflexivity.
  - destruct error as [e | v]; [discriminate Hr |].
    assert (Hcases : nullish v \/ defined v).
    { unfold nullish, defined.
      destruct v; auto; right; split; discriminate. }
    destruct Hcases as [[-> | ->] | Hdef]; try reflexivity.
    unfold message_text, bind.
    rewrite !(get_prop_field v "message") by (try exact Hdef; discriminate).
    unfold to_text. rewrite <- (reportable_value v Hdef), Hr. reflexivity.
Qed.

(** X9.  When the promise of the callback is rejected: in two cases and
    no other.  Either the [catch] block cannot report what the handler
    threw ([undefined], [null], or a value whose [message] cannot be
    converted to text): evaluating [error.message] for the log line
    throws a [TypeError], which is what the promise is rejected with,
    whatever the [noAck] option.  Or, under manual acknowledgement,
    [channel.reject] itself throws, after a failure of the handler that
    could be reported or after an acknowledgement that threw, and the
    promise is rejected with the error of [channel.reject]. *)
Theorem callback_rejected_iff
        (opts : gmap (list N) value) (msg : option Delivery) (e : exn) :
  result_of (on_message channel messageHandler opts msg) = Throw e
  <-> exists m,
        msg = Some m
        /\ ((exists error,
               messageHandler (parsedContent m) m = Throw error
               /\ reportable error = false
               /\ result_of (message_text error) = Throw e
               /\ exn_class e = TypeErrorClass)
            \/ (manual_ack opts
                /\ reject channel m false = Throw e
                /\ ((exists error,
                       messageHandler (parsedContent m) m = Throw error
                       /\ reportable error = true)
                    \/ (messageHandler (parsedContent m) m = Normal tt
                        /\ exists e', ack channel m = Throw e')))).
Proof.
  unfold manual_ack. destruct msg as [m |].
  2:{ split; [intros E; discriminate E |].
      intros (m & Em & _). discriminate Em. }
  destruct (messageHandler (parsedContent m) m) as [[] | error] eqn:Hh.
  - (* the handler resolved *)
    unfold result_of, on_message, try_catch_thrown, and_then, lift, await,
      bind, perform, logger. simpl. rewrite Hh. simpl.
    destruct (truthy (noAck opts)) eqn:Hopt; simpl.
    + split; [intros E; discriminate E |].
      intros (m' & Em & [(error & E' & _) | (Hm & _)]);
        injection Em as <-; congruence.
    + destruct (ack channel m) as [[] | ea] eqn:Hack; simpl.
      * split; [intros E; discriminate E |].
        intros (m' & Em & [(error & E' & _)
                          | (_ & _ & [(error & E' & _) | (_ & e' & E')])]);
          injection Em as <-; congruence.
      * destruct (reject channel m false) as [[] | er] eqn:Hrej; simpl.
        -- split; [intros E; discriminate E |].
           intros (m' & Em & [(error & E' & _) | (_ & Hr & _)]);
             injection Em as <-; congruence.
        -- split.
           ++ intros E. injection E as <-. exists m. split; [reflexivity |].
              right. split_and!; auto. right. split; [exact Hh | eauto].
           ++ intros (m' & Em & [(error & E' & _) | (_ & Hr & _)]);
                injection Em as <-; congruence.
  - (* the handler threw *)
    unfold result_of, on_message, try_catch_thrown, and_then, lift, await,
      bind, perform, logger. simpl. rewrite Hh. simpl.
    rewrite message_text_pure.
    destruct (reportable error) eqn:Hr.
    + assert (Hres : result_of (message_text error) = Normal tt)
        by (unfold result_of;
            rewrite (message_text_returns error world0 Hr); reflexivity).
      rewrite Hres. simpl.
      destruct (truthy (noAck opts)) eqn:Hopt; simpl.
      * split; [intros E; discriminate E |].
        intros (m' & Em & [(error' & E' & Hr' & _) | (Hm & _)]);
          injection Em as <-; congruence.
      * destruct (reject channel m false) as [[] | er] eqn:Hrej; simpl.
        -- split; [intros E; discriminate E |].
           intros (m' & Em & [(error' & E' & Hr' & _) | (_ & Hrj & _)]);
             injection Em as <-; congruence.
        -- split.
           ++ intros E. injection E as <-. exists m. split; [reflexivity |].
              right. split_and!; auto. left. eauto.
           ++ intros (m' & Em & [(error' & E' & Hr' & _) | (_ & Hrj & _)]);
                injection Em as <-; congruence.
    + destruct (message_text_throws error world0 Hr) as (e0 & He0 & Hclass).
      assert (Hres : result_of (message_text error) = Throw e0)
        by (unfold result_of; rewrite He0; reflexivity).
      rewrite Hres. simpl. split.
      * intros E. injection E as <-. exists m. split; [reflexivity |].
        left. exists error. split_and!; auto.
      * intros (m' & Em & [(error' & E' & _ & Hres' & _)
                          | (_ & _ & [(error' & E' & Hr') | (E' & _)])]);
          injection Em as <-.
        -- assert (error' = error) as -> by congruence.
           rewrite <- Hres. exact Hres'.
        -- congruence.
        -- congruence.
Qed.

(** X10.  For every delivery that is not [null] the handler is invoked
    exactly once, before any call on the channel, with the JSON value of
    the content when the content is JSON and with the content as text
    otherwise. *)
Theorem handler_called_once_with_content
        (opts : gmap (list N) value) (m : Delivery) :
  handled (trace_of (on_message channel messageHandler opts (Some m)))
  = [(parsedContent m, m)]
  /\ (exists rest,
        trace_of (on_message channel messageHandler opts (Some m))
        = Log LogDebug :: HandlerCall (parsedContent m) m :: rest)
  /\ (forall v, JSON_parse (Buffer_toString (content m)) = Some v ->
                parsedContent m = v)
  /\ (JSON_parse (Buffer_toString (content m)) = None ->
      parsedContent m = VString (Buffer_toString (content m))).
Proof.
  assert (Htrace : exists rest,
             trace_of (on_message channel messageHandler opts (Some m))
             = Log LogDebug :: HandlerCall (parsedContent m) m :: rest
             /\ handled rest = []).
  { destruct (messageHandler (parsedContent m) m) as [[] | error] eqn:Hh.
    - unfold trace_of, on_message, try_catch_thrown, and_then, lift, await,
        bind, perform, logger. simpl. rewrite Hh. simpl.
      destruct (truthy (noAck opts)); simpl;
        [eexists; split; reflexivity |].
      destruct (ack channel m) as [[] | ea]; simpl;
        [eexists; split; reflexivity |].
      destruct (reject channel m false); eexists; split; reflexivity.
    - destruct (reportable error) eqn:Hr.
      + unfold trace_of, on_message, try_catch_thrown, and_then, lift,
          await, bind, perform, logger. simpl. rewrite Hh. simpl.
        rewrite (message_text_returns error _ Hr). simpl.
        destruct (truthy (noAck opts)); simpl;
          [eexists; split; reflexivity |].
        destruct (reject channel m false); eexists; split; reflexivity.
      + destruct (on_message_handler_unreportable channel messageHandler
                    opts m error Hh Hr) as [-> _].
        exists []. split; reflexivity. }
  destruct Htrace as (rest & Htrace & Hrest).
  split_and!.
  - rewrite Htrace. simpl. rewrite Hrest. reflexivity.
  - exists rest. exact Htrace.
  - intros v Hv. unfold parsedContent. rewrite Hv. reflexivity.
  - intros Hv. unfold parsedContent. rewrite Hv. reflexivity.
Qed.

End CallbackMore.

Section PublishFailures.
Context `{Platform}.
Variable createChannel : completion Channel.

Import Publisher.

(** X11.  When the channel cannot be obtained, or when asserting the
    exchange fails, [publish] fails with that very error and nothing is
    written to the channel. *)
Theorem publish_fails_before_write (this : Publisher.t)
        (message routingKey options : value) (e : exn) :
  (createChannel = Throw e
   \/ exists channel,
        createChannel = Normal channel
        /\ assertExchange channel (exchange this) (exchangeType this)
             (exchangeOptions this) = Throw e) ->
  result_of (publish createChannel this message routingKey options)
  = Throw e
  /\ published (trace_of (publish createChannel this message routingKey
                            options)) = [].
Proof.
  intros [Hch | (channel & Hch & Hex)];
    unfold result_of, trace_of, publish, try_catch, bind, perform, logger,
      throw; rewrite Hch; simpl.
  - split; reflexivity.
  - rewrite Hex. simpl. split; reflexivity.
Qed.

(** X12.  A message that is neither an object nor a string ([undefined],
    a boolean, a number) cannot be turned into a buffer: [publish] asserts
    the exchange, then fails with a [TypeError], and nothing is
    written. *)
Theorem publish_refuses_other_values (this : Publisher.t)
        (message routingKey options : value) (channel : Channel) :
  createChannel = Normal channel ->
  assertExchange channel (exchange this) (exchangeType this)
    (exchangeOptions this) = Normal tt ->
  typeof message <> str "object" ->
  (forall s, message <> VString s) ->
  (exists e,
      result_of (publish createChannel this message routingKey options)
      = Throw e
      /\ exn_class e = TypeErrorClass)
  /\ published (trace_of (publish createChannel this message routingKey
                            options)) = []
  /\ asserted (trace_of (publish createChannel this message routingKey
                           options)) = [exchange this].
Proof.
  intros Hch Hex Hobj Hstr.
  assert (Hbuf : forall w, exists e,
             to_buffer message w = (Throw e, w)
             /\ exn_class e = TypeErrorClass).
  { intros w. unfold to_buffer.
    rewrite bool_decide_eq_false_2 by exact Hobj.
    destruct message; try (eexists; split; reflexivity).
    exfalso. exact (Hstr s eq_refl). }
  unfold result_of, trace_of, publish, try_catch, bind, perform, logger,
    throw. rewrite Hch, Hex.
  match goal with |- context [to_buffer message ?w] =>
    destruct (Hbuf w) as (e & -> & He) end.
  simpl. split_and!; try reflexivity. exists e. auto.
Qed.

End PublishFailures.

Lemma publish_fails_before_write_witness :
  result_of (@Publisher.publish Sample.platform (Throw Sample.refused)
               (publisher ∅) Sample.testMessage VUndefined VUndefined)
  = Throw Sample.refused
  /\ published (trace_of (@Publisher.publish Sample.platform
                            (Throw Sample.refused) (publisher ∅)
                            Sample.testMessage VUndefined VUndefined)) = [].
Proof.
  apply (@publish_fails_before_write Sample.platform (Throw Sample.refused)
           (publisher ∅) Sample.testMessage VUndefined VUndefined
           Sample.refused).
  left. reflexivity.
Defined.

Lemma publish_refuses_other_values_witness :
  let call := @Publisher.publish Sample.platform (Normal Sample.open_channel)
                (publisher ∅) (VNumber (Num 42)) VUndefined VUndefined in
  (exists e, result_of call = Throw e /\ exn_class e = TypeErrorClass)
  /\ published (trace_of call) = []
  /\ asserted (trace_of call) = [Publisher.exchange (publisher ∅)].
Proof.
  apply (@publish_refuses_other_values Sample.platform
           (Normal Sample.open_channel) (publisher ∅) (VNumber (Num 42))
           VUndefined VUndefined Sample.open_channel).
  - reflexivity.
  - reflexivity.
  - vm_compute. discriminate.
  - intros s. discriminate.
Defined.

(* ===================================================================== *)
(** * Closing the connection manager *)
(* ===================================================================== *)

Section CloseProperties.
Variable channel_close : completion unit.
Variable connection_close : completion unit.

Import ConnectionClose.

Lemma close_keeps_counter (this : Connection.t) :
  Connection.connectionRetries
    (fst (close channel_close connection_close this))
  = Connection.connectionRetries this.
Proof.
  unfold close, close_connection, cleared.
  destruct (Connection.channel this), (Connection.connection this),
    channel_close, connection_close; reflexivity.
Qed.

(** X13.  However the two [close()] calls of the broker library end, the
    manager's [close()] leaves neither a connection nor a channel behind,
    and it touches neither the retry counter nor the connecting flag. *)
Theorem close_leaves_clean_slate (this : Connection.t) :
  Connection.connection (fst (close channel_close connection_close this))
  = None
  /\ Connection.channel (fst (close channel_close connection_close this))
     = None
  /\ Connection.connectionRetries
       (fst (close channel_close connection_close this))
     = Connection.connectionRetries this
  /\ Connection.isConnecting
       (fst (close channel_close connection_close this))
     = Connection.isConnecting this.
Proof.
  unfold close, close_connection, cleared.
  destruct (Connection.channel this) as [ch |] eqn:Hch;
    destruct (Connection.connection this) as [c |] eqn:Hc;
    destruct channel_close; destruct connection_close; simpl;
    rewrite ?Hc, ?Hch; simpl; rewrite ?Hch; split_and!; reflexivity.
Qed.

(** X14.  The channel is closed before the connection; and when closing
    the channel throws, the connection is dropped without
    [connection.close()] ever being called. *)
Theorem close_order_and_skipped_connection (this : Connection.t) (ch c : N) :
  Connection.channel this = Some ch ->
  Connection.connection this = Some c ->
  broker_calls (snd (close channel_close connection_close this))
  = match channel_close with
    | Normal _ => [ChannelClose ch; ConnectionClose c]
    | Throw _ => [ChannelClose ch]
    end.
Proof.
  intros Hch Hc. unfold close, close_connection. rewrite Hch.
  destruct channel_close; simpl; [| reflexivity].
  rewrite Hc. destruct connection_close; reflexivity.
Qed.

(** X15.  [close()] does not switch reconnection off: the counter is as
    it was, so when the broker library then emits "close", the listener
    schedules a reconnect attempt exactly as it does after a failure. *)
Theorem close_event_after_close_reconnects (config : Config.t)
        (maxRetries : nat) (this : Connection.t) :
  Config.reconnectAttempts (Config.connection config)
  = Num (Z.of_nat maxRetries) ->
  Connection.connectionRetries this < Z.of_nat maxRetries ->
  Connection.scheduled
    (snd (Connection.step config
            (fst (close channel_close connection_close this))
            Connection.ConnectionClosed)) = 1%nat.
Proof.
  intros Hcfg Hlt. pose proof (close_keeps_counter this) as Hr.
  destruct (step_failure config
              (fst (close channel_close connection_close this))
              Connection.ConnectionClosed eq_refl) as [_ ->].
  apply (handleConnectionError_below config maxRetries Hcfg).
  rewrite Hr. exact Hlt.
Qed.

End CloseProperties.

Lemma close_order_and_skipped_connection_witness :
  ConnectionClose.broker_calls
    (snd (ConnectionClose.close (Throw Sample.channel_closed) (Normal tt)
            sample_manager))
  = [ConnectionClose.ChannelClose 2%N].
Proof.
  apply (close_order_and_skipped_connection (Throw Sample.channel_closed)
           (Normal tt) sample_manager 2%N 1%N); reflexivity.
Defined.

Lemma close_event_after_close_reconnects_witness :
  Connection.scheduled
    (snd (Connection.step (Config.load ∅)
            (fst (ConnectionClose.close (Normal tt) (Normal tt)
                    sample_manager))
            Connection.ConnectionClosed)) = 1%nat.
Proof.
  apply (close_event_after_close_reconnects (Normal tt) (Normal tt)
           (Config.load ∅) 10 sample_manager).
  - reflexivity.
  - reflexivity.
Defined.

(* ===================================================================== *)
(** * The life cycle of the consumer *)
(* ===================================================================== *)

Section LifecycleProperties.
Context `{Platform}.
Variable createChannel : completion Session.
Variable connection_close : completion unit.

Import ConsumerLifecycle.

(** X16.  [initialize()] sets the topology up in order (channel, exchange,
    queue, binding) and stops at the first step that fails: the calls
    made are always a prefix of that sequence, they are the whole
    sequence exactly when [initialize()] resolves, and a failure is the
    error of one of the steps. *)
Theorem initialize_in_order (this : Consumer.t) :
  steps (snd (initialize createChannel this)) `prefix_of` topology this
  /\ (fst (initialize createChannel this) = Normal tt
      <-> steps (snd (initialize createChannel this)) = topology this
          /\ exists session,
               createChannel = Normal session
               /\ bindQueue session (Consumer.queue this)
                    (Consumer.exchange this)
                    (Consumer.defaultRoutingKey this) = Normal tt)
  /\ (forall e,
        fst (initialize createChannel this) = Throw e ->
        createChannel = Throw e
        \/ exists session,
             createChannel = Normal session
             /\ (assertExchange (session_channel session)
                   (Consumer.exchange this) (Consumer.exchangeType this)
                   (Consumer.exchangeOptions this) = Throw e
                 \/ assertQueue session (Consumer.queue this)
                      (Consumer.queueOptions this) = Throw e
                 \/ bindQueue session (Consumer.queue this)
                      (Consumer.exchange this)
                      (Consumer.defaultRoutingKey this) = Throw e)).
Proof.
  unfold initialize, topology.
  destruct createChannel as [session | e0]; simpl.
  - destruct (assertExchange (session_channel session)
                (Consumer.exchange this) (Consumer.exchangeType this)
                (Consumer.exchangeOptions this)) as [[] | e1] eqn:Hae; simpl.
    + destruct (assertQueue session (Consumer.queue this)
                  (Consumer.queueOptions this)) as [[] | e2] eqn:Haq; simpl.
      * destruct (bindQueue session (Consumer.queue this)
                    (Consumer.exchange this)
                    (Consumer.defaultRoutingKey this)) as [[] | e3] eqn:Hbq;
          simpl.
        -- split_and!.
           ++ reflexivity.
           ++ split; [intros _; split; [reflexivity | eauto] | reflexivity].
           ++ intros e E. discriminate E.
        -- split_and!.
           ++ reflexivity.
           ++ split; [intros E; discriminate E |].
              intros [_ (s' & Es & Hb)]. injection Es as <-. congruence.
           ++ intros e E. injection E as <-. right. eauto.
      * split_and!.
        -- eexists [_]. reflexivity.
        -- split; [intros E; discriminate E | intros [E _]; discriminate E].
        -- intros e E. injection E as <-. right. eauto.
    + split_and!.
      * eexists [_; _]. reflexivity.
      * split; [intros E; discriminate E | intros [E _]; discriminate E].
      * intros e E. injection E as <-. right. eauto.
  - split_and!.
    + eexists [_; _; _]. reflexivity.
    + split; [intros E; discriminate E | intros [E _]; discriminate E].
    + intros e E. injection E as <-. left. reflexivity.
Qed.

(** X17.  [cancel()] without a tracked tag does nothing at all.  With a
    tracked tag it cancels that tag once; the tag is forgotten when the
    broker accepts, and it is kept (with the error passed on) when the
    channel cannot be obtained or the broker refuses, so that [cancel()]
    can be tried again. *)
Theorem cancel_outcomes (this : Consumer.t) :
  (Consumer.consumerTag this = None ->
   cancel createChannel this = (Normal tt, this, []))
  /\ (forall tag session,
        Consumer.consumerTag this = Some tag -> tag <> [] ->
        createChannel = Normal session ->
        channel_cancel session tag = Normal tt ->
        fst (fst (cancel createChannel this)) = Normal tt
        /\ Consumer.consumerTag (snd (fst (cancel createChannel this)))
           = None
        /\ cancelled_tags (snd (cancel createChannel this)) = [tag])
  /\ (forall tag e,
        Consumer.consumerTag this = Some tag -> tag <> [] ->
        (createChannel = Throw e
         \/ exists session, createChannel = Normal session
                            /\ channel_cancel session tag = Throw e) ->
        fst (fst (cancel createChannel this)) = Throw e
        /\ snd (fst (cancel createChannel this)) = this).
Proof.
  unfold cancel. split_and!.
  - intros ->. reflexivity.
  - intros tag session -> Htag -> Hc.
    destruct tag as [| c s]; [contradiction |]. rewrite Hc.
    split_and!; reflexivity.
  - intros tag e -> Htag Hfail.
    destruct tag as [| c s]; [contradiction |].
    destruct Hfail as [-> | (session & -> & ->)]; split; reflexivity.
Qed.

(** X18.  [close()] gives up when [cancel()] fails: the error is passed
    on and [rabbitMQConnection.close()] is not called, so the connection
    stays open; it is called, once, when [cancel()] resolves. *)
Theorem close_skips_connection_when_cancel_fails (this : Consumer.t) :
  (forall e,
     fst (fst (cancel createChannel this)) = Throw e ->
     fst (fst (close createChannel connection_close this)) = Throw e
     /\ ~ In OpCloseConnection
            (snd (close createChannel connection_close this)))
  /\ (fst (fst (cancel createChannel this)) = Normal tt ->
      fst (fst (close createChannel connection_close this))
      = connection_close
      /\ List.filter (fun o => match o with
                               | OpCloseConnection => true
                               | _ => false
                               end)
           (snd (close createChannel connection_close this))
         = [OpCloseConnection]).
Proof.
  unfold close, cancel.
  destruct (Consumer.consumerTag this) as [[| c s] |]; simpl.
  - split.
    + intros e E. discriminate E.
    + intros _. destruct connection_close as [[] | e]; split; reflexivity.
  - destruct createChannel as [session | e0]; simpl.
    + destruct (channel_cancel session (c :: s)) as [[] | e1]; simpl.
      * split.
        -- intros e E. discriminate E.
        -- intros _.
           destruct connection_close as [[] | e]; split; reflexivity.
      * split.
        -- intros e E. injection E as <-. split; [reflexivity |].
           simpl. intros [E | [E | [E | [E | []]]]]; discriminate E.
        -- intros E. discriminate E.
    + split.
      * intros e E. injection E as <-. split; [reflexivity |].
        simpl. intros [E | [E | [E | []]]]; discriminate E.
      * intros E. discriminate E.
  - split.
    + intros e E. discriminate E.
    + intros _. destruct connection_close as [[] | e]; split; reflexivity.
Qed.

End LifecycleProperties.

Section ConsumeThenCancel.
Context `{Platform}.
Variable messageHandler : value -> Delivery -> outcome thrown unit.

Import ConsumerLifecycle.

(** X19.  [consume()] then [cancel()]: the tag under which the broker
    registered the consumer is the tag that is cancelled, and afterwards
    no tag is tracked. *)
Theorem consume_then_cancel (this : Consumer.t) (options : value)
        (channel : Channel) (session : Session) (tag : jsstring)
        (w : World) :
  channel_consume channel (Consumer.queue this)
    (Consumer.consumeOptions options) = Normal tag ->
  tag <> [] ->
  channel_cancel session tag = Normal tt ->
  exists this' callback w',
    Consumer.consume (Normal channel) this messageHandler options w
    = (Normal (tag, this', callback), w')
    /\ Consumer.consumerTag this' = Some tag
    /\ fst (fst (cancel (Normal session) this')) = Normal tt
    /\ cancelled_tags (snd (cancel (Normal session) this')) = [tag]
    /\ Consumer.consumerTag (snd (fst (cancel (Normal session) this')))
       = None.
Proof.
  intros Hconsume Htag Hcancel.
  eexists _, _, _. split.
  { unfold Consumer.consume, try_catch, bind, perform, logger. simpl.
    rewrite Hconsume. reflexivity. }
  simpl. split; [reflexivity |].
  unfold cancel. simpl. destruct tag as [| c s]; [contradiction |].
  rewrite Hcancel. split_and!; reflexivity.
Qed.

(** X20.  [consume()] is not guarded against a second call: the second
    tag replaces the first in the consumer, and a later [cancel()]
    cancels the second subscription only. *)
Theorem second_consume_overwrites_tag (this : Consumer.t)
        (options options' : value) (channel channel' : Channel)
        (session : Session) (tag tag' : jsstring) (w : World) :
  channel_consume channel (Consumer.queue this)
    (Consumer.consumeOptions options) = Normal tag ->
  channel_consume channel' (Consumer.queue this)
    (Consumer.consumeOptions options') = Normal tag' ->
  tag' <> [] ->
  channel_cancel session tag' = Normal tt ->
  exists this1 callback1 w1 this2 callback2 w2,
    Consumer.consume (Normal channel) this messageHandler options w
    = (Normal (tag, this1, callback1), w1)
    /\ Consumer.consume (Normal channel') this1 messageHandler options' w1
       = (Normal (tag', this2, callback2), w2)
    /\ Consumer.consumerTag this2 = Some tag'
    /\ cancelled_tags (snd (cancel (Normal session) this2)) = [tag']
    /\ Consumer.consumerTag (snd (fst (cancel (Normal session) this2)))
       = None.
Proof.
  intros Hc1 Hc2 Htag Hcancel.
  eexists _, _, _, _, _, _. split.
  { unfold Consumer.consume, try_catch, bind, perform, logger. simpl.
    rewrite Hc1. reflexivity. }
  split.
  { unfold Consumer.consume, try_catch, bind, perform, logger. simpl.
    rewrite Hc2. reflexivity. }
  simpl. split; [reflexivity |].
  unfold cancel. simpl. destruct tag' as [| c s]; [contradiction |].
  rewrite Hcancel. split; reflexivity.
Qed.

End ConsumeThenCancel.

Lemma consume_then_cancel_witness :
  exists this' callback w',
    @Consumer.consume Sample.platform (Normal Sample.open_channel)
      (Consumer.new (Config.load ∅)) Sample.resolving_handler VUndefined
      world0
    = (Normal (str "test-consumer-tag", this', callback), w')
    /\ Consumer.consumerTag this' = Some (str "test-consumer-tag")
    /\ fst (fst (ConsumerLifecycle.cancel (Normal sample_session) this'))
       = Normal tt
    /\ ConsumerLifecycle.cancelled_tags
         (snd (ConsumerLifecycle.cancel (Normal sample_session) this'))
       = [str "test-consumer-tag"]
    /\ Consumer.consumerTag
         (snd (fst (ConsumerLifecycle.cancel (Normal sample_session) this')))
       = None.
Proof.
  apply (@consume_then_cancel Sample.platform Sample.resolving_handler
           (Consumer.new (Config.load ∅)) VUndefined Sample.open_channel
           sample_session (str "test-consumer-tag") world0).
  - reflexivity.
  - vm_compute. discriminate.
  - reflexivity.
Defined.

Lemma second_consume_overwrites_tag_witness :
  exists this1 callback1 w1 this2 callback2 w2,
    @Consumer.consume Sample.platform (Normal Sample.open_channel)
      (Consumer.new (Config.load ∅)) Sample.resolving_handler VUndefined
      world0
    = (Normal (str "test-consumer-tag", this1, callback1), w1)
    /\ @Consumer.consume Sample.platform (Normal sample_second_channel)
         this1 Sample.resolving_handler Sample.noAck_options w1
       = (Normal (str "second-consumer-tag", this2, callback2), w2)
    /\ Consumer.consumerTag this2 = Some (str "second-consumer-tag")
    /\ ConsumerLifecycle.cancelled_tags
         (snd (ConsumerLifecycle.cancel (Normal sample_session) this2))
       = [str "second-consumer-tag"]
    /\ Consumer.consumerTag
         (snd (fst (ConsumerLifecycle.cancel (Normal sample_session) this2)))
       = None.
Proof.
  apply (@second_consume_overwrites_tag Sample.platform
           Sample.resolving_handler (Consumer.new (Config.load ∅))
           VUndefined Sample.noAck_options Sample.open_channel
           sample_second_channel sample_session (str "test-consumer-tag")
           (str "second-consumer-tag") world0).
  - reflexivity.
  - reflexivity.
  - vm_compute. discriminate.
  - reflexivity.
Defined.

(* ===================================================================== *)
(** * The user model *)
(* ===================================================================== *)

Section PatternProperties.

Import Text.

Lemma test_nil pattern : test [] pattern = true <-> pattern = [].
Proof. destruct pattern; simpl; split; intros E; congruence. Qed.

(** The backtracking test accepts exactly the strings the pattern stands
    for. *)
Lemma test_denotes s : forall pattern,
  test s pattern = true <-> denotes pattern s.
Proof.
  induction s as [| x s IH]; intros pattern.
  - rewrite test_nil. destruct pattern as [| [c | accept] pattern]; simpl.
    + split; reflexivity.
    + split; [intros E; discriminate E |].
      intros (s' & E & _). discriminate E.
    + split; [intros E; discriminate E |].
      intros (run & s' & Hrun & _ & E & _).
      destruct run; [contradiction | discriminate E].
  - destruct pattern as [| [c | accept] pattern]; simpl.
    + split; intros E; discriminate E.
    + rewrite andb_true_iff, N.eqb_eq, IH. split.
      * intros [-> Hd]. eauto.
      * intros (s' & E & Hd). injection E as -> ->. auto.
    + rewrite andb_true_iff, orb_true_iff, !IH. split.
      * intros [Hx [Hd | Hd]].
        -- exists [x], s. simpl. rewrite Hx. split_and!; auto; discriminate.
        -- simpl in Hd. destruct Hd as (run & s' & Hrun & Hall & -> & Hd).
           exists (x :: run), s'. simpl. rewrite Hx, Hall.
           split_and!; auto; discriminate.
      * intros (run & s' & Hrun & Hall & E & Hd).
        destruct run as [| y run]; [contradiction |].
        injection E as <- ->. simpl in Hall.
        apply andb_true_iff in Hall as [Hx Hall]. split; [exact Hx |].
        destruct run as [| z run].
        -- left. exact Hd.
        -- right. simpl. exists (z :: run), s'.
           split_and!; auto; discriminate.
Qed.

(** The address pattern accepts exactly the strings [local@domain.tld]. *)
Lemma emailRegex_shape s : test s emailRegex = true <-> email_shape s.
Proof.
  rewrite test_denotes. unfold emailRegex, email_shape. simpl. split.
  - intros (local & s1 & Hl & Hal & -> & s2 & -> & domain & s3 & Hd & Had
            & -> & s4 & -> & tld & s5 & Ht & Hat & -> & ->).
    exists local, domain, tld. rewrite app_nil_r. split_and!; auto.
  - intros (local & domain & tld & -> & Hl & Hd & Ht & Hal & Had & Hat).
    exists local, (64%N :: domain ++ 46%N :: tld). split_and!; auto.
    eexists. split; [reflexivity |].
    exists domain, (46%N :: tld). split_and!; auto.
    eexists. split; [reflexivity |].
    exists tld, []. rewrite app_nil_r. split_and!; auto.
Qed.

End PatternProperties.

Section UserProperties.
Context `{Platform}.

(** X21.  [validate()] returns [true] exactly when [email] is a string of
    the form [local@domain.tld] (three non-empty parts free of white
    space and of [@]) and [name] is a string with at least two characters
    left after trimming. *)
Theorem user_validate_accepts (this : gmap (list N) value) :
  User.validate this = Normal true
  <-> exists email name,
        this !! str "email" = Some (VString email)
        /\ email_shape email
        /\ this !! str "name" = Some (VString name)
        /\ (2 <= length (trim name))%nat.
Proof.
  unfold User.validate, User.prop. split.
  - destruct (this !! str "email") as [[| | | |email| |] |] eqn:He;
      simpl; try (intros E; discriminate E).
    case_bool_decide as Hempty; simpl; [intros E; discriminate E |].
    destruct (Text.test email Text.emailRegex) eqn:Hre; simpl;
      [| intros E; discriminate E].
    destruct (this !! str "name") as [[| | | |name| |] |] eqn:Hn;
      simpl; try (intros E; discriminate E).
    case_bool_decide as Hempty'; simpl; [intros E; discriminate E |].
    destruct (length (trim name) <? 2)%nat eqn:Hlen;
      [intros E; discriminate E |].
    intros _. exists email, name. split_and!; auto.
    + apply emailRegex_shape, Hre.
    + apply Nat.ltb_ge, Hlen.
  - intros (email & name & -> & Hshape & -> & Hlen). simpl.
    apply emailRegex_shape in Hshape.
    assert (Hne : email <> []).
    { intros ->. discriminate Hshape. }
    assert (Hnn : name <> []).
    { intros ->. simpl in Hlen. lia. }
    rewrite !bool_decide_eq_false_2 by assumption. simpl.
    rewrite Hshape. simpl.
    rewrite (proj2 (Nat.ltb_ge _ _) Hlen). reflexivity.
Qed.

Lemma user_new_returns email name additionalData w :
  User.new email name additionalData w
  = (Normal
       (User.assign
          {| User.own :=
               <[str "id" := VString (uuid_at (uuid_reads w))]>
               (<[str "email" := email]>
               (<[str "name" := name]>
               (<[str "createdAt" :=
                    VString (toISOString (now_at (clock_reads w)))]>
               (<[str "updatedAt" :=
                    VString (toISOString (now_at (S (clock_reads w))))]>
                  ∅))));
             User.prototype := None |}
          (own_enumerable additionalData)),
     after_user w).
Proof. reflexivity. Qed.

(** X22.  [Object.assign(this, additionalData)] comes last in the
    constructor.  Every property of the additional data under a key
    other than [__proto__] is a property of the user, with its value,
    also under the keys [id], [email], [name], [createdAt] and
    [updatedAt]; the generated identifier is the [id] only when the
    additional data bring none.  A property named [__proto__] never
    becomes a property of the user: its value replaces the prototype of
    the user when it is an object, an array or [null], and is dropped
    otherwise. *)
Theorem user_additional_data_wins (email name additionalData : value)
        (w : World) :
  exists user,
    User.new email name additionalData w = (Normal user, after_user w)
    /\ (forall key v,
          key <> str "__proto__" ->
          own_enumerable additionalData !! key = Some v ->
          User.own user !! key = Some v)
    /\ (own_enumerable additionalData !! str "id" = None ->
        User.own user !! str "id"
        = Some (VString (uuid_at (uuid_reads w))))
    /\ User.own user !! str "__proto__" = None
    /\ (forall v,
          User.prototype user = Some v
          <-> own_enumerable additionalData !! str "__proto__" = Some v
              /\ User.is_prototype v = true).
Proof.
  eexists. split; [apply user_new_returns |].
  unfold User.assign; simpl. split_and!.
  - intros key v Hne Hk. apply lookup_union_Some_l.
    rewrite lookup_delete_ne by congruence. exact Hk.
  - intros Hk. rewrite lookup_union_r.
    + apply lookup_insert_eq.
    + rewrite lookup_delete_ne
        by (intros E; vm_compute in E; discriminate E).
      exact Hk.
  - rewrite lookup_union_r by apply lookup_delete_eq.
    repeat (rewrite lookup_insert_ne
              by (intros E; vm_compute in E; discriminate E)).
    apply lookup_empty.
  - intros v. unfold User.assigned_prototype.
    destruct (own_enumerable additionalData !! str "__proto__")
      as [proto |] eqn:Hp.
    + destruct (User.is_prototype proto) eqn:Hproto.
      * split.
        -- intros E. injection E as <-. auto.
        -- intros [E _]. exact E.
      * split; [intros E; discriminate E |].
        intros [E Hv]. injection E as <-. congruence.
    + split; [intros E; discriminate E | intros [E _]; discriminate E].
Qed.

Lemma user_toJSON_props (this : gmap (list N) value) :
  field (User.toJSON this) "id" = User.prop this "id"
  /\ field (User.toJSON this) "email" = User.prop this "email"
  /\ field (User.toJSON this) "name" = User.prop this "name"
  /\ field (User.toJSON this) "createdAt" = User.prop this "createdAt"
  /\ field (User.toJSON this) "updatedAt" = User.prop this "updatedAt".
Proof.
  unfold field, User.toJSON; simpl own_enumerable.
  split_and!;
    repeat (rewrite lookup_insert_ne
              by (intros E; vm_compute in E; discriminate E));
    rewrite lookup_insert_eq; reflexivity.
Qed.

Lemma user_toJSON_key (this : gmap (list N) value) (key : string) :
  In key ["id"; "email"; "name"; "createdAt"; "updatedAt"]%string ->
  own_enumerable (User.toJSON this) !! str key = Some (User.prop this key).
Proof.
  unfold User.toJSON; simpl own_enumerable.
  intros [<- | [<- | [<- | [<- | [<- | []]]]]];
    repeat (rewrite lookup_insert_ne
              by (intros E; vm_compute in E; discriminate E));
    rewrite lookup_insert_eq; reflexivity.
Qed.

Lemma user_fromJSON_object (props : gmap (list N) value) (w : World) :
  User.fromJSON (VObject props) w
  = (Normal
       (User.assign
          (User.assign
             {| User.own :=
                  <[str "id" := VString (uuid_at (uuid_reads w))]>
                  (<[str "email" := default VUndefined
                                      (props !! str "email")]>
                  (<[str "name" := default VUndefined
                                     (props !! str "name")]>
                  (<[str "createdAt" :=
                       VString (toISOString (now_at (clock_reads w)))]>
                  (<[str "updatedAt" :=
                       VString (toISOString
                                  (now_at (S (clock_reads w))))]>
                     ∅))));
                User.prototype := None |}
             ∅)
          (filter (fun kv => kv.1 <> str "email" /\ kv.1 <> str "name")
                  props)),
     after_user w).
Proof. reflexivity. Qed.

(** [fromJSON] on an object: the keys other than [email] and [name] are
    those of the object, [email] and [name] are read from it. *)
Lemma user_fromJSON_props (props : gmap (list N) value) (w : World)
      (key : string) :
  match User.fromJSON (VObject props) w with
  | (Normal copy, _) =>
      str key <> str "__proto__" ->
      is_Some (props !! str key) -> User.prop copy key
                                    = default VUndefined (props !! str key)
  | (Throw _, _) => False
  end.
Proof.
  rewrite user_fromJSON_object. intros Hproto [v Hv].
  unfold User.prop, User.assign; simpl.
  rewrite delete_empty, (left_id ∅ (∪)).
  destruct (decide (str key = str "email")) as [He | He];
    [| destruct (decide (str key = str "name")) as [Hn | Hn]].
  - rewrite lookup_union_r.
    + rewrite He.
      rewrite lookup_insert_ne
        by (intros E; vm_compute in E; discriminate E).
      rewrite lookup_insert_eq. reflexivity.
    + rewrite lookup_delete_ne by congruence.
      apply map_lookup_filter_None. right. intros v' _ [Hne _].
      simpl in Hne. contradiction.
  - rewrite lookup_union_r.
    + rewrite Hn.
      rewrite !lookup_insert_ne
        by (intros E; vm_compute in E; discriminate E).
      rewrite lookup_insert_eq. reflexivity.
    + rewrite lookup_delete_ne by congruence.
      apply map_lookup_filter_None. right. intros v' _ [_ Hne].
      simpl in Hne. contradiction.
  - erewrite lookup_union_Some_l; [rewrite Hv; reflexivity |].
    rewrite lookup_delete_ne by congruence.
    apply map_lookup_filter_Some. split; [exact Hv | split; assumption].
Qed.

(** X23.  [User.fromJSON(user.toJSON())] has the JSON form of the user:
    [email] and [name] go through the constructor, [id], [createdAt] and
    [updatedAt] are copied over the freshly generated ones. *)
Theorem user_round_trip (this : gmap (list N) value) (w : World) :
  exists copy w',
    User.fromJSON (User.toJSON this) w = (Normal copy, w')
    /\ User.toJSON copy = User.toJSON this.
Proof.
  pose proof (fun key => user_fromJSON_props
                           (own_enumerable (User.toJSON this)) w key)
    as Hprops.
  change (VObject (own_enumerable (User.toJSON this)))
    with (User.toJSON this) in Hprops.
  destruct (User.fromJSON (User.toJSON this) w) as [[copy | e] w'] eqn:Hrun;
    [| destruct (Hprops "id"%string)].
  exists copy, w'. split; [reflexivity |].
  assert (Hsame : forall key : string,
             In key ["id"; "email"; "name"; "createdAt"; "updatedAt"]%string
             -> User.prop copy key = User.prop this key).
  { intros key Hkey. rewrite (Hprops key).
    - rewrite (user_toJSON_key this key Hkey). reflexivity.
    - simpl in Hkey.
      destruct Hkey as [<- | [<- | [<- | [<- | [<- | []]]]]];
        intros E; vm_compute in E; discriminate E.
    - rewrite (user_toJSON_key this key Hkey). eauto. }
  unfold User.toJSON at 1.
  rewrite (Hsame "id"%string), (Hsame "email"%string),
    (Hsame "name"%string), (Hsame "createdAt"%string),
    (Hsame "updatedAt"%string) by (simpl; tauto).
  reflexivity.
Qed.

End UserProperties.

(* ===================================================================== *)
(** * The user service *)
(* ===================================================================== *)

Section UserServiceProperties.
Context `{Platform}.
Variable createChannel : completion Channel.
Variable publisher : Publisher.t.

Import UserService.

Lemma to_text_returns v w :
  stringifiable v = true -> to_text v w = (Normal tt, w).
Proof. intros Hs. unfold to_text. rewrite Hs. reflexivity. Qed.

Lemma to_text_throws v w :
  stringifiable v = false ->
  to_text v w
  = (Throw (TypeError (str "Cannot convert object to primitive value")), w).
Proof. intros Hs. unfold to_text. rewrite Hs. reflexivity. Qed.

(** The methods of the user built from plain request data can be
    called. *)
Lemma built_user_methods {A : Type} userData w (name : string)
      (body : completion A) :
  plain_registration userData ->
  name = "validate"%string \/ name = "toJSON"%string ->
  User.call_method (built_user userData w) name body = body.
Proof.
  intros (_ & Hv & Hj & Hp) Hname.
  assert (Hown : User.own (built_user userData w) !! str name = None).
  { unfold built_user, User.assign; simpl.
    apply lookup_union_None. split.
    - destruct Hname as [-> | ->];
        (rewrite lookup_delete_ne
           by (intros E; vm_compute in E; discriminate E));
        assumption.
    - destruct Hname as [-> | ->];
        repeat (rewrite lookup_insert_ne
                  by (intros E; vm_compute in E; discriminate E));
        apply lookup_empty. }
  assert (Hproto : User.prototype (built_user userData w) = None).
  { unfold built_user, User.assign; simpl. rewrite Hp. reflexivity. }
  unfold User.call_method. rewrite Hown, Hproto. reflexivity.
Qed.

(** The first half of [registerUser]: the user is built from the request
    data and validated. *)
Lemma validated_user_runs userData w :
  plain_registration userData ->
  validated_user userData w
  = (match User.validate (User.own (built_user userData w)) with
     | Normal _ => Normal (built_user userData w)
     | Throw e => Throw e
     end, after_user w).
Proof.
  intros Hplain.
  pose proof (built_user_methods userData w "validate"
                (User.validate (User.own (built_user userData w))) Hplain
                (or_introl eq_refl)) as Hcall.
  destruct Hplain as (Hdef & _).
  unfold validated_user. unfold bind at 1.
  rewrite (get_prop_field userData "email") by (try exact Hdef; discriminate).
  unfold bind at 1.
  rewrite (get_prop_field userData "name") by (try exact Hdef; discriminate).
  unfold bind at 1. rewrite user_new_returns.
  fold (built_user userData w). rewrite Hcall. reflexivity.
Qed.

Lemma user_validate_errors (this : gmap (list N) value) (e : exn) :
  User.validate this = Throw e ->
  e = User.email_required \/ e = User.email_invalid
  \/ e = User.name_required \/ e = User.name_too_short.
Proof.
  unfold User.validate.
  destruct (User.prop this "email") as [| | | |email| |];
    try (intros E; injection E as <-; auto).
  destruct (negb (truthy (VString email)));
    [intros E; injection E as <-; auto |].
  destruct (negb (Text.test email Text.emailRegex));
    [intros E; injection E as <-; auto |].
  destruct (User.prop this "name") as [| | | |name| |];
    try (intros E; injection E as <-; auto).
  destruct (negb (truthy (VString name)));
    [intros E; injection E as <-; auto |].
  destruct (length (trim name) <? 2)%nat; intros E;
    [injection E as <-; auto | discriminate E].
Qed.

(** A validated address is a string; so is an address that is refused
    for its format. *)
Lemma validated_email_is_text (this : gmap (list N) value) :
  User.validate this = Normal true \/ User.validate this = Throw User.email_invalid ->
  stringifiable (User.prop this "email") = true.
Proof.
  unfold User.validate.
  destruct (User.prop this "email") as [| | | |email| |];
    intros [E | E]; try discriminate E; reflexivity.
Qed.

(** What the [catch] block makes of the four errors of [validate]: the
    message of a malformed address has no ["Email"] and no ["Name"] in
    it. *)
Lemma classify_validate_errors :
  classify User.email_required
  = Errors.ValidationError (exn_message User.email_required)
  /\ classify User.email_invalid = User.email_invalid
  /\ classify User.name_required
     = Errors.ValidationError (exn_message User.name_required)
  /\ classify User.name_too_short
     = Errors.ValidationError (exn_message User.name_too_short).
Proof. split_and!; reflexivity. Qed.

Lemma classify_either (e : exn) :
  classify e = e \/ classify e = Errors.ValidationError (exn_message e).
Proof.
  unfold classify.
  destruct (Text.includes (str "Email") (exn_message e)
            || Text.includes (str "Name") (exn_message e)); auto.
Qed.

Lemma registerUser_invalid (this : UserService.t) (userData : value)
      (w : World) (e : exn) :
  plain_registration userData ->
  User.validate (User.own (built_user userData w)) = Throw e ->
  registerUser createChannel publisher this userData w
  = (Throw (classify e), this, snd (logger LogError (after_user w))).
Proof.
  intros Hplain Hval. unfold registerUser.
  rewrite (validated_user_runs _ _ Hplain), Hval. reflexivity.
Qed.

(** X24.  Request data that fail [validate()] are neither stored nor
    announced.  The caller gets a [ValidationError] carrying the message
    of [validate()], except for a malformed address: "Invalid email
    format" mentions neither "Email" nor "Name", and [registerUser] fails
    with the plain [Error] of [validate()].  (The request data are plain:
    they can be read, hide no method of the user and leave its prototype
    alone.) *)
Theorem register_rejects_invalid_user (this : UserService.t)
        (userData : value) (w : World) (e : exn) :
  plain_registration userData ->
  User.validate (User.own (built_user userData w)) = Throw e ->
  exists err w',
    registerUser createChannel publisher this userData w
    = (Throw err, this, w')
    /\ calls w' = calls w ++ [Log LogError]
    /\ (e = User.email_invalid ->
        err = User.email_invalid /\ Errors.instanceof_AppError err = false)
    /\ (e <> User.email_invalid ->
        err = Errors.ValidationError (exn_message e)).
Proof.
  intros Hplain Hval.
  destruct classify_validate_errors as (K1 & K2 & K3 & K4).
  eexists (classify e), _. split.
  { apply registerUser_invalid; assumption. }
  split; [reflexivity |]. split.
  - intros ->. rewrite K2. split; reflexivity.
  - intros Hne.
    destruct (user_validate_errors _ _ Hval) as [-> | [-> | [-> | ->]]];
      try assumption. contradiction.
Qed.

(** Request data with an own property [__proto__] that holds an object,
    an array or [null]: the user is built, but [user.validate] is no
    function any more. *)
Lemma validated_user_without_prototype userData w proto :
  defined userData ->
  own_enumerable userData !! str "__proto__" = Some proto ->
  User.is_prototype proto = true ->
  validated_user userData w
  = (Throw (TypeError (str "user.validate is not a function")),
     after_user w).
Proof.
  intros Hdef Hp Hproto.
  unfold validated_user. unfold bind at 1.
  rewrite (get_prop_field userData "email") by (try exact Hdef; discriminate).
  unfold bind at 1.
  rewrite (get_prop_field userData "name") by (try exact Hdef; discriminate).
  unfold bind at 1. rewrite user_new_returns.
  unfold User.call_method, User.assign, User.assigned_prototype; simpl.
  rewrite Hp, Hproto.
  destruct ((delete (str "__proto__") (own_enumerable userData) ∪ _)
            !! str "validate"); reflexivity.
Qed.

(** X30.  Request data with an own property [__proto__] that holds an
    object, an array or [null] (as [JSON.parse] produces for a body with
    such a key) are never registered: [Object.assign] replaces the
    prototype of the new user, [user.validate()] throws a [TypeError],
    which mentions neither "Email" nor "Name" and so is passed on as it
    is, and nothing is stored or published. *)
Theorem register_rejects_replaced_prototype (this : UserService.t)
        (userData proto : value) (w : World) :
  defined userData ->
  own_enumerable userData !! str "__proto__" = Some proto ->
  User.is_prototype proto = true ->
  exists err w',
    registerUser createChannel publisher this userData w
    = (Throw err, this, w')
    /\ exn_class err = TypeErrorClass
    /\ Errors.instanceof_AppError err = false
    /\ calls w' = calls w ++ [Log LogError].
Proof.
  intros Hdef Hp Hproto. unfold registerUser.
  rewrite (validated_user_without_prototype _ _ _ Hdef Hp Hproto).
  eexists _, _. split; [reflexivity |]. split_and!; reflexivity.
Qed.

Lemma published_app (cs cs' : list call) :
  published (cs ++ cs') = published cs ++ published cs'.
Proof. unfold published. apply omap_app. Qed.

(** [publish] when the channel cannot be obtained, in any world. *)
Lemma publish_without_channel message routingKey options e w :
  createChannel = Throw e ->
  exists w',
    Publisher.publish createChannel publisher message routingKey options w
    = (Throw e, w')
    /\ uuid_reads w' = uuid_reads w /\ clock_reads w' = clock_reads w
    /\ published (calls w') = published (calls w).
Proof.
  intros Hch. eexists. split.
  { unfold Publisher.publish, try_catch, bind, perform, logger, throw.
    rewrite Hch. reflexivity. }
  simpl. split_and!; try reflexivity.
  rewrite !published_app. simpl. rewrite !app_nil_r. reflexivity.
Qed.

(** [publish] of an object on a channel that accepts everything, in any
    world. *)
Lemma publish_on_accepting_channel props routingKey options channel w :
  createChannel = Normal channel ->
  accepting channel ->
  exists result w',
    Publisher.publish createChannel publisher (VObject props) routingKey
      options w = (Normal result, w')
    /\ published (calls w')
       = published (calls w)
         ++ [(Publisher.exchange publisher,
              Publisher.routingKey_or_default publisher routingKey,
              Buffer_from (JSON_stringify (VObject props)),
              Publisher.messageOptions publisher options)].
Proof.
  intros Hch [Hassert Hwrite].
  destruct (Hwrite (Publisher.exchange publisher)
              (Publisher.routingKey_or_default publisher routingKey)
              (Buffer_from (JSON_stringify (VObject props)))
              (Publisher.messageOptions publisher options))
    as [result Hresult].
  exists result.
  destruct (truthy result) eqn:Htruthy; eexists;
    (split;
     [ unfold Publisher.publish, try_catch, bind, perform, logger, ret;
       rewrite Hch, Hassert; simpl; rewrite Hresult, Htruthy; reflexivity
     | simpl; rewrite !published_app; simpl; rewrite !app_nil_r;
       reflexivity ]).
Qed.

(** The [try] block of [registerUser] after [validate()], up to the
    publication: the first log line is written when [user.id] can be
    converted to text, and the block is left with a [TypeError] right
    there when it cannot. *)
Lemma announce_runs userData w w1 :
  plain_registration userData ->
  User.validate (User.own (built_user userData w)) = Normal true ->
  announce createChannel publisher (built_user userData w) w1
  = if stringifiable (User.prop (User.own (built_user userData w)) "id")
    then
      (let! message :=
         Message.new (User.toJSON (User.own (built_user userData w)))
           (VString (str "user.registered")) event_metadata in
       let! written := Publisher.publish createChannel publisher
                         (Message.toJSON message) VUndefined VUndefined in
       logger LogInfo)
        (snd (logger LogInfo w1))
    else
      (Throw (TypeError (str "Cannot convert object to primitive value")),
       w1).
Proof.
  intros Hplain Hval.
  pose proof (validated_email_is_text _ (or_introl Hval)) as Hemail.
  pose proof (built_user_methods userData w "toJSON"
                (Normal (User.toJSON (User.own (built_user userData w))))
                Hplain (or_intror eq_refl)) as Hcall.
  unfold announce. unfold bind at 1.
  destruct (stringifiable (User.prop (User.own (built_user userData w)) "id"))
    eqn:Hid.
  - rewrite (to_text_returns _ _ Hid). unfold bind at 1.
    rewrite (to_text_returns _ _ Hemail). unfold bind at 1.
    unfold logger at 1, perform at 1. unfold bind at 1. rewrite Hcall.
    unfold bind, logger, perform. cbn [fst snd]. rewrite !new_returns.
    match goal with |- context [Publisher.publish ?a ?b ?c ?d ?f ?w0] =>
      destruct (Publisher.publish a b c d f w0) as [[written | e] w3] end;
      [| reflexivity].
    rewrite (to_text_returns _ _ Hid). reflexivity.
  - rewrite (to_text_throws _ _ Hid). reflexivity.
Qed.

(** X25.  The user is stored before the registration event is published
    and is not taken out again.  When the channel cannot be obtained,
    [registerUser] fails, nothing is written to the broker, and the user
    is in [users] all the same.  The failure is the broker's error, or a
    [ValidationError] of the same message; unless [user.id] (which the
    request data may set) cannot be converted to text: then the first
    log line throws a [TypeError] before the publisher is called, and
    that is the failure. *)
Theorem register_keeps_user_when_publish_fails (this : UserService.t)
        (userData : value) (w : World) (e : exn) :
  plain_registration userData ->
  User.validate (User.own (built_user userData w)) = Normal true ->
  createChannel = Throw e ->
  exists err this' w',
    registerUser createChannel publisher this userData w
    = (Throw err, this', w')
    /\ users this'
       = (User.prop (User.own (built_user userData w)) "id",
          built_user userData w)
         :: users this
    /\ published (calls w') = published (calls w)
    /\ (stringifiable (User.prop (User.own (built_user userData w)) "id")
        = true ->
        err = e \/ err = Errors.ValidationError (exn_message e))
    /\ (stringifiable (User.prop (User.own (built_user userData w)) "id")
        = false ->
        exn_class err = TypeErrorClass).
Proof.
  intros Hplain Hval Hch.
  unfold registerUser. rewrite (validated_user_runs _ _ Hplain), Hval.
  rewrite (announce_runs _ _ _ Hplain Hval).
  destruct (stringifiable (User.prop (User.own (built_user userData w)) "id")).
  - unfold bind at 1. rewrite new_returns. unfold bind at 1.
    match goal with |- context [Publisher.publish _ _ ?m _ _ ?wp] =>
      destruct (publish_without_channel m VUndefined VUndefined e wp Hch)
        as (w' & -> & _ & _ & Hw') end.
    eexists _, _, _. split; [reflexivity |]. split; [reflexivity |].
    split.
    { simpl. rewrite published_app, Hw'. simpl.
      rewrite published_app. simpl. rewrite !app_nil_r. reflexivity. }
    split; [intros _; apply classify_either | intros E; discriminate E].
  - eexists _, _, _. split; [reflexivity |]. split; [reflexivity |].
    split.
    { simpl. rewrite published_app. simpl. rewrite app_nil_r. reflexivity. }
    split; [intros E; discriminate E | intros _; reflexivity].
Qed.

(** X26.  A valid registration on a working channel, with a [user.id]
    that can be converted to text (the generated identifier always can):
    the user built from the request data is returned and stored under
    its [id], and exactly one message is written, on the publisher's
    exchange with its default routing key and options: the JSON text of
    an envelope of type ["user.registered"] whose [data] is the JSON form
    of the user and whose metadata name the source ["user-service"]. *)
Theorem register_stores_and_announces (this : UserService.t)
        (userData : value) (w : World) (channel : Channel) :
  plain_registration userData ->
  User.validate (User.own (built_user userData w)) = Normal true ->
  stringifiable (User.prop (User.own (built_user userData w)) "id") = true ->
  createChannel = Normal channel ->
  accepting channel ->
  exists this' w' envelope props,
    registerUser createChannel publisher this userData w
    = (Normal (built_user userData w), this', w')
    /\ users this'
       = (User.prop (User.own (built_user userData w)) "id",
          built_user userData w)
         :: users this
    /\ Message.type envelope = VString (str "user.registered")
    /\ Message.data envelope
       = User.toJSON (User.own (built_user userData w))
    /\ Message.metadata envelope = VObject props
    /\ props !! str "source" = Some (VString (str "user-service"))
    /\ published (calls w')
       = published (calls w)
         ++ [(Publisher.exchange publisher,
              VString (Publisher.defaultRoutingKey publisher),
              Buffer_from (JSON_stringify (Message.toJSON envelope)),
              Publisher.messageOptions publisher VUndefined)].
Proof.
  intros Hplain Hval Hid Hch Haccept.
  pose proof (fun props wp =>
                publish_on_accepting_channel props VUndefined VUndefined
                  channel wp Hch Haccept) as Hpub.
  unfold registerUser. rewrite (validated_user_runs _ _ Hplain), Hval.
  rewrite (announce_runs _ _ _ Hplain Hval), Hid.
  unfold bind at 1. rewrite new_returns. unfold bind at 1.
  match goal with |- context [Publisher.publish _ _ (Message.toJSON ?m) _ _ ?wp] =>
    set (envelope := m);
    destruct (Hpub (own_enumerable (Message.toJSON envelope)) wp)
      as (result & w' & Hrun & Hw') end.
  change (VObject (own_enumerable (Message.toJSON envelope)))
    with (Message.toJSON envelope) in Hrun, Hw'.
  rewrite Hrun.
  eexists _, _, envelope, _. split; [reflexivity |].
  split; [reflexivity |]. split; [reflexivity |]. split; [reflexivity |].
  split; [reflexivity |]. split.
  { simpl. rewrite lookup_insert_ne
      by (intros E; vm_compute in E; discriminate E).
    apply lookup_insert_eq. }
  simpl. rewrite published_app, Hw'. simpl.
  rewrite published_app. simpl. rewrite !app_nil_r. reflexivity.
Qed.

End UserServiceProperties.

Lemma sample_registrations_plain :
  plain_registration sample_registration
  /\ plain_registration sample_malformed_registration
  /\ plain_registration sample_registration_without_email.
Proof.
  unfold plain_registration, defined.
  split_and!; try discriminate; vm_compute; reflexivity.
Qed.

Lemma register_rejects_invalid_user_witness :
  exists err w',
    @UserService.registerUser Sample.platform (Normal Sample.open_channel)
      (publisher ∅) empty_service sample_malformed_registration world0
    = (Throw err, empty_service, w')
    /\ calls w' = calls world0 ++ [Log LogError]
    /\ (User.email_invalid = User.email_invalid ->
        err = User.email_invalid /\ Errors.instanceof_AppError err = false)
    /\ (User.email_invalid <> User.email_invalid ->
        err = Errors.ValidationError (exn_message User.email_invalid)).
Proof.
  apply (@register_rejects_invalid_user Sample.platform
           (Normal Sample.open_channel) (publisher ∅) empty_service
           sample_malformed_registration world0 User.email_invalid).
  - apply sample_registrations_plain.
  - vm_compute. reflexivity.
Defined.

Lemma register_keeps_user_when_publish_fails_witness :
  let user := @built_user Sample.platform sample_registration world0 in
  exists err this' w',
    @UserService.registerUser Sample.platform (Throw Sample.refused)
      (publisher ∅) empty_service sample_registration world0
    = (Throw err, this', w')
    /\ UserService.users this'
       = (User.prop (User.own user) "id", user)
         :: UserService.users empty_service
    /\ published (calls w') = published (calls world0)
    /\ (stringifiable (User.prop (User.own user) "id") = true ->
        err = Sample.refused
        \/ err = Errors.ValidationError (exn_message Sample.refused))
    /\ (stringifiable (User.prop (User.own user) "id") = false ->
        exn_class err = TypeErrorClass).
Proof.
  apply (@register_keeps_user_when_publish_fails Sample.platform
           (Throw Sample.refused) (publisher ∅) empty_service
           sample_registration world0 Sample.refused).
  - apply sample_registrations_plain.
  - vm_compute. reflexivity.
  - reflexivity.
Defined.

Lemma register_rejects_replaced_prototype_witness :
  exists err w',
    @UserService.registerUser Sample.platform (Normal Sample.open_channel)
      (publisher ∅) empty_service sample_registration_with_proto world0
    = (Throw err, empty_service, w')
    /\ exn_class err = TypeErrorClass
    /\ Errors.instanceof_AppError err = false
    /\ calls w' = calls world0 ++ [Log LogError].
Proof.
  apply (@register_rejects_replaced_prototype Sample.platform
           (Normal Sample.open_channel) (publisher ∅) empty_service
           sample_registration_with_proto (VObject ∅) world0).
  - split; discriminate.
  - vm_compute. reflexivity.
  - reflexivity.
Defined.

Lemma open_channel_accepting : accepting Sample.open_channel.
Proof. split; intros; [reflexivity | eexists; reflexivity]. Qed.

Lemma register_stores_and_announces_witness :
  let user := @built_user Sample.platform sample_registration world0 in
  exists this' w' envelope props,
    @UserService.registerUser Sample.platform (Normal Sample.open_channel)
      (publisher ∅) empty_service sample_registration world0
    = (Normal user, this', w')
    /\ UserService.users this'
       = (User.prop (User.own user) "id", user)
         :: UserService.users empty_service
    /\ Message.type envelope = VString (str "user.registered")
    /\ Message.data envelope = User.toJSON (User.own user)
    /\ Message.metadata envelope = VObject props
    /\ props !! str "source" = Some (VString (str "user-service"))
    /\ published (calls w')
       = published (calls world0)
         ++ [(Publisher.exchange (publisher ∅),
              VString (Publisher.defaultRoutingKey (publisher ∅)),
              @Buffer_from Sample.platform
                (@JSON_stringify Sample.platform (Message.toJSON envelope)),
              Publisher.messageOptions (publisher ∅) VUndefined)].
Proof.
  apply (@register_stores_and_announces Sample.platform
           (Normal Sample.open_channel) (publisher ∅) empty_service
           sample_registration world0 Sample.open_channel).
  - apply sample_registrations_plain.
  - vm_compute. reflexivity.
  - vm_compute. reflexivity.
  - reflexivity.
  - apply open_channel_accepting.
Defined.

(* ===================================================================== *)
(** * The HTTP face of a registration *)
(* ===================================================================== *)

Section HttpProperties.
Context `{Platform}.
Variable NODE_ENV : option jsstring.
Variable stack_of : exn -> jsstring.
Variable createChannel : completion Channel.
Variable publisher : Publisher.t.

(** X27.  Whatever the error, the response of [errorHandler] has a status
    that is not [0] and is repeated in the body, [success: false], and a
    message that is not empty: the message of the error, or
    ["Internal Server Error"] when that is empty.  An error without
    status code, or with the code [0], is answered [500]; and the stack
    is part of the body exactly when [NODE_ENV] is ["development"]. *)
Theorem errorHandler_response (err : exn) :
  let response := Http.errorHandler NODE_ENV stack_of err in
  Http.status response <> 0
  /\ (forall z, Http.statusCode err = Some z -> z <> 0 ->
                Http.status response = z)
  /\ (Http.statusCode err = None \/ Http.statusCode err = Some 0 ->
      Http.status response = 500)
  /\ Http.body response !! str "status"
     = Some (VNumber (Num (Http.status response)))
  /\ Http.body response !! str "success" = Some (VBool false)
  /\ (exists message,
        Http.body response !! str "message" = Some (VString message)
        /\ message <> []
        /\ (exn_message err <> [] -> message = exn_message err)
        /\ (exn_message err = [] ->
            message = str "Internal Server Error"))
  /\ (is_Some (Http.body response !! str "stack")
      <-> NODE_ENV = Some (str "development")).
Proof.
  unfold Http.errorHandler. simpl.
  set (code := match Http.statusCode err with
               | Some 0 | None => 500
               | Some z => z
               end).
  set (message := match exn_message err with
                  | [] => str "Internal Server Error"
                  | m => m
                  end).
  assert (Hcode : code <> 0).
  { unfold code. destruct (Http.statusCode err) as [[| p | p] |]; lia. }
  assert (Hmessage : message <> []
                     /\ (exn_message err <> [] -> message = exn_message err)
                     /\ (exn_message err = [] ->
                         message = str "Internal Server Error")).
  { unfold message. destruct (exn_message err).
    - split_and!; [vm_compute; discriminate | intros E; contradiction
                  | reflexivity].
    - split_and!; [discriminate | reflexivity | intros E; discriminate E]. }
  split_and!.
  - exact Hcode.
  - intros z Hz Hnz. unfold code. rewrite Hz. destruct z; congruence.
  - intros [Hz | Hz]; unfold code; rewrite Hz; reflexivity.
  - case_bool_decide;
      repeat (rewrite lookup_insert_ne
                by (intros E; vm_compute in E; discriminate E));
      apply lookup_insert_eq.
  - case_bool_decide;
      repeat (rewrite lookup_insert_ne
                by (intros E; vm_compute in E; discriminate E));
      apply lookup_insert_eq.
  - exists message. split; [| exact Hmessage].
    case_bool_decide;
      repeat (rewrite lookup_insert_ne
                by (intros E; vm_compute in E; discriminate E));
      apply lookup_insert_eq.
  - case_bool_decide as Henv.
    + rewrite lookup_insert_eq. split; [intros _; exact Henv | eauto].
    + repeat (rewrite lookup_insert_ne
                by (intros E; vm_compute in E; discriminate E)).
      rewrite lookup_empty. split; [intros [v Hv]; discriminate Hv |].
      intros E. contradiction.
Qed.

(** X28.  Over HTTP a registration that fails [validate()] stores
    nothing and is answered [400], with two exceptions that are answered
    [500]: a malformed address, whose error never becomes a
    [ValidationError], and an [email] that cannot be converted to text,
    on which the log line of the controller throws before the service is
    called.  (The request body is plain: it can be read, hides no method
    of the user and leaves its prototype alone.) *)
Theorem register_response_status (service : UserService.t)
        (requestBody : value) (w : World) (e : exn) :
  plain_registration requestBody ->
  User.validate (User.own (built_user requestBody w)) = Throw e ->
  exists response w',
    Http.registerUser NODE_ENV stack_of createChannel publisher service
      requestBody w = (response, service, w')
    /\ (e = User.email_invalid -> Http.status response = 500)
    /\ (stringifiable (field requestBody "email") = false ->
        Http.status response = 500)
    /\ (e <> User.email_invalid ->
        stringifiable (field requestBody "email") = true ->
        Http.status response = 400).
Proof.
  intros Hplain Hval.
  assert (Hmalformed : e = User.email_invalid ->
                       stringifiable (field requestBody "email") = true).
  { intros ->.
    pose proof (validated_email_is_text _ (or_intror Hval)) as Htext.
    unfold User.prop, built_user, User.assign in Htext; simpl in Htext.
    unfold field.
    destruct (own_enumerable requestBody !! str "email") as [v |] eqn:Hv.
    - rewrite (lookup_union_Some_l _ _ _ v) in Htext; [exact Htext |].
      rewrite lookup_delete_ne
        by (intros E; vm_compute in E; discriminate E).
      exact Hv.
    - reflexivity. }
  unfold Http.registerUser. unfold bind at 1.
  rewrite (get_prop_field requestBody "email")
    by (try apply Hplain; discriminate).
  unfold bind at 1.
  destruct (stringifiable (field requestBody "email")) eqn:Hemail.
  - rewrite (to_text_returns _ _ Hemail).
    set (w1 := snd (logger LogInfo w)).
    change (logger LogInfo w) with (@Normal exn unit tt, w1).
    assert (Hval1 : User.validate (User.own (built_user requestBody w1))
                    = Throw e) by exact Hval.
    cbv beta iota.
    rewrite (registerUser_invalid createChannel publisher service
               requestBody w1 e Hplain Hval1).
    eexists _, _. split; [reflexivity |].
    destruct (classify_validate_errors) as (K1 & K2 & K3 & K4). split_and!.
    + intros ->. rewrite K2. reflexivity.
    + intros E. discriminate E.
    + intros He _.
      destruct (user_validate_errors _ _ Hval) as [-> | [-> | [-> | ->]]];
        try contradiction; rewrite ?K1, ?K3, ?K4; reflexivity.
  - rewrite (to_text_throws _ _ Hemail).
    eexists _, _. split; [reflexivity |]. split_and!.
    + intros He. specialize (Hmalformed He). discriminate Hmalformed.
    + intros _. reflexivity.
    + intros _ E. discriminate E.
Qed.

End HttpProperties.

Lemma register_response_status_witness :
  exists response w',
    @Http.registerUser None (fun _ => []) Sample.platform
      (Normal Sample.open_channel) (publisher ∅) empty_service
      sample_registration_without_email world0
    = (response, empty_service, w')
    /\ (User.email_required = User.email_invalid ->
        Http.status response = 500)
    /\ (stringifiable (field sample_registration_without_email "email")
        = false ->
        Http.status response = 500)
    /\ (User.email_required <> User.email_invalid ->
        stringifiable (field sample_registration_without_email "email")
        = true ->
        Http.status response = 400).
Proof.
  apply (@register_response_status Sample.platform None (fun _ => [])
           (Normal Sample.open_channel) (publisher ∅) empty_service
           sample_registration_without_email world0 User.email_required).
  - apply sample_registrations_plain.
  - vm_compute. reflexivity.
Defined.

(* ===================================================================== *)
(** * The notification handler behind the consumer *)
(* ===================================================================== *)

Section NotificationProperties.
Context `{Platform}.

Lemma handleMessage_resolves content msg w :
  fst (NotificationService.handleMessage content msg w) = Normal tt.
Proof.
  unfold NotificationService.handleMessage, try_catch.
  match goal with |- context [match ?m w with _ => _ end] =>
    destruct (m w) as [[[] | e] w1] end; reflexivity.
Qed.

(** X29.  [handleMessage] of the notification service catches whatever
    goes wrong (a content that is no envelope, data without address).
    So the callback that [consume] registers with it, under manual
    acknowledgement, acknowledges every delivery that is not [null] and
    rejects none, whatever the content, as long as [channel.ack]
    returns. *)
Theorem notification_deliveries_always_acked (channel : Channel)
        (opts : gmap (list N) value) (m : Delivery) (w : World) :
  manual_ack opts ->
  ack channel m = Normal tt ->
  let handler := fun content msg =>
                   as_promise
                     (fst (NotificationService.handleMessage content msg w)) in
  result_of (Consumer.on_message channel handler opts (Some m)) = Normal tt
  /\ acked (trace_of (Consumer.on_message channel handler opts (Some m)))
     = [m]
  /\ rejected (trace_of (Consumer.on_message channel handler opts (Some m)))
     = [].
Proof.
  intros Hopt Hack handler.
  assert (Hh : handler (Consumer.parsedContent m) m = Normal tt)
    by (unfold handler; rewrite handleMessage_resolves; reflexivity).
  destruct (on_message_acked channel handler opts m Hopt Hh Hack)
    as [-> ->].
  split_and!; reflexivity.
Qed.

End NotificationProperties.

Lemma notification_deliveries_always_acked_witness :
  let handler := fun content msg =>
                   as_promise
                     (fst (@NotificationService.handleMessage Sample.platform
                             content msg world0)) in
  let callback := @Consumer.on_message Sample.platform Sample.open_channel
                    handler (Consumer.consumeOptions VUndefined)
                    (Some Sample.delivery) in
  result_of callback = Normal tt
  /\ acked (trace_of callback) = [Sample.delivery]
  /\ rejected (trace_of callback) = [].
Proof.
  apply (@notification_deliveries_always_acked Sample.platform
           Sample.open_channel (Consumer.consumeOptions VUndefined)
           Sample.delivery world0).
  - reflexivity.
  - reflexivity.
Defined.

(* ===================================================================== *)
(** * The repository's tests, replayed on the model *)
(* ===================================================================== *)

(** tests/models/message.test.js *)

Example test_validate_passes :
  Message.validate Sample.valid_message = Normal true.
Proof. reflexivity. Qed.

Example test_validate_data_missing :
  match result_of (@Message.new Sample.platform VUndefined
                     (VString (str "test.message")) VUndefined) with
  | Normal message => Message.validate message
  | Throw e => Throw e
  end = Throw data_required.
Proof. reflexivity. Qed.

Example test_validate_type_not_a_string :
  Message.validate
    {| Message.id := Message.id Sample.valid_message;
       Message.timestamp := Message.timestamp Sample.valid_message;
       Message.type := VNumber (Num 12345);
       Message.data := Message.data Sample.valid_message;
       Message.metadata := Message.metadata Sample.valid_message |}
  = Throw type_invalid.
Proof. reflexivity. Qed.

Example test_fromJSON_generates_id_and_timestamp :
  match result_of (@Message.fromJSON Sample.platform Sample.incomplete) with
  | Normal message =>
      Message.id message = VString (Sample.uuid 1)
      /\ Message.timestamp message = VNumber (Num 1700000000002)
      /\ Message.type message = VString (str "test")
      /\ Some (Message.data message)
         = own_enumerable Sample.incomplete !! str "data"
  | Throw _ => False
  end.
Proof. vm_compute. split_and!; reflexivity. Qed.

(** tests/rabbitmq/publisher.test.js *)

Example test_publish_string :
  published
    (trace_of (@Publisher.publish Sample.platform (Normal Sample.open_channel)
                 (publisher ∅) (VString (str "test message"))
                 (VString (str "test.key")) VUndefined))
  = [(str "message_exchange", VString (str "test.key"),
      @Buffer_from Sample.platform (str "test message"),
      <[str "persistent" := VBool true]> ∅)].
Proof. vm_compute. reflexivity. Qed.

Example test_publish_default_routing_key :
  fmap (fun '(_, routingKey, _, _) => routingKey)
    (published
       (trace_of (@Publisher.publish Sample.platform
                    (Normal Sample.open_channel) (publisher ∅)
                    Sample.testMessage VUndefined VUndefined)))
  = [VString (str "message.new")].
Proof. vm_compute. reflexivity. Qed.

(** The consumer tests on deliveries. *)

Example test_valid_delivery_is_acked :
  trace_of (@Consumer.on_message Sample.platform Sample.open_channel
              Sample.resolving_handler (Consumer.consumeOptions VUndefined)
              (Some Sample.delivery))
  = [Log LogDebug; HandlerCall (VObject ∅) Sample.delivery;
     ChannelAck Sample.delivery; Log LogDebug].
Proof. vm_compute. reflexivity. Qed.

Example test_null_delivery_is_ignored :
  trace_of (@Consumer.on_message Sample.platform Sample.open_channel
              Sample.resolving_handler (Consumer.consumeOptions VUndefined)
              None)
  = [Log LogWarn].
Proof. reflexivity. Qed.

(** src/config/rabbitmq.js on a few environments. *)

Example parseInt_examples :
  Config.parseInt (str "10") = Num 10
  /\ Config.parseInt (str " 42px") = Num 42
  /\ Config.parseInt (str "-7") = Num (-7)
  /\ Config.parseInt (str "ten") = NaN.
Proof. split_and!; reflexivity. Qed.

Example reconnectAttempts_from_environment :
  Config.reconnectAttempts
    (Config.connection
       (Config.load (<[str "RABBITMQ_RECONNECT_ATTEMPTS" := str "3"]> ∅)))
  = Num 3.
Proof. vm_compute. reflexivity. Qed.
